(** * Proctored interview session controller

    A shallow embedding of the client-side proctoring code of the hiring
    platform's front end:

    - [Recorder]   : [InterviewRecorder.jsx] (the interactive recorder);
    - [RecorderV0] : the earlier [InterviewRecorder] component
                     (face detection by the browser's detector only);
    - [Room]       : the [InterviewRoom] component (face-api.js landmarks,
                     head pose, the de-duplicated flag log).

    JavaScript numbers that hold counts, indices and millisecond timestamps
    are [Z] or [nat]; the numbers the code divides (pixel ratios, landmark
    coordinates, angles) are IEEE 754 binary64 values, i.e. [float].  React
    state and refs of one component are the fields of one record; a handler
    is a computation in the monad [Eff], which threads that record, collects
    the calls made to the browser and to the backend in a trace, and either
    returns or throws. *)

From Stdlib Require Import List ZArith Bool String Lia Floats Uint63.
From Stdlib Require Import DecimalString.
Import ListNotations.

Set Implicit Arguments.
(* A decimal literal such as 0.02 denotes the nearest binary64 value, as it
   does in JavaScript. *)
Set Warnings "-inexact-float".
Open Scope string_scope.
Open Scope list_scope.
Open Scope Z_scope.

(** ** Handlers as computations: state, trace and exceptions *)

Module Js.

Section Eff.
Variables St Ev : Type.

(** How a handler body ends: it returns a value or throws. *)
Inductive completion (A : Type) : Type :=
| Returned (a : A)
| Thrown (reason : string).

Definition Eff (A : Type) : Type := St -> completion A * St * list Ev.

Definition ret {A} (a : A) : Eff A := fun s => (Returned a, s, []).

Definition throw {A} (reason : string) : Eff A :=
  fun s => (Thrown A reason, s, []).

Definition bind {A B} (c : Eff A) (k : A -> Eff B) : Eff B :=
  fun s =>
    match c s with
    | (Returned a, s1, t1) =>
        let '(r, s2, t2) := k a s1 in (r, s2, t1 ++ t2)
    | (Thrown _ e, s1, t1) => (Thrown B e, s1, t1)
    end.

(** [try { body } catch (e) { handler e }]: what the body did to the state
    and to the outside world before it threw stays done. *)
Definition try_catch {A} (body : Eff A) (handler : string -> Eff A) : Eff A :=
  fun s =>
    match body s with
    | (Returned a, s1, t1) => (Returned a, s1, t1)
    | (Thrown _ e, s1, t1) =>
        let '(r, s2, t2) := handler e s1 in (r, s2, t1 ++ t2)
    end.

Definition emit (e : Ev) : Eff unit := fun s => (Returned tt, s, [e]).
Definition get : Eff St := fun s => (Returned s, s, []).
Definition modify (f : St -> St) : Eff unit := fun s => (Returned tt, f s, []).

(** An awaited call whose promise settles as the environment decides:
    [Some v] resolves to [v], [None] rejects. *)
Definition await {A} (call : Ev) (settles : option A) (reason : string) : Eff A :=
  bind (emit call)
       (fun _ => match settles with
                 | Some v => ret v
                 | None => throw reason
                 end).

Definition when (b : bool) (c : Eff unit) : Eff unit :=
  if b then c else ret tt.

Definition state_of {A} (r : completion A * St * list Ev) : St := snd (fst r).
Definition trace_of {A} (r : completion A * St * list Ev) : list Ev := snd r.
Definition result_of {A} (r : completion A * St * list Ev) : completion A :=
  fst (fst r).

Definition returns {A} (r : completion A * St * list Ev) : bool :=
  match result_of r with Returned _ => true | Thrown _ _ => false end.
End Eff.

Arguments Returned {A} a.
Arguments ret {St Ev A} a.
Arguments throw {St Ev A} reason.
Arguments emit {St Ev} e.
Arguments get {St Ev}.
Arguments modify {St Ev} f.
Arguments await {St Ev A} call settles reason.
Arguments when {St Ev} b c.

End Js.

Import Js.

Declare Scope eff_scope.
Delimit Scope eff_scope with eff.
Notation "x <- c ;; k" := (bind c (fun x => k))
  (at level 61, c at next level, right associativity) : eff_scope.
Notation "c ;; k" := (bind c (fun _ => k))
  (at level 61, right associativity) : eff_scope.
Open Scope eff_scope.

(** A JavaScript integer-valued number used in a division: exact below 2^53. *)
Definition num (z : Z) : float := PrimFloat.of_uint63 (Uint63.of_Z z).

(** The decimal text of a count, as a template literal prints it. *)
Definition show_nat (n : nat) : string := NilEmpty.string_of_uint (Nat.to_uint n).

(** ** Data shared by the two recorder components *)

(** [proctoring.current]: the session-scoped accumulator flushed at stop. *)
Record proctoring : Type := mkProctoring {
  tab_blur_count : Z;
  multiple_faces : bool;
  face_count : Z
}.

Definition proctoring0 : proctoring :=
  {| tab_blur_count := 0; multiple_faces := false; face_count := 0 |}.

Definition with_multiple_faces (b : bool) (p : proctoring) : proctoring :=
  {| tab_blur_count := tab_blur_count p; multiple_faces := b; face_count := face_count p |}.

Definition with_face_count (n : Z) (p : proctoring) : proctoring :=
  {| tab_blur_count := tab_blur_count p; multiple_faces := multiple_faces p; face_count := n |}.

Definition with_tab_blur_count (n : Z) (p : proctoring) : proctoring :=
  {| tab_blur_count := n; multiple_faces := multiple_faces p; face_count := face_count p |}.

Inductive chunk_kind : Type := video | screen | editor_events.

Definition chunk_kind_eqb (a b : chunk_kind) : bool :=
  match a, b with
  | video, video | screen, screen | editor_events, editor_events => true
  | _, _ => false
  end.

(** The [state] attribute of a [MediaRecorder]. *)
Inductive recorder_state : Type := rs_inactive | rs_recording | rs_paused.

Definition is_inactive (r : recorder_state) : bool :=
  match r with rs_inactive => true | _ => false end.

(** The body of a [/face-flag] request. *)
Inductive face_flag : Type :=
| flag_no_face (count : Z) (timestamp_ms : Z)
| flag_multiple_faces (count : Z) (timestamp_ms : Z).

(** The [chunk] part of an [/upload-chunk] request: a recorded segment of
    some size, or the JSON summary sent at stop. *)
Inductive chunk_body : Type :=
| Blob (size : Z)
| Summary (paste_count : Z) (p : proctoring).

Inductive timer : Type := HideWarning | SpeakWelcome | AskFirstQuestion.

(** Calls a handler makes to the browser and to the backend, in order. *)
Inductive call : Type :=
| Alert (msg : string)
| Confirm (msg : string)
| GetUserMedia
| GetDisplayMedia
| VideoPlay
| NewMediaRecorder (k : chunk_kind)
| RecorderStart (k : chunk_kind) (timeslice : Z)
| RecorderStop (k : chunk_kind)
| SetInterval (ms : Z)
| ClearInterval
| AddPasteListener
| RemovePasteListener
| SetTimeout (ms : Z) (what : timer)
| SpeechCancel
| Speak (text : string)
| PostStart (simulation_id : Z)
| PostUploadChunk (attempt : option Z) (k : chunk_kind) (body : chunk_body)
| PostFinish (attempt : option Z)
| PostFaceFlag (attempt : Z) (flag : face_flag)
| ConsoleLog (msg : string)
| ConsoleWarn (msg : string)
| ConsoleError (msg : string).

(** Calls that touch a capture device. *)
Definition is_device_call (c : call) : bool :=
  match c with
  | GetUserMedia | GetDisplayMedia | NewMediaRecorder _ | RecorderStart _ _ => true
  | _ => false
  end.

Definition is_upload_of (k : chunk_kind) (c : call) : bool :=
  match c with
  | PostUploadChunk _ k' _ => chunk_kind_eqb k k'
  | _ => false
  end.

Definition is_post (c : call) : bool :=
  match c with
  | PostStart _ | PostUploadChunk _ _ _ | PostFinish _ | PostFaceFlag _ _ => true
  | _ => false
  end.

Definition is_finish (c : call) : bool :=
  match c with PostFinish _ => true | _ => false end.

Definition is_teardown (c : call) : bool :=
  match c with
  | RecorderStop _ | ClearInterval => true
  | _ => false
  end.

Definition count_calls (p : call -> bool) (t : list call) : nat :=
  List.length (filter p t).

(** ** [InterviewRecorder.jsx] *)

Module Recorder.

(** An entry of the [violations] list.  The source stores the time as the
    text of [toLocaleTimeString()]; the model keeps the instant itself. *)
Record violation : Type := mkViolation {
  message : string;
  timestamp : Z
}.

(** The component's [useState] cells and [useRef] cells, and what it holds
    in the browser.  A recorder ref is [None] while [undefined], else it
    holds the recorder's [state].

    [pasteListeners] counts the [onPaste] functions attached to [window].
    Every render makes its own [onPaste]; [startInterview] attaches the one
    of the render that shows the Start button.

    [liveCameraStreams] and [liveScreenStreams] count the streams obtained
    from [getUserMedia] and [getDisplayMedia] whose tracks were not stopped.
    The component keeps them in local variables of [startInterview] and
    never calls [stop()] on a track. *)
Record state : Type := mkState {
  attemptId : option Z;
  mediaRecorderRef : option recorder_state;
  screenRecorderRef : option recorder_state;
  faceDetectIntervalRef : bool;
  recording : bool;
  proctoring_current : proctoring;
  paste_count : Z;
  currentQuestion : nat;
  questions : list string;
  speaking : bool;
  faceCount : Z;
  violations : list violation;
  showWarning : bool;
  pasteListeners : nat;
  liveCameraStreams : nat;
  liveScreenStreams : nat
}.

(** Some [onPaste] is attached to [window]. *)
Definition pasteListener (s : state) : bool := (0 <? pasteListeners s)%nat.

Definition init (qs : list string) : state :=
  {| attemptId := None; mediaRecorderRef := None; screenRecorderRef := None;
     faceDetectIntervalRef := false; recording := false;
     proctoring_current := proctoring0; paste_count := 0;
     currentQuestion := 0; questions := qs; speaking := false;
     faceCount := 0; violations := []; showWarning := false;
     pasteListeners := 0; liveCameraStreams := 0; liveScreenStreams := 0 |}.

Definition set_attemptId (v : option Z) (s : state) : state :=
  mkState v (mediaRecorderRef s) (screenRecorderRef s) (faceDetectIntervalRef s)
    (recording s) (proctoring_current s) (paste_count s) (currentQuestion s)
    (questions s) (speaking s) (faceCount s) (violations s) (showWarning s)
    (pasteListeners s) (liveCameraStreams s) (liveScreenStreams s).

Definition set_mediaRecorderRef (v : option recorder_state) (s : state) : state :=
  mkState (attemptId s) v (screenRecorderRef s) (faceDetectIntervalRef s)
    (recording s) (proctoring_current s) (paste_count s) (currentQuestion s)
    (questions s) (speaking s) (faceCount s) (violations s) (showWarning s)
    (pasteListeners s) (liveCameraStreams s) (liveScreenStreams s).

Definition set_screenRecorderRef (v : option recorder_state) (s : state) : state :=
  mkState (attemptId s) (mediaRecorderRef s) v (faceDetectIntervalRef s)
    (recording s) (proctoring_current s) (paste_count s) (currentQuestion s)
    (questions s) (speaking s) (faceCount s) (violations s) (showWarning s)
    (pasteListeners s) (liveCameraStreams s) (liveScreenStreams s).

Definition set_faceDetectIntervalRef (v : bool) (s : state) : state :=
  mkState (attemptId s) (mediaRecorderRef s) (screenRecorderRef s) v
    (recording s) (proctoring_current s) (paste_count s) (currentQuestion s)
    (questions s) (speaking s) (faceCount s) (violations s) (showWarning s)
    (pasteListeners s) (liveCameraStreams s) (liveScreenStreams s).

Definition set_recording (v : bool) (s : state) : state :=
  mkState (attemptId s) (mediaRecorderRef s) (screenRecorderRef s)
    (faceDetectIntervalRef s) v (proctoring_current s) (paste_count s)
    (currentQuestion s) (questions s) (speaking s) (faceCount s) (violations s)
    (showWarning s)
    (pasteListeners s) (liveCameraStreams s) (liveScreenStreams s).

Definition update_proctoring (f : proctoring -> proctoring) (s : state) : state :=
  mkState (attemptId s) (mediaRecorderRef s) (screenRecorderRef s)
    (faceDetectIntervalRef s) (recording s) (f (proctoring_current s))
    (paste_count s) (currentQuestion s) (questions s) (speaking s) (faceCount s)
    (violations s) (showWarning s)
    (pasteListeners s) (liveCameraStreams s) (liveScreenStreams s).

Definition set_paste_count (v : Z) (s : state) : state :=
  mkState (attemptId s) (mediaRecorderRef s) (screenRecorderRef s)
    (faceDetectIntervalRef s) (recording s) (proctoring_current s) v
    (currentQuestion s) (questions s) (speaking s) (faceCount s) (violations s)
    (showWarning s)
    (pasteListeners s) (liveCameraStreams s) (liveScreenStreams s).

Definition set_currentQuestion (v : nat) (s : state) : state :=
  mkState (attemptId s) (mediaRecorderRef s) (screenRecorderRef s)
    (faceDetectIntervalRef s) (recording s) (proctoring_current s)
    (paste_count s) v (questions s) (speaking s) (faceCount s) (violations s)
    (showWarning s)
    (pasteListeners s) (liveCameraStreams s) (liveScreenStreams s).

Definition set_faceCount (v : Z) (s : state) : state :=
  mkState (attemptId s) (mediaRecorderRef s) (screenRecorderRef s)
    (faceDetectIntervalRef s) (recording s) (proctoring_current s)
    (paste_count s) (currentQuestion s) (questions s) (speaking s) v
    (violations s) (showWarning s)
    (pasteListeners s) (liveCameraStreams s) (liveScreenStreams s).

Definition set_violations (v : list violation) (s : state) : state :=
  mkState (attemptId s) (mediaRecorderRef s) (screenRecorderRef s)
    (faceDetectIntervalRef s) (recording s) (proctoring_current s)
    (paste_count s) (currentQuestion s) (questions s) (speaking s) (faceCount s)
    v (showWarning s)
    (pasteListeners s) (liveCameraStreams s) (liveScreenStreams s).

Definition set_showWarning (v : bool) (s : state) : state :=
  mkState (attemptId s) (mediaRecorderRef s) (screenRecorderRef s)
    (faceDetectIntervalRef s) (recording s) (proctoring_current s)
    (paste_count s) (currentQuestion s) (questions s) (speaking s) (faceCount s)
    (violations s) v
    (pasteListeners s) (liveCameraStreams s) (liveScreenStreams s).

Definition set_pasteListeners (v : nat) (s : state) : state :=
  mkState (attemptId s) (mediaRecorderRef s) (screenRecorderRef s)
    (faceDetectIntervalRef s) (recording s) (proctoring_current s)
    (paste_count s) (currentQuestion s) (questions s) (speaking s) (faceCount s)
    (violations s) (showWarning s) v (liveCameraStreams s) (liveScreenStreams s).

Definition set_liveCameraStreams (v : nat) (s : state) : state :=
  mkState (attemptId s) (mediaRecorderRef s) (screenRecorderRef s)
    (faceDetectIntervalRef s) (recording s) (proctoring_current s)
    (paste_count s) (currentQuestion s) (questions s) (speaking s) (faceCount s)
    (violations s) (showWarning s) (pasteListeners s) v (liveScreenStreams s).

Definition set_liveScreenStreams (v : nat) (s : state) : state :=
  mkState (attemptId s) (mediaRecorderRef s) (screenRecorderRef s)
    (faceDetectIntervalRef s) (recording s) (proctoring_current s)
    (paste_count s) (currentQuestion s) (questions s) (speaking s) (faceCount s)
    (violations s) (showWarning s) (pasteListeners s) (liveCameraStreams s) v.

(** A handler of the component. *)
Definition Handler (A : Type) : Type := Eff state call A.

(** [addViolation(message)]: append to the list, raise the banner and
    schedule its removal.  There is no look-back at earlier entries. *)
Definition addViolation (msg : string) (now : Z) : Handler unit :=
  modify (fun s => set_violations (violations s ++ [mkViolation msg now]) s) ;;
  modify (set_showWarning true) ;;
  emit (SetTimeout 5000 HideWarning).

Definition msg_no_face : string := "❌ No face detected - please stay in frame".

Definition msg_multiple_faces (count : nat) : string :=
  ("🚨 MULTIPLE FACES DETECTED (" ++ show_nat count
     ++ ") - Only candidate allowed!")%string.

Definition msg_blur : string := "⚠️ Tab switched or window lost focus".

Definition msg_paste : string :=
  "📋 Paste detected - external content usage flagged".

(** [sendFaceFlag]: a rejected request is logged and dropped. *)
Definition sendFaceFlag (attempt : Z) (payload : face_flag)
  (settles : option unit) : Handler unit :=
  try_catch (await (PostFaceFlag attempt payload) settles "Network Error")
            (fun _ => emit (ConsoleWarn "Failed to send face flag:")).

(** The skin-tone test of the fallback, on one pixel's channels. *)
Definition isSkin (r g b : Z) : bool :=
  (95 <? r) && (40 <? g) && (20 <? b) && (g <? r) && (b <? r)
  && (15 <? Z.abs (r - g)).

(** The loop [for (i = 0; i < data.length; i += 4)] over RGBA bytes.  A
    channel read past the end is [undefined] and fails every comparison, so
    a trailing group counts only when its three colour channels are there. *)
Fixpoint skinPixels (data : list Z) : Z :=
  match data with
  | r :: g :: b :: _ :: rest => (if isSkin r g b then 1 else 0) + skinPixels rest
  | [r; g; b] => if isSkin r g b then 1 else 0
  | _ => 0
  end.

(** What one run of the interval callback finds in the page. *)
Record tick_input : Type := mkTick {
  frame_ok : bool;               (* canvas creation and drawImage succeed *)
  hasFaceDetector : bool;        (* 'FaceDetector' in window *)
  detect : option nat;           (* results?.length || 0; None: detect rejects *)
  canvas_width : Z;              (* videoEl.videoWidth || 640 *)
  canvas_height : Z;             (* videoEl.videoHeight || 480 *)
  imageData : option (list Z);   (* getImageData(...).data; None: it throws *)
  flag_settles : option unit;    (* how the /face-flag request settles *)
  now : Z                        (* the clock, in ms *)
}.

(** The body of the [setInterval] callback of [startFaceDetection]. *)
Definition detectionTick (attempt : Z) (i : tick_input) : Handler unit :=
  try_catch
    ((if frame_ok i then ret tt else throw "drawImage failed") ;;
     if hasFaceDetector i then
       count <- match detect i with
                | Some n => ret n
                | None => throw "detect failed"
                end ;;
       modify (set_faceCount (Z.of_nat count)) ;;
       modify (update_proctoring (with_face_count (Z.of_nat count))) ;;
       if (count =? 0)%nat then
         addViolation msg_no_face (now i) ;;
         sendFaceFlag attempt (flag_no_face (Z.of_nat count) (now i))
                      (flag_settles i)
       else if (1 <? count)%nat then
         modify (update_proctoring (with_multiple_faces true)) ;;
         addViolation (msg_multiple_faces count) (now i) ;;
         sendFaceFlag attempt (flag_multiple_faces (Z.of_nat count) (now i))
                      (flag_settles i)
       else
         modify (update_proctoring (with_multiple_faces false))
     else
       data <- match imageData i with
               | Some d => ret d
               | None => throw "getImageData failed"
               end ;;
       let skinRatio :=
         (num (skinPixels data) / num (canvas_width i * canvas_height i))%float in
       if (skinRatio <? 0.02)%float then
         modify (set_faceCount 0) ;;
         addViolation msg_no_face (now i)
       else
         modify (set_faceCount 1))
    (fun _ => emit (ConsoleWarn "Face detection error:")).

(** The ticks the interval delivers, one after the other. *)
Fixpoint detectionTicks (attempt : Z) (inputs : list tick_input) : Handler unit :=
  match inputs with
  | [] => ret tt
  | i :: rest => detectionTick attempt i ;; detectionTicks attempt rest
  end.

Definition startFaceDetection : Handler unit :=
  emit (SetInterval 2000) ;;
  modify (set_faceDetectIntervalRef true).

Definition stopFaceDetection : Handler unit :=
  s <- get ;;
  when (faceDetectIntervalRef s)
       (emit ClearInterval ;; modify (set_faceDetectIntervalRef false)).

(** [speakQuestion(text)]; [speech] tells whether [window.speechSynthesis]
    exists. *)
Definition speakQuestion (speech : bool) (text : string) : Handler unit :=
  if negb speech then ret tt
  else emit SpeechCancel ;; emit (Speak text).

Definition closing_message : string :=
  "Great! That's all the questions. Please click Stop and Submit when you're ready.".

(** [nextQuestion()]. *)
Definition nextQuestion (speech : bool) : Handler unit :=
  s <- get ;;
  if Z.of_nat (currentQuestion s) <? Z.of_nat (List.length (questions s)) - 1 then
    let next := (currentQuestion s + 1)%nat in
    modify (set_currentQuestion next) ;;
    speakQuestion speech (nth next (questions s) "undefined")
  else
    speakQuestion speech closing_message.

(** [uploadChunk(attemptId, kind, blob)]: one request; its rejection is
    handled by the [.catch] callback, which logs it. *)
Definition uploadChunk (attempt : option Z) (k : chunk_kind) (size : Z)
  (settles : option unit) : Handler unit :=
  try_catch (await (PostUploadChunk attempt k (Blob size)) settles "Network Error")
            (fun _ => emit (ConsoleWarn "Chunk upload failed:")).

Definition recorderRef (k : chunk_kind) (s : state) : option recorder_state :=
  match k with
  | video => mediaRecorderRef s
  | screen => screenRecorderRef s
  | editor_events => None
  end.

(** A recorder's [ondataavailable] callback.  Only a recorder that was
    created can deliver the event; [startInterview] stores every recorder it
    starts in its ref, and the callback closes over the attempt id that
    [setAttemptId] stored. *)
Definition ondataavailable (k : chunk_kind) (size : Z) (settles : option unit)
  : Handler unit :=
  s <- get ;;
  match recorderRef k s with
  | Some _ => when (0 <? size) (uploadChunk (attemptId s) k size settles)
  | None => ret tt
  end.

Definition onBlur (t : Z) : Handler unit :=
  modify (update_proctoring
            (fun p => with_tab_blur_count (tab_blur_count p + 1) p)) ;;
  addViolation msg_blur t.

Definition onPaste (t : Z) : Handler unit :=
  modify (fun s => set_paste_count (paste_count s + 1) s) ;;
  addViolation msg_paste t.

(** What the user, the devices and the backend answer during
    [startInterview]. *)
Record start_env : Type := mkStartEnv {
  simulationId : option Z;         (* the prop; None: null or undefined *)
  simulation_title : option string;
  speechSynthesis : bool;
  confirm_answer : bool;           (* window.confirm *)
  getUserMedia : option unit;
  post_start : option Z;           (* resolves to r.data.attempt_id *)
  video_play : option unit;
  newVideoRecorder : option unit;  (* new MediaRecorder(camStream, vp9) *)
  getDisplayMedia : option unit;
  newScreenRecorder : option unit  (* new MediaRecorder(screenStream, vp9) *)
}.

Definition confirm_text : string :=
  "This interview requires access to your camera and microphone for video recording.

Click OK to grant permissions and start the interview.".

(** [startInterview()].  A [return] inside the outer [try] ends the handler
    normally; anything thrown outside the two inner [try] blocks reaches the
    outer [catch], which reports it (the model shows the thrown reason where
    the source formats the error's detail).  A stream that was granted is
    live from then on, whatever happens later in the handler.  The
    [onPaste] attached at the end is a function no earlier start attached:
    a start that gets this far sets [recording], which hides the Start
    button until a stop re-renders the component, and every render makes
    a new [onPaste]. *)
Definition startInterview (e : start_env) : Handler unit :=
  try_catch
    (match simulationId e with
     | None => emit (Alert "Cannot start interview: No simulation available")
     | Some sim =>
         emit (Confirm confirm_text) ;;
         if negb (confirm_answer e) then
           emit (Alert "Camera and microphone access is required to start the interview.")
         else
           cam <- try_catch
                    (await GetUserMedia (getUserMedia e) "NotAllowedError" ;;
                     modify (fun s => set_liveCameraStreams
                                        (S (liveCameraStreams s)) s) ;;
                     ret true)
                    (fun _ =>
                       emit (Alert "Failed to access camera/microphone. Please check your browser permissions and try again.") ;;
                       emit (ConsoleError "Media permission error:") ;;
                       ret false) ;;
           if negb cam then ret tt
           else
             emit (ConsoleLog "Starting interview with simulation_id:") ;;
             id <- await (PostStart sim) (post_start e) "Request failed" ;;
             modify (set_attemptId (Some id)) ;;
             await VideoPlay (video_play e) "play() failed" ;;
             await (NewMediaRecorder video) (newVideoRecorder e) "NotSupportedError" ;;
             emit (RecorderStart video 2000) ;;
             modify (set_mediaRecorderRef (Some rs_recording)) ;;
             try_catch
               (await GetDisplayMedia (getDisplayMedia e) "NotAllowedError" ;;
                modify (fun s => set_liveScreenStreams
                                   (S (liveScreenStreams s)) s) ;;
                await (NewMediaRecorder screen) (newScreenRecorder e) "NotSupportedError" ;;
                emit (RecorderStart screen 2000) ;;
                modify (set_screenRecorderRef (Some rs_recording)))
               (fun _ => emit (ConsoleWarn "Screen sharing not available or denied:")) ;;
             startFaceDetection ;;
             emit AddPasteListener ;;
             modify (fun s => set_pasteListeners (S (pasteListeners s)) s) ;;
             modify (set_recording true) ;;
             emit (SetTimeout 1000 SpeakWelcome) ;;
             emit (SetTimeout 5000 AskFirstQuestion)
     end)
    (fun reason =>
       emit (ConsoleError "Failed to start interview:") ;;
       emit (Alert ("Failed to start interview: " ++ reason)%string)).

(** [recorder.state !== "inactive"] guards [recorder.stop()]. *)
Definition stopRecorder (k : chunk_kind) : Handler unit :=
  s <- get ;;
  match recorderRef k s with
  | Some st =>
      when (negb (is_inactive st))
           (emit (RecorderStop k) ;;
            modify (match k with
                    | video => set_mediaRecorderRef (Some rs_inactive)
                    | screen => set_screenRecorderRef (Some rs_inactive)
                    | editor_events => fun s' => s'
                    end))
  | None => ret tt
  end.

(** How the two requests of [stopInterview] settle. *)
Record stop_env : Type := mkStopEnv {
  upload_final : option unit;
  post_finish : option unit
}.

(** [stopInterview()]: the teardown steps are guarded, the two requests and
    the confirmation that follow them are not.  [removeEventListener] is
    given the [onPaste] of the render that shows the Stop button, a function
    that was never attached, so the call detaches nothing; and no track of
    a stream is stopped. *)
Definition stopInterview (e : stop_env) : Handler unit :=
  stopRecorder video ;;
  stopRecorder screen ;;
  stopFaceDetection ;;
  emit RemovePasteListener ;;
  s <- get ;;
  await (PostUploadChunk (attemptId s) editor_events
           (Summary (paste_count s) (proctoring_current s)))
        (upload_final e) "Network Error" ;;
  await (PostFinish (attemptId s)) (post_finish e) "Network Error" ;;
  emit (Alert "Interview submitted successfully!") ;;
  modify (set_recording false).

(** What can happen between start and stop of a session. *)
Inductive event : Type :=
| Tick (i : tick_input)
| DataAvailable (k : chunk_kind) (size : Z) (settles : option unit)
| Blur (t : Z)
| Paste (t : Z)
| NextQuestion
| WarningTimeout.

(** A handler run once for each of [n] listeners. *)
Fixpoint each_listener (n : nat) (h : Handler unit) : Handler unit :=
  match n with
  | O => ret tt
  | S n' => h ;; each_listener n' h
  end.

(** One event delivered to the component.  A paste event reaches every
    attached [onPaste]. *)
Definition handle (speech : bool) (ev : event) : Handler unit :=
  match ev with
  | Tick i =>
      s <- get ;;
      match faceDetectIntervalRef s, attemptId s with
      | true, Some id => detectionTick id i
      | _, _ => ret tt
      end
  | DataAvailable k size settles => ondataavailable k size settles
  | Blur t => onBlur t
  | Paste t => s <- get ;; each_listener (pasteListeners s) (onPaste t)
  | NextQuestion => nextQuestion speech
  | WarningTimeout => modify (set_showWarning false)
  end.

Fixpoint handleAll (speech : bool) (evs : list event) : Handler unit :=
  match evs with
  | [] => ret tt
  | ev :: rest => handle speech ev ;; handleAll speech rest
  end.

End Recorder.

(** ** The earlier [InterviewRecorder] component *)

Module RecorderV0.

Record state : Type := mkState {
  faceDetectIntervalRef : bool;
  proctoring_current : proctoring
}.

Definition init : state :=
  {| faceDetectIntervalRef := false; proctoring_current := proctoring0 |}.

Definition update_proctoring (f : proctoring -> proctoring) (s : state) : state :=
  mkState (faceDetectIntervalRef s) (f (proctoring_current s)).

Definition set_faceDetectIntervalRef (v : bool) (s : state) : state :=
  mkState v (proctoring_current s).

(** A handler of the component. *)
Definition Handler (A : Type) : Type := Eff state call A.

Record tick_input : Type := mkTick {
  frame_ok : bool;             (* canvas creation and drawImage succeed *)
  detect : option nat;         (* results?.length || 0; None: detect rejects *)
  flag_settles : option unit;  (* how the /face-flag request settles *)
  now : Z
}.

Definition sendFaceFlag (attempt : Z) (payload : face_flag)
  (settles : option unit) : Handler unit :=
  try_catch (await (PostFaceFlag attempt payload) settles "Network Error")
            (fun _ => emit (ConsoleWarn "Failed to send face flag:")).

(** The body of the [setInterval] callback. *)
Definition detectionTick (attempt : Z) (i : tick_input) : Handler unit :=
  try_catch
    ((if frame_ok i then ret tt else throw "drawImage failed") ;;
     faceCount <- match detect i with
                  | Some n => ret n
                  | None => throw "detect failed"
                  end ;;
     if (1 <? faceCount)%nat then
       modify (update_proctoring (with_multiple_faces true)) ;;
       modify (update_proctoring (with_face_count (Z.of_nat faceCount))) ;;
       sendFaceFlag attempt (flag_multiple_faces (Z.of_nat faceCount) (now i))
                    (flag_settles i)
     else
       modify (update_proctoring (with_face_count (Z.of_nat faceCount))))
    (fun _ => emit (ConsoleWarn "Face detection error:")).

Fixpoint detectionTicks (attempt : Z) (inputs : list tick_input) : Handler unit :=
  match inputs with
  | [] => ret tt
  | i :: rest => detectionTick attempt i ;; detectionTicks attempt rest
  end.

(** [startFaceDetection]: without the browser's detector no interval is
    set up at all. *)
Definition startFaceDetection (supportsFaceDetector : bool) : Handler unit :=
  if negb supportsFaceDetector then
    emit (ConsoleWarn "FaceDetector not supported in this browser. Skipping client face detection.")
  else
    emit (SetInterval 3000) ;;
    modify (set_faceDetectIntervalRef true).

End RecorderV0.

(** ** The [InterviewRoom] component *)

Module Room.

Record point : Type := mkPoint { x : float; y : float }.

(** The landmark groups of one face-api.js detection. *)
Record landmarks : Type := mkLandmarks {
  getNose : list point;
  getLeftEye : list point;
  getRightEye : list point;
  getMouth : list point;
  getJawOutline : list point
}.

(** [getCenter(points)]: [reduce] from [{x: 0, y: 0}], then a division by
    [points.length]. *)
Definition getCenter (points : list point) : point :=
  let sum :=
    fold_left (fun acc p => mkPoint (x acc + x p) (y acc + y p))%float
              points (mkPoint 0 0) in
  mkPoint (x sum / num (Z.of_nat (List.length points)))
          (y sum / num (Z.of_nat (List.length points))).

Record headPose : Type := mkHeadPose { yaw : float; pitch : float }.

(** [calculateHeadPose(landmarks)].  [nose[3]] and [getJawOutline()[8]] are
    [undefined] when the group is too short, and reading their coordinate
    throws: the result is then [None]. *)
Definition calculateHeadPose (lm : landmarks) : option headPose :=
  let nose := getNose lm in
  let leftEye := getLeftEye lm in
  let rightEye := getRightEye lm in
  let mouth := getMouth lm in
  let leftEyeCenter := getCenter leftEye in
  let rightEyeCenter := getCenter rightEye in
  let eyeCenterX := ((x leftEyeCenter + x rightEyeCenter) / 2)%float in
  match nth_error nose 3 with
  | None => None
  | Some noseTip =>
      let noseOffset := (x noseTip - eyeCenterX)%float in
      let eyeDistance := abs (x rightEyeCenter - x leftEyeCenter) in
      let yaw := (noseOffset / eyeDistance * 90)%float in
      let eyeCenterY := ((y leftEyeCenter + y rightEyeCenter) / 2)%float in
      let mouthCenter := getCenter mouth in
      let verticalDistance := (y mouthCenter - eyeCenterY)%float in
      match nth_error (getJawOutline lm) 8 with
      | None => None
      | Some jawBottom =>
          let faceHeight := (y jawBottom - eyeCenterY)%float in
          let pitch :=
            ((verticalDistance - faceHeight * 0.5) / faceHeight * 60)%float in
          Some (mkHeadPose yaw pitch)
      end
  end.

(** The text of a flag.  The two head-pose texts embed [toFixed(1)] of an
    angle; the model keeps the angle. *)
Inductive description : Type :=
| Plain (text : string)
| HeadTurnedBy (yaw : float)
| HeadTiltedBy (pitch : float).

(** An entry of [proctoringFlags].  [timestamp] is the instant whose ISO
    text the source stores and parses back. *)
Record flag : Type := mkFlag {
  type : string;
  flag_description : description;
  timestamp : Z;
  questionIndex : nat
}.

Inductive call : Type :=
| ToastError (d : description)
| ToastSuccess (text : string)
| PostProctor (f : flag)
| GetUserMedia
| GetDisplayMedia
| NewMediaRecorder
| RecorderStart (timeslice : Z)
| RecorderStop
| StopCameraTracks
| StopScreenTracks
| SetInterval (ms : Z)
| ClearInterval
| ConsoleWarn (msg : string)
| ConsoleError (msg : string).

Definition is_toast (c : call) : bool :=
  match c with ToastError _ => true | _ => false end.

(** The [find] of the updater: an earlier flag of this type less than
    5000 ms old. *)
Definition recentFlag (ty : string) (now : Z) (prev : list flag) : option flag :=
  find (fun f => String.eqb (type f) ty && (now - 5000 <? timestamp f)) prev.

Definition countType (ty : string) (log : list flag) : nat :=
  List.length (filter (fun f => String.eqb (type f) ty) log).

(** The state updater that [addProctoringFlag] hands to
    [setProctoringFlags], run on the list [prev] at time [now]: the new list
    and the calls it makes ([sendProctoringFlag], [toast.error]). *)
Definition flagUpdater (newFlag : flag) (now : Z) (prev : list flag)
  : list flag * list call :=
  match recentFlag (type newFlag) now prev with
  | None =>
      (prev ++ [newFlag],
       PostProctor newFlag ::
       (if negb (String.eqb (type newFlag) "NO_FACE")
           || (Nat.modulo (countType "NO_FACE" prev) 3 =? 0)%nat
        then [ToastError (flag_description newFlag)]
        else []))
  | Some _ => (prev, [])
  end.

(** The component's [useState] cells and refs.  [intervalQuestionIndex] is
    not a cell of the source: it is the [currentQuestionIndex] held by the
    closure that [setInterval] keeps calling, the one of the render in which
    [startFaceDetection] ran.  Later renders make new closures, but the
    interval keeps the one it was given. *)
Record state : Type := mkState {
  currentQuestionIndex : nat;
  isRecording : bool;
  isProctoringActive : bool;
  proctoringFlags : list flag;
  faceDetected : bool;
  modelsLoaded : bool;
  videoStreamRef : bool;
  screenStreamRef : bool;
  screenRecorderRef : option recorder_state;
  detectionIntervalRef : bool;
  intervalQuestionIndex : nat
}.

Definition init (loaded : bool) : state :=
  {| currentQuestionIndex := 0; isRecording := false;
     isProctoringActive := false; proctoringFlags := [];
     faceDetected := false; modelsLoaded := loaded;
     videoStreamRef := false; screenStreamRef := false;
     screenRecorderRef := None; detectionIntervalRef := false;
     intervalQuestionIndex := 0 |}.

Definition set_recording (v : bool) (s : state) : state :=
  mkState (currentQuestionIndex s) v v (proctoringFlags s) (faceDetected s)
    (modelsLoaded s) (videoStreamRef s) (screenStreamRef s)
    (screenRecorderRef s) (detectionIntervalRef s)
    (intervalQuestionIndex s).

Definition set_proctoringFlags (v : list flag) (s : state) : state :=
  mkState (currentQuestionIndex s) (isRecording s) (isProctoringActive s) v
    (faceDetected s) (modelsLoaded s) (videoStreamRef s) (screenStreamRef s)
    (screenRecorderRef s) (detectionIntervalRef s)
    (intervalQuestionIndex s).

Definition set_faceDetected (v : bool) (s : state) : state :=
  mkState (currentQuestionIndex s) (isRecording s) (isProctoringActive s)
    (proctoringFlags s) v (modelsLoaded s) (videoStreamRef s)
    (screenStreamRef s) (screenRecorderRef s) (detectionIntervalRef s)
    (intervalQuestionIndex s).

Definition set_videoStreamRef (v : bool) (s : state) : state :=
  mkState (currentQuestionIndex s) (isRecording s) (isProctoringActive s)
    (proctoringFlags s) (faceDetected s) (modelsLoaded s) v
    (screenStreamRef s) (screenRecorderRef s) (detectionIntervalRef s)
    (intervalQuestionIndex s).

Definition set_screenStreamRef (v : bool) (s : state) : state :=
  mkState (currentQuestionIndex s) (isRecording s) (isProctoringActive s)
    (proctoringFlags s) (faceDetected s) (modelsLoaded s) (videoStreamRef s)
    v (screenRecorderRef s) (detectionIntervalRef s)
    (intervalQuestionIndex s).

Definition set_screenRecorderRef (v : option recorder_state) (s : state) : state :=
  mkState (currentQuestionIndex s) (isRecording s) (isProctoringActive s)
    (proctoringFlags s) (faceDetected s) (modelsLoaded s) (videoStreamRef s)
    (screenStreamRef s) v (detectionIntervalRef s)
    (intervalQuestionIndex s).

Definition set_detectionIntervalRef (v : bool) (s : state) : state :=
  mkState (currentQuestionIndex s) (isRecording s) (isProctoringActive s)
    (proctoringFlags s) (faceDetected s) (modelsLoaded s) (videoStreamRef s)
    (screenStreamRef s) (screenRecorderRef s) v (intervalQuestionIndex s).

Definition set_intervalQuestionIndex (v : nat) (s : state) : state :=
  mkState (currentQuestionIndex s) (isRecording s) (isProctoringActive s)
    (proctoringFlags s) (faceDetected s) (modelsLoaded s) (videoStreamRef s)
    (screenStreamRef s) (screenRecorderRef s) (detectionIntervalRef s) v.

(** A handler of the component. *)
Definition Handler (A : Type) : Type := Eff state call A.

(** The two readings of the clock in one [addProctoringFlag] call: when the
    flag object is built, and when React runs the updater. *)
Record clock : Type := mkClock { called_at : Z; applied_at : Z }.

(** [addProctoringFlag(type, description)] of one render.
    [rendered_index] is the [currentQuestionIndex] that render saw: the
    function reads it from its closure, not from the latest state, while
    the updater it hands to [setProctoringFlags] does get the latest log.
    [sendProctoringFlag] is not awaited and handles its own failure, so it
    shows as one call. *)
Definition addProctoringFlag (rendered_index : nat) (ty : string)
  (d : description) (c : clock) : Handler unit :=
  fun s =>
    let newFlag := mkFlag ty d (called_at c) rendered_index in
    let '(log, calls) := flagUpdater newFlag (applied_at c) (proctoringFlags s) in
    (Returned tt, set_proctoringFlags log s, calls).

(** What one run of the detection callback finds. *)
Record tick_input : Type := mkTick {
  ready : bool;                         (* videoRef.current && window.faceapi *)
  detections : option (list landmarks); (* None: detection rejects *)
  draw_ok : bool;                       (* the overlay drawing succeeds *)
  at_time : clock
}.

(** The head-pose checks made on a single detected face, by the callback
    of a render that saw [rendered_index]. *)
Definition headPoseChecks (rendered_index : nat) (hp : headPose) (c : clock)
  : Handler unit :=
  when (30 <? abs (yaw hp))%float
       (addProctoringFlag rendered_index "HEAD_TURNED" (HeadTurnedBy (yaw hp)) c) ;;
  when (25 <? abs (pitch hp))%float
       (addProctoringFlag rendered_index "HEAD_TILTED" (HeadTiltedBy (pitch hp)) c).

(** The body of the [setInterval] callback of [startFaceDetection].  The
    callback and the [addProctoringFlag] it calls belong to the render in
    which the interval was made, so every flag is stamped with
    [intervalQuestionIndex].  The [modelsLoaded] of the guard is read from
    the same closure; it is [true] there, since [startInterview] makes the
    interval only then, and nothing ever resets the cell, so the cell gives
    the same answer wherever an interval exists. *)
Definition detectionTick (i : tick_input) : Handler unit :=
  s <- get ;;
  let q := intervalQuestionIndex s in
  when (ready i && modelsLoaded s)
    (try_catch
       (ds <- match detections i with
              | Some ds => ret ds
              | None => throw "detection failed"
              end ;;
        (if (0 <? List.length ds)%nat && negb (draw_ok i)
         then throw "drawing failed" else ret tt) ;;
        match ds with
        | [] =>
            modify (set_faceDetected false) ;;
            addProctoringFlag q "NO_FACE" (Plain "No face detected in frame")
                              (at_time i)
        | [lm] =>
            modify (set_faceDetected true) ;;
            match calculateHeadPose lm with
            | Some hp => headPoseChecks q hp (at_time i)
            | None => throw "TypeError"
            end
        | _ =>
            modify (set_faceDetected true) ;;
            addProctoringFlag q "MULTIPLE_FACES"
              (Plain (show_nat (List.length ds) ++ " faces detected")%string)
              (at_time i)
        end)
       (fun _ => emit (ConsoleError "Face detection error:"))).

(** [cleanup()]. *)
Definition cleanup : Handler unit :=
  s <- get ;;
  when (detectionIntervalRef s) (emit ClearInterval) ;;
  when (videoStreamRef s) (emit StopCameraTracks) ;;
  match screenRecorderRef s with
  | Some st =>
      when (negb (is_inactive st))
           (emit RecorderStop ;; modify (set_screenRecorderRef (Some rs_inactive)))
  | None => ret tt
  end ;;
  when (screenStreamRef s) (emit StopScreenTracks) ;;
  modify (set_recording false).

Record start_env : Type := mkStartEnv {
  getUserMedia : option unit;
  getDisplayMedia : option unit;
  newScreenRecorder : option unit
}.

(** [startInterview()] of the room: screen capture is required.  The
    interval it sets up keeps the closure of the render that handles the
    click, and with it that render's [currentQuestionIndex]. *)
Definition startInterview (e : start_env) : Handler unit :=
  try_catch
    (await GetUserMedia (getUserMedia e) "NotAllowedError" ;;
     modify (set_videoStreamRef true) ;;
     proceed <-
       try_catch
         (await GetDisplayMedia (getDisplayMedia e) "NotAllowedError" ;;
          modify (set_screenStreamRef true) ;;
          await NewMediaRecorder (newScreenRecorder e) "NotSupportedError" ;;
          modify (set_screenRecorderRef (Some rs_inactive)) ;;
          emit (RecorderStart 1000) ;;
          modify (set_screenRecorderRef (Some rs_recording)) ;;
          emit (ToastSuccess "Screen recording started") ;;
          ret true)
         (fun _ =>
            emit (ConsoleWarn "Screen recording denied:") ;;
            emit (ToastError (Plain "Screen recording is required for this interview")) ;;
            cleanup ;;
            ret false) ;;
     if negb proceed then ret tt
     else
       modify (set_recording true) ;;
       s <- get ;;
       when (modelsLoaded s)
            (emit (SetInterval 1000) ;;
             modify (set_detectionIntervalRef true) ;;
             modify (set_intervalQuestionIndex (currentQuestionIndex s))) ;;
       emit (ToastSuccess "Interview started - stay focused!"))
    (fun _ =>
       emit (ConsoleError "Error starting interview:") ;;
       emit (ToastError (Plain "Camera access is required for this interview"))).

(** A run of [addProctoringFlag] calls of one render with one type, each
    with its own readings of the clock. *)
Fixpoint record_all (rendered_index : nat) (ty : string) (d : description)
  (cs : list clock) : Handler unit :=
  match cs with
  | [] => ret tt
  | c :: rest =>
      addProctoringFlag rendered_index ty d c ;;
      record_all rendered_index ty d rest
  end.

End Room.

(** ** The question list of [InterviewRecorder.jsx] *)

Module Questions.

(** [s.split('\n')]: the pieces between line feeds; the empty string gives
    one empty piece. *)
Fixpoint split_lines (s : string) : list string :=
  match s with
  | EmptyString => [EmptyString]
  | String c rest =>
      if Ascii.eqb c (Ascii.ascii_of_nat 10) then EmptyString :: split_lines rest
      else match split_lines rest with
           | l :: ls => String c l :: ls
           | [] => [String c EmptyString]
           end
  end.

Definition fallback_questions : list string :=
  ["How would you approach this problem?";
   "What tools or technologies would you use?";
   "What challenges do you foresee?";
   "How would you ensure quality?"].

Section Derive.

(** [blank l] stands for [!l.trim()]: the line is empty once trimmed. *)
Variable blank : string -> bool.

(** The list computed by the effect that watches [simulation]. *)
Definition extractedQuestions (prompt : string) : list string :=
  let lines := filter (fun l => negb (blank l)) (split_lines prompt) in
  if (3 <? List.length lines)%nat then firstn 5 lines
  else prompt :: fallback_questions.

Definition set_questions (qs : list string) (s : Recorder.state) : Recorder.state :=
  Recorder.mkState (Recorder.attemptId s) (Recorder.mediaRecorderRef s)
    (Recorder.screenRecorderRef s) (Recorder.faceDetectIntervalRef s)
    (Recorder.recording s) (Recorder.proctoring_current s)
    (Recorder.paste_count s) (Recorder.currentQuestion s) qs
    (Recorder.speaking s) (Recorder.faceCount s) (Recorder.violations s)
    (Recorder.showWarning s) (Recorder.pasteListeners s)
    (Recorder.liveCameraStreams s) (Recorder.liveScreenStreams s).

(** The effect itself: [if (simulation?.prompt) setQuestions(...)].  [None]
    is a missing simulation or prompt; the empty prompt is falsy too. *)
Definition onSimulation (prompt : option string) (s : Recorder.state)
  : Recorder.state :=
  match prompt with
  | Some (String c rest) => set_questions (extractedQuestions (String c rest)) s
  | _ => s
  end.

End Derive.

End Questions.

(** ** Session start of the earlier [InterviewRecorder] *)

Module EarlierSession.

Record state : Type := mkState {
  attemptId : option Z;
  mediaRecorderRef : option recorder_state;
  screenRecorderRef : option recorder_state;
  recording : bool;
  pasteListener : bool;
  detection : RecorderV0.state
}.

Definition init : state :=
  {| attemptId := None; mediaRecorderRef := None; screenRecorderRef := None;
     recording := false; pasteListener := false; detection := RecorderV0.init |}.

Definition set_attemptId (v : option Z) (s : state) : state :=
  mkState v (mediaRecorderRef s) (screenRecorderRef s) (recording s)
    (pasteListener s) (detection s).

Definition set_mediaRecorderRef (v : option recorder_state) (s : state) : state :=
  mkState (attemptId s) v (screenRecorderRef s) (recording s)
    (pasteListener s) (detection s).

Definition set_screenRecorderRef (v : option recorder_state) (s : state) : state :=
  mkState (attemptId s) (mediaRecorderRef s) v (recording s)
    (pasteListener s) (detection s).

Definition set_recording (v : bool) (s : state) : state :=
  mkState (attemptId s) (mediaRecorderRef s) (screenRecorderRef s) v
    (pasteListener s) (detection s).

Definition set_pasteListener (v : bool) (s : state) : state :=
  mkState (attemptId s) (mediaRecorderRef s) (screenRecorderRef s)
    (recording s) v (detection s).

Definition set_detection (v : RecorderV0.state) (s : state) : state :=
  mkState (attemptId s) (mediaRecorderRef s) (screenRecorderRef s)
    (recording s) (pasteListener s) v.

Definition Handler (A : Type) : Type := Eff state call A.

(** A handler of the detection refs, run inside the component. *)
Definition onDetection (A : Type) (c : RecorderV0.Handler A) : Handler A :=
  fun s => let '(r, d, t) := c (detection s) in (r, set_detection d s, t).

Record start_env : Type := mkStartEnv {
  simulationId : option Z;
  confirm_answer : bool;
  getUserMedia : option unit;
  post_start : option Z;
  video_play : option unit;
  newVideoRecorder : option unit;
  getDisplayMedia : option unit;
  newScreenRecorder : option unit;
  supportsFaceDetector : bool
}.

(** [startInterview()] of the earlier component: the screen share is
    requested inside the outer [try] only. *)
Definition startInterview (e : start_env) : Handler unit :=
  try_catch
    (match simulationId e with
     | None => emit (Alert "Cannot start interview: No simulation available")
     | Some sim =>
         emit (Confirm Recorder.confirm_text) ;;
         if negb (confirm_answer e) then
           emit (Alert "Camera and microphone access is required to start the interview.")
         else
           cam <- try_catch
                    (await GetUserMedia (getUserMedia e) "NotAllowedError" ;;
                     ret true)
                    (fun _ =>
                       emit (Alert "Failed to access camera/microphone. Please check your browser permissions and try again.") ;;
                       emit (ConsoleError "Media permission error:") ;;
                       ret false) ;;
           if negb cam then ret tt
           else
             emit (ConsoleLog "Starting interview with simulation_id:") ;;
             id <- await (PostStart sim) (post_start e) "Request failed" ;;
             modify (set_attemptId (Some id)) ;;
             await VideoPlay (video_play e) "play() failed" ;;
             await (NewMediaRecorder video) (newVideoRecorder e) "NotSupportedError" ;;
             emit (RecorderStart video 2000) ;;
             modify (set_mediaRecorderRef (Some rs_recording)) ;;
             await GetDisplayMedia (getDisplayMedia e) "NotAllowedError" ;;
             await (NewMediaRecorder screen) (newScreenRecorder e) "NotSupportedError" ;;
             emit (RecorderStart screen 2000) ;;
             modify (set_screenRecorderRef (Some rs_recording)) ;;
             onDetection (RecorderV0.startFaceDetection (supportsFaceDetector e)) ;;
             emit AddPasteListener ;;
             modify (set_pasteListener true) ;;
             modify (set_recording true)
     end)
    (fun reason =>
       emit (ConsoleError "Failed to start interview:") ;;
       emit (Alert ("Failed to start interview: " ++ reason)%string)).

End EarlierSession.

(** ** Answers, submission and model loading of [InterviewRoom] *)

Module RoomForm.

(** A question as the room receives it. *)
Record question : Type := mkQuestion {
  question_id : Z;
  question_text : string;
  category : string
}.

(** The [answers] object, by what a key looks up. *)
Definition answers_map : Type := Z -> option string.

Definition no_answers : answers_map := fun _ => None.

(** [{...prev, [k]: v}]. *)
Definition with_answer (k : Z) (v : string) (prev : answers_map) : answers_map :=
  fun k' => if k' =? k then Some v else prev k'.

(** [answers[k] || '']. *)
Definition answer_or_empty (m : answers_map) (k : Z) : string :=
  match m k with
  | Some v => v
  | None => ""
  end.

Record state : Type := mkState {
  room : Room.state;
  answers : answers_map;
  currentAnswer : string;
  faceApiLoaded : bool;
  isLoading : bool
}.

Definition init : state :=
  {| room := Room.init false; answers := no_answers; currentAnswer := "";
     faceApiLoaded := false; isLoading := true |}.

Definition set_room (v : Room.state) (s : state) : state :=
  mkState v (answers s) (currentAnswer s) (faceApiLoaded s) (isLoading s).

Definition set_answers (v : answers_map) (s : state) : state :=
  mkState (room s) v (currentAnswer s) (faceApiLoaded s) (isLoading s).

Definition set_currentAnswer (v : string) (s : state) : state :=
  mkState (room s) (answers s) v (faceApiLoaded s) (isLoading s).

Definition set_faceApiLoaded (v : bool) (s : state) : state :=
  mkState (room s) (answers s) (currentAnswer s) v (isLoading s).

Definition set_isLoading (v : bool) (s : state) : state :=
  mkState (room s) (answers s) (currentAnswer s) (faceApiLoaded s) v.

Definition set_currentQuestionIndex (v : nat) (r : Room.state) : Room.state :=
  Room.mkState v (Room.isRecording r) (Room.isProctoringActive r)
    (Room.proctoringFlags r) (Room.faceDetected r) (Room.modelsLoaded r)
    (Room.videoStreamRef r) (Room.screenStreamRef r) (Room.screenRecorderRef r)
    (Room.detectionIntervalRef r) (Room.intervalQuestionIndex r).

Definition set_modelsLoaded (v : bool) (r : Room.state) : Room.state :=
  Room.mkState (Room.currentQuestionIndex r) (Room.isRecording r)
    (Room.isProctoringActive r) (Room.proctoringFlags r) (Room.faceDetected r)
    v (Room.videoStreamRef r) (Room.screenStreamRef r)
    (Room.screenRecorderRef r) (Room.detectionIntervalRef r)
    (Room.intervalQuestionIndex r).

Inductive call : Type :=
| InRoom (c : Room.call)
| ToastLoading (text : string)
| ToastDismiss
| OnComplete (finalAnswers : answers_map)
| AppendScript
| LoadNet (name : string).

Definition Handler (A : Type) : Type := Eff state call A.

(** A handler of the room's own state, run inside the whole component. *)
Definition inRoom (A : Type) (c : Room.Handler A) : Handler A :=
  fun s => let '(r, rs, t) := c (room s) in (r, set_room rs s, map InRoom t).

Definition toast_error (text : string) : Handler unit :=
  emit (InRoom (Room.ToastError (Room.Plain text))).

Definition toast_success (text : string) : Handler unit :=
  emit (InRoom (Room.ToastSuccess text)).

(** [questions[i].question_id]; reading it off a missing question throws. *)
Definition question_id_at (questions : list question) (i : nat) : Handler Z :=
  match nth_error questions i with
  | Some q => ret (question_id q)
  | None => throw "TypeError"
  end.

Section Form.

(** [blank a] stands for [!a.trim()]. *)
Variable blank : string -> bool.
Variable questions : list question.

(** [handleSubmitInterview()]; [completes] tells how the promise of
    [onComplete] settles.  [rendered] holds what the handler's closure
    sees: the [answers], the answer on screen and the index of the render
    it belongs to. *)
Definition handleSubmitInterview (rendered : state) (completes : option unit)
  : Handler unit :=
  try_catch
    (qid <- question_id_at questions (Room.currentQuestionIndex (room rendered)) ;;
     let finalAnswers :=
       with_answer qid (currentAnswer rendered) (answers rendered) in
     inRoom Room.cleanup ;;
     emit (ToastLoading "Submitting interview...") ;;
     await (OnComplete finalAnswers) completes "onComplete failed" ;;
     emit ToastDismiss ;;
     toast_success "Interview submitted successfully!")
    (fun reason =>
       toast_error "Failed to submit interview" ;;
       emit (InRoom (Room.ConsoleError reason))).

(** [handleNextQuestion()].  The source reads the question's id when React
    runs the updater of [setAnswers]; for a cursor inside the list it makes
    no difference that the model reads it before. *)
Definition handleNextQuestion (completes : option unit) : Handler unit :=
  s <- get ;;
  if blank (currentAnswer s) then
    toast_error "Please provide an answer before continuing"
  else
    let i := Room.currentQuestionIndex (room s) in
    qid <- question_id_at questions i ;;
    modify (set_answers (with_answer qid (currentAnswer s) (answers s))) ;;
    if Z.of_nat i <? Z.of_nat (List.length questions) - 1 then
      modify (fun s' => set_room (set_currentQuestionIndex
                                    (Room.currentQuestionIndex (room s') + 1)
                                    (room s')) s') ;;
      modify (set_currentAnswer "") ;;
      toast_success "Answer saved"
    else
      handleSubmitInterview s completes.

(** [handlePreviousQuestion()]. *)
Definition handlePreviousQuestion : Handler unit :=
  s <- get ;;
  let i := Room.currentQuestionIndex (room s) in
  if (0 <? i)%nat then
    modify (fun s' => set_room (set_currentQuestionIndex
                                  (Room.currentQuestionIndex (room s') - 1)
                                  (room s')) s') ;;
    qid <- question_id_at questions (i - 1) ;;
    modify (set_currentAnswer (answer_or_empty (answers s) qid))
  else ret tt.

(** [handleAnswerChange(e)]. *)
Definition handleAnswerChange (text : string) : Handler unit :=
  modify (set_currentAnswer text).

End Form.

(** How the face-api.js script and its three models load. *)
Record load_env : Type := mkLoadEnv {
  hasFaceapi : bool;              (* window.faceapi is already there *)
  script_loads : bool;            (* onload fires; otherwise onerror *)
  tinyFaceDetector : option unit;
  faceLandmark68Net : option unit;
  faceRecognitionNet : option unit
}.

(** [Promise.all] of the three loads: all three are started; it resolves
    when each of them does. *)
Definition all_nets (e : load_env) : option unit :=
  match tinyFaceDetector e, faceLandmark68Net e, faceRecognitionNet e with
  | Some _, Some _, Some _ => Some tt
  | _, _, _ => None
  end.

(** [loadModels()]. *)
Definition loadModels (e : load_env) : Handler unit :=
  try_catch
    (emit (LoadNet "tinyFaceDetector") ;;
     emit (LoadNet "faceLandmark68Net") ;;
     emit (LoadNet "faceRecognitionNet") ;;
     await_all <- ret (all_nets e) ;;
     (match await_all with
      | Some _ => ret tt
      | None => throw "model load failed"
      end) ;;
     modify (fun s => set_room (set_modelsLoaded true (room s)) s) ;;
     modify (set_isLoading false) ;;
     toast_success "Proctoring system ready")
    (fun _ =>
       emit (InRoom (Room.ConsoleError "Error loading face-api models:")) ;;
       toast_error "Face detection models failed to load" ;;
       modify (set_isLoading false)).

(** [loadFaceApi()], with the script's [onload] or [onerror] callback run
    in place. *)
Definition loadFaceApi (e : load_env) : Handler unit :=
  if negb (hasFaceapi e) then
    emit AppendScript ;;
    if script_loads e then
      modify (set_faceApiLoaded true) ;;
      loadModels e
    else
      toast_error "Failed to load face detection library" ;;
      modify (set_isLoading false)
  else
    modify (set_faceApiLoaded true) ;;
    loadModels e.

End RoomForm.

(** ** The interview page that hosts the recorder *)

Module Page.

Record match_info : Type := mkMatch { match_id : Z; job_id : Z }.

Record simulation : Type := mkSimulation {
  sim_id : option Z;        (* simulation.id *)
  prompt : option string;
  title : option string
}.

Record state : Type := mkState {
  found : option match_info;     (* the [match] cell *)
  loaded : option simulation;    (* the [simulation] cell *)
  loading : bool;
  started : bool
}.

Definition init : state :=
  {| found := None; loaded := None; loading := true; started := false |}.

Definition set_found (v : option match_info) (s : state) : state :=
  mkState v (loaded s) (loading s) (started s).

Definition set_loaded (v : option simulation) (s : state) : state :=
  mkState (found s) v (loading s) (started s).

Definition set_loading (v : bool) (s : state) : state :=
  mkState (found s) (loaded s) v (started s).

Inductive call : Type :=
| GetMatches
| GetSimulations (job : Z)
| Navigate (path : string)
| ToastError (text : string)
| ToastSuccess (text : string)
| ConsoleLog (msg : string)
| ConsoleWarn (msg : string)
| ConsoleError (msg : string).

Definition Handler (A : Type) : Type := Eff state call A.

(** What the route and the backend give [fetchMatchDetails]. *)
Record fetch_env : Type := mkFetchEnv {
  matchId : option Z;                        (* parseInt(matchId); None: NaN *)
  matches : option (list match_info);        (* None: the request fails *)
  simulations : option (option (list simulation))
    (* None: the request fails; Some None: no [simulations] field *)
}.

(** [fetchMatchDetails()]. *)
Definition fetchMatchDetails (e : fetch_env) : Handler unit :=
  try_catch
    (ms <- await GetMatches (matches e) "Request failed" ;;
     match
       find (fun m => match matchId e with
                      | Some n => match_id m =? n
                      | None => false
                      end) ms
     with
     | None =>
         emit (ToastError "Interview invitation not found") ;;
         emit (Navigate "/candidate-dashboard")
     | Some foundMatch =>
         modify (set_found (Some foundMatch)) ;;
         try_catch
           (emit (ConsoleLog "Fetching simulations for job_id:") ;;
            sims <- await (GetSimulations (job_id foundMatch)) (simulations e)
                      "Request failed" ;;
            emit (ConsoleLog "Simulations response:") ;;
            match sims with
            | Some (loadedSim :: _) =>
                emit (ConsoleLog "Setting simulation:") ;;
                modify (set_loaded (Some loadedSim)) ;;
                emit (ToastSuccess "Interview ready!")
            | _ => emit (ConsoleWarn "No simulations found for this job")
            end)
           (fun _ => emit (ConsoleError "Error loading simulation:")) ;;
         modify (set_loading false)
     end)
    (fun _ =>
       emit (ConsoleError "Error:") ;;
       emit (ToastError "Failed to load interview") ;;
       modify (set_loading false)).

(** The [simulationId] prop handed to the recorder: [simulation?.id]. *)
Definition simulationId_prop (s : state) : option Z :=
  match loaded s with
  | Some sim => sim_id sim
  | None => None
  end.

(** The [simulation?.prompt] the recorder's question effect reads. *)
Definition prompt_prop (s : state) : option string :=
  match loaded s with
  | Some sim => prompt sim
  | None => None
  end.

End Page.

Unset Implicit Arguments.

(** * Observations

    Functions on states, inputs and traces in which the properties below
    are stated. *)

Section RecorderObservations.

Import Recorder.

(** A tick of [InterviewRecorder.jsx] on which the browser's detector
    reported [count] faces. *)
Definition native_tick (count : nat) (w h : Z) (settles : option unit) (t : Z)
  : Recorder.tick_input :=
  Recorder.mkTick true true (Some count) w h None settles t.

(** The count the fallback shows for a frame it could read. *)
Definition fallback_count (data : list Z) (w h : Z) : Z :=
  if (num (skinPixels data) / num (w * h) <? 0.02)%float then 0 else 1.

(** What no event handler touches: the attempt id and the recorder refs. *)
Definition session_refs (s : state)
  : option Z * option recorder_state * option recorder_state :=
  (attemptId s, mediaRecorderRef s, screenRecorderRef s).

(** Both requests of [stopInterview] are accepted. *)
Definition accepted : stop_env :=
  {| upload_final := Some tt; post_finish := Some tt |}.

(** The calls of a [stopInterview] that finds nothing left to tear down. *)
Definition submission (s : state) : list call :=
  [RemovePasteListener;
   PostUploadChunk (attemptId s) editor_events
     (Summary (paste_count s) (proctoring_current s));
   PostFinish (attemptId s);
   Alert "Interview submitted successfully!"].

(** Nothing is left to tear down: no active recorder, no interval. *)
Definition torn_down (s : state) : bool :=
  match mediaRecorderRef s with Some st => is_inactive st | None => true end
  && match screenRecorderRef s with Some st => is_inactive st | None => true end
  && negb (faceDetectIntervalRef s).

End RecorderObservations.

Section EarlierRecorderObservations.

(** A tick of the earlier recorder that got a count from the detector. *)
Definition v0_count (i : RecorderV0.tick_input) : option nat :=
  if RecorderV0.frame_ok i then RecorderV0.detect i else None.

Definition v0_saw_multiple (i : RecorderV0.tick_input) : bool :=
  match v0_count i with Some n => (1 <? n)%nat | None => false end.

(** The count of the last tick that got one, [d] when there is none. *)
Fixpoint v0_last_count (d : Z) (inputs : list RecorderV0.tick_input) : Z :=
  match inputs with
  | [] => d
  | i :: rest =>
      v0_last_count (match v0_count i with Some n => Z.of_nat n | None => d end) rest
  end.

End EarlierRecorderObservations.

Section RoomObservations.

Import Room.

(** The calls made for a flag that is not suppressed. *)
Definition calls_for (f : flag) (prev : list flag) : list call :=
  PostProctor f ::
  (if negb (String.eqb (type f) "NO_FACE")
      || (Nat.modulo (countType "NO_FACE" prev) 3 =? 0)%nat
   then [ToastError (flag_description f)] else []).

(** The flag a call appends when it is not suppressed: it carries the
    question index [q] of the render the called closure belongs to. *)
Definition flag_of (q : nat) (ty : string) (d : description) (c : clock) : flag :=
  mkFlag ty d (called_at c) q.

(** For each call of a run, whether it put a toast on the screen. *)
Fixpoint notifications (q : nat) (ty : string) (d : description)
  (cs : list clock) (s : state) : list bool :=
  match cs with
  | [] => []
  | c :: rest =>
      let r := addProctoringFlag q ty d c s in
      existsb is_toast (trace_of r) :: notifications q ty d rest (state_of r)
  end.

(** The flags a handler run added at the end of the log. *)
Definition added (s : state) (r : completion unit * state * list call) : list flag :=
  skipn (List.length (proctoringFlags s)) (proctoringFlags (state_of r)).









End RoomObservations.

(** * Further observations

    Functions in which the properties of the remaining handlers are
    stated. *)

(** The tick cannot take its measurement: the frame, the detector or the
    pixel read fails. *)
Definition tick_fails (i : Recorder.tick_input) : bool :=
  negb (Recorder.frame_ok i)
  || (if Recorder.hasFaceDetector i
      then match Recorder.detect i with Some _ => false | None => true end
      else match Recorder.imageData i with Some _ => false | None => true end).

(** The same tick with another fate for its face-flag request. *)
Definition with_flag_settles (f : option unit) (i : Recorder.tick_input)
  : Recorder.tick_input :=
  Recorder.mkTick (Recorder.frame_ok i) (Recorder.hasFaceDetector i)
    (Recorder.detect i) (Recorder.canvas_width i) (Recorder.canvas_height i)
    (Recorder.imageData i) f (Recorder.now i).

Definition is_some (A : Type) (o : option A) : bool :=
  match o with Some _ => true | None => false end.

(** Every step [startInterview] cannot do without succeeds. *)
Definition mandatory (e : Recorder.start_env) : bool :=
  is_some _ (Recorder.simulationId e)
  && Recorder.confirm_answer e
  && is_some _ (Recorder.getUserMedia e)
  && is_some _ (Recorder.post_start e)
  && is_some _ (Recorder.video_play e)
  && is_some _ (Recorder.newVideoRecorder e).

Definition screen_ok (e : Recorder.start_env) : bool :=
  is_some _ (Recorder.getDisplayMedia e) && is_some _ (Recorder.newScreenRecorder e).

(** [startInterview] gets as far as the camera request, and it is
    granted. *)
Definition camera_granted (e : Recorder.start_env) : bool :=
  is_some _ (Recorder.simulationId e)
  && Recorder.confirm_answer e
  && is_some _ (Recorder.getUserMedia e).

(** [startInterview] gets as far as the screen share, and it is granted. *)
Definition screen_granted (e : Recorder.start_env) : bool :=
  mandatory e && is_some _ (Recorder.getDisplayMedia e).

Definition is_recorder_start (c : call) : bool :=
  match c with RecorderStart _ _ => true | _ => false end.

Definition is_blur (ev : Recorder.event) : bool :=
  match ev with Recorder.Blur _ => true | _ => false end.

Definition is_paste (ev : Recorder.event) : bool :=
  match ev with Recorder.Paste _ => true | _ => false end.

Definition is_next (ev : Recorder.event) : bool :=
  match ev with Recorder.NextQuestion => true | _ => false end.

Definition count_events (p : Recorder.event -> bool) (evs : list Recorder.event) : nat :=
  List.length (filter p evs).

(** What the detection tick never touches. *)
Definition outside_detection (s : Recorder.state)
  : Z * Z * nat * list string * nat * bool * nat * nat :=
  (tab_blur_count (Recorder.proctoring_current s), Recorder.paste_count s,
   Recorder.pasteListeners s, Recorder.questions s, Recorder.currentQuestion s,
   Recorder.recording s, Recorder.liveCameraStreams s,
   Recorder.liveScreenStreams s).

(** The [data] array of a frame given pixel by pixel. *)
Definition rgba (pixels : list (Z * Z * Z * Z)) : list Z :=
  flat_map (fun p => let '(r, g, b, a) := p in [r; g; b; a]) pixels.

Definition skin_pixel (p : Z * Z * Z * Z) : bool :=
  let '(r, g, b, _) := p in Recorder.isSkin r g b.

(** Red is at most 95, or no more than green. *)
Definition dull_pixel (p : Z * Z * Z * Z) : bool :=
  let '(r, g, _, _) := p in (r <=? 95) || (r <=? g).

(** Ticks of the room's interval, one after the other. *)
Fixpoint roomTicks (inputs : list Room.tick_input) : Room.Handler unit :=
  match inputs with
  | [] => ret tt
  | i :: rest => Room.detectionTick i ;; roomTicks rest
  end.

(** In the log, a later flag of the same type is at least 5000 ms younger. *)
Definition well_spaced (log : list Room.flag) : Prop :=
  ForallOrdPairs
    (fun f g => Room.type f = Room.type g ->
                Room.timestamp f + 5000 <= Room.timestamp g) log.

(** The updater runs in the millisecond in which the flag was built. *)
Definition synchronous (c : Room.clock) : Prop :=
  Room.applied_at c = Room.called_at c.

(** What [addProctoringFlag] and the ticks leave alone. *)
Definition outside_log (s : Room.state)
  : nat * bool * bool * bool * bool * bool * option recorder_state * bool * nat :=
  (Room.currentQuestionIndex s, Room.isRecording s, Room.isProctoringActive s,
   Room.modelsLoaded s, Room.videoStreamRef s, Room.screenStreamRef s,
   Room.screenRecorderRef s, Room.detectionIntervalRef s,
   Room.intervalQuestionIndex s).

(** The common shape of what a tick, or any run of flag reports of the
    interval's callback, does. *)
Definition grows_by (n : nat) (c : Room.clock) (s s' : Room.state) : Prop :=
  outside_log s' = outside_log s
  /\ (exists new,
        Room.proctoringFlags s' = Room.proctoringFlags s ++ new
        /\ (List.length new <= n)%nat
        /\ Forall (fun f => Room.timestamp f = Room.called_at c
                            /\ Room.questionIndex f = Room.intervalQuestionIndex s) new)
  /\ (synchronous c -> well_spaced (Room.proctoringFlags s) ->
      well_spaced (Room.proctoringFlags s')).

Definition is_room_recorder_stop (c : Room.call) : bool :=
  match c with Room.RecorderStop => true | _ => false end.

Definition is_room_interval (c : Room.call) : bool :=
  match c with Room.SetInterval _ => true | _ => false end.

Definition room_recorder_idle (s : Room.state) : bool :=
  match Room.screenRecorderRef s with
  | Some st => is_inactive st
  | None => true
  end.

(** Camera, screen share and screen recorder are all granted. *)
Definition room_granted (e : Room.start_env) : bool :=
  is_some _ (Room.getUserMedia e) && is_some _ (Room.getDisplayMedia e)
  && is_some _ (Room.newScreenRecorder e).

Definition is_oncomplete (c : RoomForm.call) : bool :=
  match c with RoomForm.OnComplete _ => true | _ => false end.

Definition form_index (s : RoomForm.state) : nat :=
  Room.currentQuestionIndex (RoomForm.room s).

(** Typing and confirming one answer after the other. *)
Fixpoint answerAll (blank : string -> bool) (questions : list RoomForm.question)
  (completes : option unit) (texts : list string) : RoomForm.Handler unit :=
  match texts with
  | [] => ret tt
  | a :: rest =>
      RoomForm.handleAnswerChange a ;;
      RoomForm.handleNextQuestion blank questions completes ;;
      answerAll blank questions completes rest
  end.

(** The script is there, or loads, and all three models load. *)
Definition models_available (e : RoomForm.load_env) : bool :=
  (RoomForm.hasFaceapi e || RoomForm.script_loads e)
  && is_some _ (RoomForm.all_nets e).

Definition is_form_interval (c : RoomForm.call) : bool :=
  match c with RoomForm.InRoom (Room.SetInterval _) => true | _ => false end.

(** The first simulation the backend lists, if the request succeeds. *)
Definition first_simulation (e : Page.fetch_env) : option Page.simulation :=
  match Page.simulations e with
  | Some (Some (sim :: _)) => Some sim
  | _ => None
  end.

Definition requested_match (e : Page.fetch_env) : option Page.match_info :=
  match Page.matches e with
  | Some ms =>
      find (fun m => match Page.matchId e with
                     | Some n => Page.match_id m =? n
                     | None => false
                     end) ms
  | None => None
  end.

(** The recorder's start, given the page's simulation id. *)
Definition start_from_page (p : Page.state) (e : Recorder.start_env)
  : Recorder.start_env :=
  Recorder.mkStartEnv (Page.simulationId_prop p) (Recorder.simulation_title e)
    (Recorder.speechSynthesis e) (Recorder.confirm_answer e)
    (Recorder.getUserMedia e) (Recorder.post_start e) (Recorder.video_play e)
    (Recorder.newVideoRecorder e) (Recorder.getDisplayMedia e)
    (Recorder.newScreenRecorder e).

(** * Properties *)

(** ** Unfolding handlers *)

Ltac eff_unfold :=
  unfold bind, try_catch, await, emit, modify, get, ret, throw, when,
         state_of, trace_of, result_of, returns in *.

Ltac eff_simpl :=
  eff_unfold;
  cbn -[Nat.ltb Nat.eqb Nat.modulo Z.ltb Z.of_nat Z.add Z.sub Z.mul String.eqb
       PrimFloat.ltb PrimFloat.div num] in *.

(** ** Sequencing *)

Section Sequencing.
Variables St Ev A B : Type.
Variable c : Eff St Ev A.
Variable k : A -> Eff St Ev B.
Variable s : St.
Variable a : A.
Hypothesis c_returns : result_of (c s) = Returned a.

Lemma bind_state : state_of (bind c k s) = state_of (k a (state_of (c s))).
Proof.
  unfold bind, state_of, result_of in *.
  destruct (c s) as [[r s1] t1]; cbn in *; subst r.
  destruct (k a s1) as [[r2 s2] t2]; reflexivity.
Qed.

Lemma bind_trace :
  trace_of (bind c k s) = trace_of (c s) ++ trace_of (k a (state_of (c s))).
Proof.
  unfold bind, state_of, trace_of, result_of in *.
  destruct (c s) as [[r s1] t1]; cbn in *; subst r.
  destruct (k a s1) as [[r2 s2] t2]; reflexivity.
Qed.

Lemma bind_result : result_of (bind c k s) = result_of (k a (state_of (c s))).
Proof.
  unfold bind, state_of, result_of in *.
  destruct (c s) as [[r s1] t1]; cbn in *; subst r.
  destruct (k a s1) as [[r2 s2] t2]; reflexivity.
Qed.
End Sequencing.

Lemma bind_get (St Ev B : Type) (k : St -> Eff St Ev B) (s : St) :
  bind get k s = k s s.
Proof. unfold bind, get. destruct (k s s) as [[r s2] t2]. reflexivity. Qed.

(** ** Sticky and momentary face fields *)

Section FaceFields.

Import RecorderV0.

Lemma v0_tick_fields (attempt : Z) (i : RecorderV0.tick_input) (s : RecorderV0.state) :
  let s' := state_of (RecorderV0.detectionTick attempt i s) in
  multiple_faces (RecorderV0.proctoring_current s')
    = multiple_faces (RecorderV0.proctoring_current s) || v0_saw_multiple i
  /\ face_count (RecorderV0.proctoring_current s')
    = match v0_count i with
      | Some n => Z.of_nat n
      | None => face_count (RecorderV0.proctoring_current s)
      end
  /\ tab_blur_count (RecorderV0.proctoring_current s')
    = tab_blur_count (RecorderV0.proctoring_current s).
Proof.
  destruct i as [fr det fs t]; destruct s as [iv [tb mf fc]].
  unfold RecorderV0.detectionTick, RecorderV0.sendFaceFlag, v0_saw_multiple, v0_count.
  destruct fr; [destruct det as [n|] | ]; eff_simpl;
    [ destruct (1 <? n)%nat eqn:E; [destruct fs | ] | | ];
    eff_simpl; rewrite ?orb_true_r, ?orb_false_r; auto.
Qed.

Lemma v0_tick_returns (attempt : Z) (i : RecorderV0.tick_input) (s : RecorderV0.state) :
  result_of (RecorderV0.detectionTick attempt i s) = Returned tt.
Proof.
  destruct i as [fr det fs t].
  unfold RecorderV0.detectionTick, RecorderV0.sendFaceFlag.
  destruct fr; [destruct det as [n|] | ]; eff_simpl;
    [ destruct (1 <? n)%nat; [destruct fs as [[]|] | ] | | ]; reflexivity.
Qed.

Lemma v0_ticks_fields (attempt : Z) (inputs : list RecorderV0.tick_input) :
  forall s : RecorderV0.state,
  let s' := state_of (RecorderV0.detectionTicks attempt inputs s) in
  multiple_faces (RecorderV0.proctoring_current s')
    = multiple_faces (RecorderV0.proctoring_current s)
      || existsb v0_saw_multiple inputs
  /\ face_count (RecorderV0.proctoring_current s')
    = v0_last_count (face_count (RecorderV0.proctoring_current s)) inputs.
Proof.
  induction inputs as [|i rest IH]; intros s; cbn zeta.
  - cbn. rewrite orb_false_r. auto.
  - cbn [RecorderV0.detectionTicks existsb v0_last_count].
    erewrite bind_state by apply v0_tick_returns.
    destruct (v0_tick_fields attempt i s) as (Hm & Hc & _).
    destruct (IH (state_of (RecorderV0.detectionTick attempt i s))) as (IHm & IHc).
    cbn zeta in *. rewrite IHm, IHc, Hm, Hc, orb_assoc. auto.
Qed.

Lemma recorder_native_tick_fields (attempt : Z) (count : nat) (w h : Z)
  (settles : option unit) (t : Z) (s : Recorder.state) :
  let s' := state_of (Recorder.detectionTick attempt (native_tick count w h settles t) s) in
  Recorder.faceCount s' = Z.of_nat count
  /\ face_count (Recorder.proctoring_current s') = Z.of_nat count
  /\ multiple_faces (Recorder.proctoring_current s')
     = (if (count =? 0)%nat then multiple_faces (Recorder.proctoring_current s)
        else (1 <? count)%nat).
Proof.
  unfold Recorder.detectionTick, Recorder.sendFaceFlag, Recorder.addViolation, native_tick.
  eff_simpl.
  destruct (count =? 0)%nat eqn:E0; [ | destruct (1 <? count)%nat eqn:E1 ];
    destruct settles; eff_simpl; auto.
Qed.

End FaceFields.

(** C2 (amended). In the earlier recorder [multiple_faces] is sticky: after
    any run of ticks it is true exactly when it was true before or some tick
    counted more than one face, and [face_count] holds the count of the last
    tick that got one.  In [InterviewRecorder.jsx] a tick on which the
    detector counted [count] faces stores [count] in both face-count fields
    and sets [multiple_faces] to true for more than one face, to false for
    exactly one face, and leaves it alone for no face. *)
Theorem multiple_faces_sticky_in_earlier_recorder_only :
  (forall (attempt : Z) (inputs : list RecorderV0.tick_input) (s : RecorderV0.state),
      let s' := state_of (RecorderV0.detectionTicks attempt inputs s) in
      multiple_faces (RecorderV0.proctoring_current s')
        = multiple_faces (RecorderV0.proctoring_current s)
          || existsb v0_saw_multiple inputs
      /\ face_count (RecorderV0.proctoring_current s')
        = v0_last_count (face_count (RecorderV0.proctoring_current s)) inputs)
  /\ (forall (attempt : Z) (count : nat) (w h : Z) (settles : option unit) (t : Z)
             (s : Recorder.state),
      let s' := state_of (Recorder.detectionTick attempt
                            (native_tick count w h settles t) s) in
      Recorder.faceCount s' = Z.of_nat count
      /\ face_count (Recorder.proctoring_current s') = Z.of_nat count
      /\ multiple_faces (Recorder.proctoring_current s')
         = (if (count =? 0)%nat
            then multiple_faces (Recorder.proctoring_current s)
            else (1 <? count)%nat)).
Proof.
  split.
  - intros. apply v0_ticks_fields.
  - intros. apply recorder_native_tick_fields.
Qed.

(** In [InterviewRecorder.jsx] a tick that counts three faces sets
    [multiple_faces], and the next tick, counting one face, clears it. *)
Lemma single_face_tick_clears_multiple_faces :
  let three := native_tick 3 640 480 (Some tt) 0 in
  let one := native_tick 1 640 480 (Some tt) 2000 in
  let s0 := Recorder.init [] in
  multiple_faces (Recorder.proctoring_current
                    (state_of (Recorder.detectionTick 7 three s0))) = true
  /\ multiple_faces (Recorder.proctoring_current
                       (state_of (Recorder.detectionTicks 7 [three; one] s0))) = false
  /\ face_count (Recorder.proctoring_current
                   (state_of (Recorder.detectionTicks 7 [three; one] s0))) = 1.
Proof. cbv zeta. repeat split; reflexivity. Qed.

(** ** The pixel-heuristic fallback *)

Section Fallback.

Import Recorder.

Lemma recorder_tick_returns (attempt : Z) (i : tick_input) (s : state) :
  result_of (detectionTick attempt i s) = Returned tt.
Proof.
  destruct i as [fr hasfd det w h img fs t].
  unfold detectionTick, sendFaceFlag, addViolation.
  destruct fr; eff_simpl; [ | reflexivity ].
  destruct hasfd; eff_simpl.
  - destruct det as [n|]; eff_simpl; [ | reflexivity ].
    destruct (n =? 0)%nat; [ | destruct (1 <? n)%nat ];
      destruct fs as [[]|]; reflexivity.
  - destruct img as [data|]; eff_simpl; [ | reflexivity ].
    destruct (num (skinPixels data) / num (w * h) <? 0.02)%float; reflexivity.
Qed.

Lemma fallback_tick_fields (attempt : Z) (i : tick_input) (s : state) :
  hasFaceDetector i = false ->
  let r := detectionTick attempt i s in
  proctoring_current (state_of r) = proctoring_current s
  /\ faceCount (state_of r)
     = match (if frame_ok i then imageData i else None) with
       | Some data => fallback_count data (canvas_width i) (canvas_height i)
       | None => faceCount s
       end
  /\ (exists new, violations (state_of r) = violations s ++ new
                  /\ Forall (fun v => message v = msg_no_face) new)
  /\ filter is_post (trace_of r) = [].
Proof.
  destruct i as [fr hasfd det w h img fs t]; cbn [hasFaceDetector]; intros ->.
  unfold detectionTick, addViolation, fallback_count.
  destruct fr; eff_simpl.
  - destruct img as [data|]; eff_simpl.
    + destruct (num (skinPixels data) / num (w * h) <? 0.02)%float; eff_simpl.
      * repeat split; auto. eexists; split; [reflexivity | repeat constructor].
      * repeat split; auto. exists []; rewrite app_nil_r; auto.
    + repeat split; auto. exists []; rewrite app_nil_r; auto.
  - repeat split; auto. exists []; rewrite app_nil_r; auto.
Qed.

Lemma multiple_faces_message_differs (n : nat) :
  msg_multiple_faces n <> msg_no_face.
Proof. unfold msg_multiple_faces, msg_no_face. cbn. discriminate. Qed.

Lemma fallback_ticks_fields (attempt : Z) (inputs : list tick_input) :
  Forall (fun i => hasFaceDetector i = false) inputs ->
  forall s : state,
  let r := detectionTicks attempt inputs s in
  proctoring_current (state_of r) = proctoring_current s
  /\ (faceCount (state_of r) = faceCount s
      \/ faceCount (state_of r) = 0 \/ faceCount (state_of r) = 1)
  /\ (exists new, violations (state_of r) = violations s ++ new
                  /\ Forall (fun v => message v = msg_no_face) new)
  /\ filter is_post (trace_of r) = [].
Proof.
  induction 1 as [|i rest Hi _ IH]; intros s; cbn zeta.
  - cbn. repeat split; auto. exists []; rewrite app_nil_r; auto.
  - cbn [detectionTicks].
    erewrite bind_state, bind_trace by apply recorder_tick_returns.
    destruct (fallback_tick_fields attempt i s Hi) as (Hp & Hc & (n1 & Hv & Hn1) & Ht).
    destruct (IH (state_of (detectionTick attempt i s)))
      as (IHp & IHc & (n2 & IHv & Hn2) & IHt).
    cbn zeta in *. rewrite filter_app, Ht, IHt, IHp, Hp, IHv, Hv.
    repeat split; auto.
    + destruct IHc as [E | [E | E]]; rewrite E; auto.
      rewrite Hc. destruct (if frame_ok i then imageData i else None); auto.
      unfold fallback_count.
      destruct (num (skinPixels l) / num (canvas_width i * canvas_height i) <? 0.02)%float;
        auto.
    + exists (n1 ++ n2). rewrite app_assoc. split; auto.
      apply Forall_app; auto.
Qed.

End Fallback.

(** C10. While the browser's face detector is missing, every tick of
    [InterviewRecorder.jsx] runs the pixel heuristic: a frame it can read
    shows 0 faces when the skin ratio is below 0.02 and 1 face otherwise, so
    over any run of such ticks the displayed count stays at its old value,
    0 or 1, every violation added is the no-face one (its text differs from
    each multiple-faces text), no request is posted, and the [proctoring]
    accumulator, hence [multiple_faces], is left as it was. *)
Theorem fallback_detector_reports_at_most_one_face
  (attempt : Z) (inputs : list Recorder.tick_input) (s : Recorder.state) :
  Forall (fun i => Recorder.hasFaceDetector i = false) inputs ->
  let r := Recorder.detectionTicks attempt inputs s in
  multiple_faces (Recorder.proctoring_current (state_of r))
    = multiple_faces (Recorder.proctoring_current s)
  /\ Recorder.proctoring_current (state_of r) = Recorder.proctoring_current s
  /\ (Recorder.faceCount (state_of r) = Recorder.faceCount s
      \/ Recorder.faceCount (state_of r) = 0
      \/ Recorder.faceCount (state_of r) = 1)
  /\ (forall v, In v (Recorder.violations (state_of r)) ->
        In v (Recorder.violations s)
        \/ (Recorder.message v = Recorder.msg_no_face
            /\ forall n, Recorder.message v <> Recorder.msg_multiple_faces n))
  /\ count_calls is_post (trace_of r) = 0%nat
  /\ (forall i data, In i inputs -> Recorder.frame_ok i = true ->
        Recorder.imageData i = Some data ->
        forall s1,
        Recorder.faceCount (state_of (Recorder.detectionTick attempt i s1))
        = fallback_count data (Recorder.canvas_width i) (Recorder.canvas_height i)
        /\ (fallback_count data (Recorder.canvas_width i) (Recorder.canvas_height i) = 0
            \/ fallback_count data (Recorder.canvas_width i) (Recorder.canvas_height i) = 1)).
Proof.
  intros Hall r.
  destruct (fallback_ticks_fields attempt inputs Hall s) as (Hp & Hc & (new & Hv & Hnew) & Ht).
  fold r in Hp, Hc, Hv, Ht.
  split; [ now rewrite Hp | ].
  split; [ exact Hp | ].
  split; [ exact Hc | ].
  split.
  { intros v Hin. rewrite Hv in Hin. apply in_app_or in Hin as [Hin | Hin]; auto.
    right. rewrite Forall_forall in Hnew. specialize (Hnew v Hin).
    split; auto. intros n E. rewrite Hnew in E.
    symmetry in E. now apply multiple_faces_message_differs in E. }
  split; [ unfold count_calls; now rewrite Ht | ].
  intros i data Hin Hfr Himg s1.
  rewrite Forall_forall in Hall. specialize (Hall i Hin).
  destruct (fallback_tick_fields attempt i s1 Hall) as (_ & Hc1 & _).
  cbn zeta in Hc1. rewrite Hfr, Himg in Hc1. split; auto.
  unfold fallback_count.
  destruct (num (Recorder.skinPixels data)
            / num (Recorder.canvas_width i * Recorder.canvas_height i) <? 0.02)%float; auto.
Qed.

(** Two fallback ticks from a fresh component: a dark frame, then a frame
    of skin-coloured pixels. *)
Lemma fallback_detector_witness :
  let dark := Recorder.mkTick true false None 2 1 (Some [0; 0; 0; 255; 0; 0; 0; 255]) None 0 in
  let skin := Recorder.mkTick true false None 2 1
                (Some [200; 120; 90; 255; 200; 120; 90; 255]) None 2000 in
  let r := Recorder.detectionTicks 7 [dark; skin] (Recorder.init []) in
  multiple_faces (Recorder.proctoring_current (state_of r)) = false
  /\ Recorder.faceCount (state_of r) = 1
  /\ List.length (Recorder.violations (state_of r)) = 1%nat.
Proof.
  cbv zeta.
  split; [ | split; reflexivity ].
  apply (fallback_detector_reports_at_most_one_face 7 _ (Recorder.init [])).
  repeat constructor.
Defined.

(** ** The flag log of the room *)

Section FlagLog.

Import Room.

Lemma recentFlag_some (ty : string) (now : Z) (log : list flag) (f : flag) :
  In f log -> type f = ty -> now - 5000 < timestamp f ->
  exists g, recentFlag ty now log = Some g.
Proof.
  intros Hin Hty Hts. unfold recentFlag.
  destruct (find _ log) as [g|] eqn:E; [ eauto | ].
  apply (find_none _ _ E) in Hin. cbn in Hin.
  rewrite Hty, String.eqb_refl in Hin. cbn in Hin.
  apply Z.ltb_ge in Hin. lia.
Qed.

Lemma recentFlag_none (ty : string) (now : Z) (log : list flag) :
  (forall f, In f log -> type f = ty -> timestamp f + 5000 <= now) ->
  recentFlag ty now log = None.
Proof.
  intros Hold. unfold recentFlag.
  destruct (find _ log) as [g|] eqn:E; [ | reflexivity ].
  apply find_some in E as [Hin Hg].
  apply andb_prop in Hg as [Hty Hts].
  apply String.eqb_eq in Hty. apply Z.ltb_lt in Hts.
  specialize (Hold g Hin Hty). lia.
Qed.

Lemma addProctoringFlag_suppressed (q : nat) (ty : string) (d : description)
  (c : clock) (s : state) (g : flag) :
  recentFlag ty (applied_at c) (proctoringFlags s) = Some g ->
  addProctoringFlag q ty d c s = (Returned tt, s, []).
Proof.
  intros E. unfold addProctoringFlag, flagUpdater. cbn [type]. rewrite E.
  destruct s; reflexivity.
Qed.

Lemma addProctoringFlag_recorded (q : nat) (ty : string) (d : description)
  (c : clock) (s : state) :
  recentFlag ty (applied_at c) (proctoringFlags s) = None ->
  let f := mkFlag ty d (called_at c) q in
  addProctoringFlag q ty d c s
  = (Returned tt, set_proctoringFlags (proctoringFlags s ++ [f]) s,
     calls_for f (proctoringFlags s)).
Proof.
  intros E. unfold addProctoringFlag, flagUpdater, calls_for. cbn [type].
  rewrite E. reflexivity.
Qed.

Lemma countType_app (ty : string) (l1 l2 : list flag) :
  countType ty (l1 ++ l2) = (countType ty l1 + countType ty l2)%nat.
Proof. unfold countType. now rewrite filter_app, length_app. Qed.

Lemma addProctoringFlag_returns (q : nat) (ty : string) (d : description)
  (c : clock) (s : state) :
  result_of (addProctoringFlag q ty d c s) = Returned tt.
Proof.
  unfold addProctoringFlag.
  destruct (flagUpdater _ _ _); reflexivity.
Qed.

(** A run of NO_FACE reports none of which falls in the window of an
    earlier NO_FACE flag: all are appended, and a report is shown exactly
    when the number of NO_FACE flags it finds is a multiple of 3. *)
Lemma no_face_run (q : nat) (d : description) (cs : list clock) :
  forall s : state,
  (forall c f, In c cs -> In f (proctoringFlags s) -> type f = "NO_FACE" ->
               timestamp f + 5000 <= applied_at c) ->
  ForallOrdPairs (fun c' c => called_at c' + 5000 <= applied_at c) cs ->
  proctoringFlags (state_of (record_all q "NO_FACE" d cs s))
    = proctoringFlags s ++ map (flag_of q "NO_FACE" d) cs
  /\ notifications q "NO_FACE" d cs s
    = map (fun i => (Nat.modulo (countType "NO_FACE" (proctoringFlags s) + i) 3 =? 0)%nat)
          (seq 0 (List.length cs)).
Proof.
  induction cs as [|c rest IH]; intros s Hlog Hsp.
  - cbn. now rewrite app_nil_r.
  - inversion Hsp as [|? ? Hc Hrest]; subst.
    assert (E : recentFlag "NO_FACE" (applied_at c) (proctoringFlags s) = None).
    { apply recentFlag_none. intros f Hin Hty. apply (Hlog c f); cbn; auto. }
    pose proof (addProctoringFlag_recorded q "NO_FACE" d c s E) as Hrec.
    cbn zeta in Hrec.
    cbn [record_all notifications List.length seq map].
    erewrite bind_state by apply addProctoringFlag_returns.
    rewrite Hrec. unfold state_of, trace_of. cbn [fst snd].
    set (f0 := {| type := "NO_FACE"; flag_description := d;
                  timestamp := called_at c; questionIndex := q |}).
    destruct (IH (set_proctoringFlags (proctoringFlags s ++ [f0]) s)) as [IHl IHn].
    { intros c' f Hin' Hin Hty. cbn in Hin.
      apply in_app_or in Hin as [Hin | [<- | []]].
      - apply (Hlog c' f); cbn; auto.
      - cbn. rewrite Forall_forall in Hc. now apply Hc. }
    { exact Hrest. }
    unfold state_of in IHl. cbn [fst snd] in IHl. split.
    + rewrite IHl. cbn. rewrite <- app_assoc. reflexivity.
    + f_equal.
      * unfold calls_for. cbn [type]. rewrite Nat.add_0_r.
        change (negb ("NO_FACE" =? "NO_FACE")%string) with false. cbn [orb].
        destruct (_ =? 0)%nat; reflexivity.
      * rewrite IHn. cbn [proctoringFlags set_proctoringFlags].
        rewrite countType_app. rewrite <- seq_shift, map_map.
        apply map_ext. intros i.
        change (countType "NO_FACE" [f0]) with 1%nat.
        now replace (countType "NO_FACE" (proctoringFlags s) + 1 + i)%nat
          with (countType "NO_FACE" (proctoringFlags s) + S i)%nat by lia.
Qed.

(** C5 (amended). In a run of NO_FACE reports none of which falls in the
    5-second window of an earlier NO_FACE flag, every report is appended to
    the log, and the report that finds [k] NO_FACE flags already logged
    raises a toast exactly when [k] is a multiple of 3.  The toasts
    therefore come with reports 1, 4, 7, 10, ... of the run only when the
    number of NO_FACE flags logged before the run is a multiple of 3, as on
    a fresh log; when that number leaves remainder 1 they come with reports
    3, 6, 9, ..., and with remainder 2 with reports 2, 5, 8, ... *)
Theorem no_face_run_logs_all_notifies_every_third
  (q : nat) (d : description) (cs : list clock) (s : state) :
  (forall c f, In c cs -> In f (proctoringFlags s) -> type f = "NO_FACE" ->
               timestamp f + 5000 <= applied_at c) ->
  ForallOrdPairs (fun c' c => called_at c' + 5000 <= applied_at c) cs ->
  let before := countType "NO_FACE" (proctoringFlags s) in
  let shown (first : nat) :=
    map (fun i => (Nat.modulo i 3 =? Nat.modulo first 3)%nat)
        (seq 1 (List.length cs)) in
  proctoringFlags (state_of (record_all q "NO_FACE" d cs s))
    = proctoringFlags s ++ map (flag_of q "NO_FACE" d) cs
  /\ notifications q "NO_FACE" d cs s
    = map (fun i => (Nat.modulo (before + i) 3 =? 0)%nat) (seq 0 (List.length cs))
  /\ (Nat.modulo before 3 = 0%nat -> notifications q "NO_FACE" d cs s = shown 1%nat)
  /\ (Nat.modulo before 3 = 1%nat -> notifications q "NO_FACE" d cs s = shown 3%nat)
  /\ (Nat.modulo before 3 = 2%nat -> notifications q "NO_FACE" d cs s = shown 2%nat).
Proof.
  intros Hlog Hsp before shown.
  destruct (no_face_run q d cs s Hlog Hsp) as [Hl Hn]. fold before in Hn.
  split; [ exact Hl | ]. split; [ exact Hn | ].
  assert (Hshift : forall first r : nat,
            (forall m : nat, (m < 3)%nat ->
               (Nat.modulo (r + m) 3 =? 0)%nat
               = (Nat.modulo (m + 1) 3 =? Nat.modulo first 3)%nat) ->
            Nat.modulo before 3 = r ->
            notifications q "NO_FACE" d cs s = shown first).
  { intros first r Hcase Hr. rewrite Hn. unfold shown.
    rewrite <- seq_shift, map_map. apply map_ext. intros j.
    rewrite (Nat.Div0.add_mod before j 3), Hr.
    replace (S j) with (j + 1)%nat by lia.
    rewrite (Nat.Div0.add_mod j 1 3).
    apply Hcase, Nat.mod_upper_bound. lia. }
  split; [ | split ]; apply Hshift;
    intros [|[|[|m]]] Hm; try lia; reflexivity.
Qed.

Lemma record_all_suppressed (q : nat) (ty : string) (d : description) (f : flag)
  (cs : list clock) (s : state) :
  In f (proctoringFlags s) -> type f = ty ->
  Forall (fun c => applied_at c - 5000 < timestamp f) cs ->
  record_all q ty d cs s = (Returned tt, s, [])
  /\ notifications q ty d cs s = repeat false (List.length cs).
Proof.
  intros Hin Hty. induction 1 as [|c rest Hc _ [IHr IHn]]; [ now split | ].
  destruct (recentFlag_some ty (applied_at c) (proctoringFlags s) f Hin Hty Hc)
    as [g Hg].
  pose proof (addProctoringFlag_suppressed q ty d c s g Hg) as E.
  cbn [record_all notifications List.length repeat]. split.
  - unfold bind. rewrite E, IHr. reflexivity.
  - rewrite E. unfold trace_of, state_of. cbn. now rewrite IHn.
Qed.

End FlagLog.

(** C1 (amended). [addProctoringFlag] of the room drops a report whose type
    has a flag less than 5000 ms old in the log: nothing is appended, nothing
    is sent and no toast is shown.  So of a run of same-type reports that
    starts outside every such window and stays within 5000 ms of its first
    report, only the first is appended and only it can raise a toast.  This
    holds for the closure of any render, whatever question index [q] it
    stamps on the flag.  [addViolation] of [InterviewRecorder.jsx] has no
    such rule: every call appends its entry and raises the banner. *)
Theorem room_suppresses_repeats_recorder_appends_all
  (q : nat) (ty : string) (d : Room.description) (s : Room.state)
  (c0 : Room.clock) (cs : list Room.clock) :
  Room.recentFlag ty (Room.applied_at c0) (Room.proctoringFlags s) = None ->
  Forall (fun c => Room.applied_at c - 5000 < Room.called_at c0) cs ->
  let first := Room.addProctoringFlag q ty d c0 s in
  let r := Room.record_all q ty d (c0 :: cs) s in
  state_of r = state_of first
  /\ trace_of r = trace_of first
  /\ Room.proctoringFlags (state_of r)
     = Room.proctoringFlags s ++ [flag_of q ty d c0]
  /\ notifications q ty d (c0 :: cs) s
     = existsb Room.is_toast (trace_of first) :: repeat false (List.length cs)
  /\ (forall (q' : nat) (s' : Room.state) (c : Room.clock) (f : Room.flag),
        In f (Room.proctoringFlags s') -> Room.type f = ty ->
        Room.applied_at c - 5000 < Room.timestamp f ->
        Room.addProctoringFlag q' ty d c s' = (Returned tt, s', []))
  /\ (forall (msg : string) (t : Z) (s' : Recorder.state),
        let r' := Recorder.addViolation msg t s' in
        Recorder.violations (state_of r')
          = Recorder.violations s' ++ [Recorder.mkViolation msg t]
        /\ Recorder.showWarning (state_of r') = true
        /\ trace_of r' = [SetTimeout 5000 HideWarning]).
Proof.
  intros Hfresh Hnear first r.
  pose proof (addProctoringFlag_recorded q ty d c0 s Hfresh) as Hrec.
  cbn zeta in Hrec. fold (flag_of q ty d c0) in Hrec.
  set (s1 := Room.set_proctoringFlags
               (Room.proctoringFlags s ++ [flag_of q ty d c0]) s) in *.
  destruct (record_all_suppressed q ty d (flag_of q ty d c0) cs s1) as [Hrun Hnot].
  { subst s1. cbn. apply in_or_app. cbn. auto. }
  { reflexivity. }
  { exact Hnear. }
  assert (Er : r = (Returned tt, s1, trace_of first)).
  { subst r first. cbn [Room.record_all]. unfold bind.
    rewrite Hrec, Hrun. unfold trace_of. cbn [snd]. now rewrite app_nil_r. }
  assert (Es : state_of first = s1) by (subst first; now rewrite Hrec).
  split; [ now rewrite Er, Es | ].
  split; [ now rewrite Er | ].
  split; [ now rewrite Er | ].
  split; [ cbn [notifications]; fold first; now rewrite Es, Hnot | ].
  split.
  - intros q' s' c f Hin Hty Hts.
    destruct (recentFlag_some ty (Room.applied_at c) (Room.proctoringFlags s') f Hin Hty Hts)
      as [g Hg].
    now apply (addProctoringFlag_suppressed q' ty d c s' g).
  - intros msg t s'. destruct s'. cbv zeta. split; [ | split ]; reflexivity.
Qed.

(** Three HEAD_TURNED reports 1 s apart, on an empty log. *)
Lemma room_suppression_witness :
  let c0 := Room.mkClock 1000 1000 in
  let cs := [Room.mkClock 2000 2001; Room.mkClock 3000 3000] in
  let r := Room.record_all 0 "HEAD_TURNED" (Room.Plain "turned") (c0 :: cs)
             (Room.init true) in
  List.length (Room.proctoringFlags (state_of r)) = 1%nat
  /\ notifications 0 "HEAD_TURNED" (Room.Plain "turned") (c0 :: cs) (Room.init true)
     = [true; false; false].
Proof.
  cbv zeta.
  destruct (room_suppresses_repeats_recorder_appends_all
              0%nat "HEAD_TURNED" (Room.Plain "turned") (Room.init true)
              (Room.mkClock 1000 1000)
              [Room.mkClock 2000 2001; Room.mkClock 3000 3000])
    as (_ & _ & Hlog & Hnot & _).
  - reflexivity.
  - repeat constructor; cbn; lia.
  - split; [ now rewrite Hlog | exact Hnot ].
Defined.

(** [InterviewRecorder.jsx]: two ticks without a face, 2 s apart, leave two
    entries with the same text in [violations], and each raised the banner. *)
Lemma recorder_logs_both_no_face_ticks :
  let t0 := native_tick 0 640 480 (Some tt) 0 in
  let t1 := native_tick 0 640 480 (Some tt) 2000 in
  let r := Recorder.detectionTicks 7 [t0; t1] (Recorder.init []) in
  Recorder.violations (state_of r)
    = [Recorder.mkViolation Recorder.msg_no_face 0;
       Recorder.mkViolation Recorder.msg_no_face 2000]
  /\ count_calls (fun c => match c with SetTimeout _ HideWarning => true | _ => false end)
                 (trace_of r) = 2%nat.
Proof. cbv zeta. split; reflexivity. Qed.

(** Ten NO_FACE reports 5 s apart on an empty log: ten entries, toasts at
    reports 1, 4, 7 and 10. *)
Lemma no_face_ten_ticks_witness :
  let cs := map (fun i => Room.mkClock (5000 * Z.of_nat i) (5000 * Z.of_nat i))
                (seq 0 10) in
  let d := Room.Plain "No face detected in frame" in
  List.length (Room.proctoringFlags
                 (state_of (Room.record_all 0 "NO_FACE" d cs (Room.init true)))) = 10%nat
  /\ notifications 0 "NO_FACE" d cs (Room.init true)
     = [true; false; false; true; false; false; true; false; false; true].
Proof.
  cbv zeta.
  destruct (no_face_run_logs_all_notifies_every_third
              0%nat (Room.Plain "No face detected in frame")
              (map (fun i => Room.mkClock (5000 * Z.of_nat i) (5000 * Z.of_nat i))
                   (seq 0 10))
              (Room.init true)) as (Hlog & _ & Hfresh & _).
  - intros c f _ [].
  - cbn. repeat constructor; cbn; lia.
  - split; [ now rewrite Hlog | now rewrite Hfresh ].
Defined.

(** One NO_FACE flag is in the log, a minute old, when a run of ten NO_FACE
    reports 5 s apart begins: all ten are appended, but the toasts come with
    reports 3, 6 and 9 of the run, not with 1, 4, 7 and 10. *)
Lemma no_face_run_after_one_flag_notifies_3_6_9 :
  let d := Room.Plain "No face detected in frame" in
  let s := state_of (Room.addProctoringFlag 0 "NO_FACE" d (Room.mkClock 0 0)
                       (Room.init true)) in
  let cs := map (fun i => Room.mkClock (60000 + 5000 * Z.of_nat i)
                                       (60000 + 5000 * Z.of_nat i))
                (seq 0 10) in
  List.length (Room.proctoringFlags s) = 1%nat
  /\ List.length (Room.proctoringFlags
                    (state_of (Room.record_all 0 "NO_FACE" d cs s))) = 11%nat
  /\ notifications 0 "NO_FACE" d cs s
     = [false; false; true; false; false; true; false; false; true; false].
Proof. cbv zeta. repeat split; reflexivity. Qed.

(** ** Starting a session *)

Section Start.

Import Recorder.

Lemma each_listener_returns (n : nat) (t : Z) :
  forall s, result_of (each_listener n (onPaste t) s) = Returned tt.
Proof.
  induction n as [|n IH]; intros s; [ reflexivity | ].
  cbn [each_listener]. erewrite bind_result by reflexivity. apply IH.
Qed.

Lemma each_listener_keeps_refs (n : nat) (t : Z) :
  forall s,
  let r := each_listener n (onPaste t) s in
  session_refs (state_of r) = session_refs s
  /\ forall k, filter (is_upload_of k) (trace_of r) = [].
Proof.
  induction n as [|n IH]; intros s; cbn zeta; [ split; auto | ].
  cbn [each_listener].
  erewrite bind_state, bind_trace by reflexivity.
  destruct (IH (state_of (onPaste t s))) as [IHr IHt]. cbn zeta in *.
  split; [ rewrite IHr; destruct s; reflexivity | ].
  intros k. rewrite filter_app, IHt. reflexivity.
Qed.

Lemma handle_returns (speech : bool) (ev : event) (s : state) :
  result_of (handle speech ev s) = Returned tt.
Proof.
  destruct ev as [i | k size settles | t | t | | ]; cbn [handle].
  - rewrite bind_get. destruct (faceDetectIntervalRef s); [ | reflexivity ].
    destruct (attemptId s); [ | reflexivity ].
    apply recorder_tick_returns.
  - unfold ondataavailable, uploadChunk. eff_simpl.
    destruct (recorderRef k s); [ | reflexivity ].
    destruct (0 <? size); [ | reflexivity ].
    destruct settles as [[]|]; reflexivity.
  - reflexivity.
  - rewrite bind_get. apply each_listener_returns.
  - unfold nextQuestion, speakQuestion. eff_simpl.
    destruct (_ <? _); destruct speech; reflexivity.
  - reflexivity.
Qed.

Lemma tick_keeps_refs (attempt : Z) (i : tick_input) (s : state) :
  let r := detectionTick attempt i s in
  session_refs (state_of r) = session_refs s
  /\ forall k, filter (is_upload_of k) (trace_of r) = [].
Proof.
  destruct i as [fr hasfd det w h img fs t]; destruct s.
  unfold detectionTick, sendFaceFlag, addViolation.
  destruct fr; eff_simpl; [ | split; auto ].
  destruct hasfd; eff_simpl.
  - destruct det as [n|]; eff_simpl; [ | split; auto ].
    destruct (n =? 0)%nat; [ | destruct (1 <? n)%nat ];
      destruct fs as [[]|]; eff_simpl; split; auto.
  - destruct img as [data|]; eff_simpl; [ | split; auto ].
    destruct (num (skinPixels data) / num (w * h) <? 0.02)%float;
      eff_simpl; split; auto.
Qed.

Lemma handle_keeps_refs (speech : bool) (ev : event) (s : state) :
  let r := handle speech ev s in
  session_refs (state_of r) = session_refs s
  /\ (screenRecorderRef s = None ->
      filter (is_upload_of screen) (trace_of r) = []).
Proof.
  destruct ev as [i | k size settles | t | t | | ]; cbn [handle].
  - rewrite bind_get. destruct (faceDetectIntervalRef s); [ | split; auto ].
    destruct (attemptId s) as [id|] eqn:Eid; [ | split; auto ].
    destruct (tick_keeps_refs id i s) as [Hr Ht]. split; auto.
  - unfold ondataavailable, uploadChunk. eff_simpl.
    destruct (recorderRef k s) eqn:Ek; [ | split; auto ].
    destruct (0 <? size); [ | split; auto ].
    destruct k; cbn in Ek.
    + destruct settles as [[]|]; eff_simpl; split; auto.
    + split; [ destruct settles as [[]|]; reflexivity | congruence ].
    + discriminate.
  - destruct s; split; reflexivity.
  - rewrite bind_get.
    destruct (each_listener_keeps_refs (pasteListeners s) t s) as [Hr Ht].
    split; auto.
  - unfold nextQuestion, speakQuestion. eff_simpl.
    destruct (_ <? _); destruct speech; destruct s; split; reflexivity.
  - destruct s; split; reflexivity.
Qed.

Lemma handleAll_returns (speech : bool) (evs : list event) :
  forall s, result_of (handleAll speech evs s) = Returned tt.
Proof.
  induction evs as [|ev rest IH]; intros s; [ reflexivity | ].
  cbn [handleAll]. erewrite bind_result by apply handle_returns. apply IH.
Qed.

Lemma handleAll_keeps_refs (speech : bool) (evs : list event) :
  forall s,
  let r := handleAll speech evs s in
  session_refs (state_of r) = session_refs s
  /\ (screenRecorderRef s = None ->
      filter (is_upload_of screen) (trace_of r) = []).
Proof.
  induction evs as [|ev rest IH]; intros s; cbn zeta; [ split; auto | ].
  cbn [handleAll].
  erewrite bind_state, bind_trace by apply handle_returns.
  destruct (handle_keeps_refs speech ev s) as [Hr Ht].
  destruct (IH (state_of (handle speech ev s))) as [IHr IHt].
  cbn zeta in *. split; [ congruence | ].
  intros Hnone. rewrite filter_app, Ht, IHt; auto.
  unfold session_refs in Hr. congruence.
Qed.

Lemma video_segment_uploaded (speech : bool) (size : Z) (settles : option unit)
  (s : state) (id : Z) (st : recorder_state) :
  attemptId s = Some id -> mediaRecorderRef s = Some st -> 0 < size ->
  trace_of (handle speech (DataAvailable video size settles) s)
  = PostUploadChunk (Some id) video (Blob size)
    :: match settles with
       | Some _ => []
       | None => [ConsoleWarn "Chunk upload failed:"]
       end.
Proof.
  intros Hid Hrec Hsize. cbn [handle]. unfold ondataavailable, uploadChunk.
  rewrite bind_get. cbn [recorderRef]. rewrite Hrec, Hid.
  apply Z.ltb_lt in Hsize. rewrite Hsize.
  destruct settles as [[]|]; reflexivity.
Qed.

End Start.

Lemma room_requires_screen (e : Room.start_env) (s : Room.state) :
  Room.getUserMedia e = Some tt -> Room.getDisplayMedia e = None ->
  let r := Room.startInterview e s in
  result_of r = Returned tt
  /\ Room.isRecording (state_of r) = false
  /\ In (Room.ToastError (Room.Plain "Screen recording is required for this interview"))
        (trace_of r)
  /\ In Room.StopCameraTracks (trace_of r).
Proof.
  destruct e as [cam disp srec]; cbn [Room.getUserMedia Room.getDisplayMedia].
  intros -> ->.
  destruct s as [cq rec act log fd ml vs ss sr iv].
  unfold Room.startInterview, Room.cleanup.
  destruct iv, ss, sr as [[]|]; eff_simpl;
    (split; [ reflexivity | split; [ reflexivity | split; tauto ] ]).
Qed.

(** C3 (amended). In [InterviewRecorder.jsx], when everything up to the
    camera recorder succeeds and screen capture is denied or its recorder
    cannot be made, [startInterview] logs a warning and still returns with
    [recording] set and the camera recorder running; no screen recorder is
    stored, so whatever happens next no screen chunk is uploaded, while each
    non-empty camera segment is.  [startInterview] of the room instead
    requires the screen share: once the camera is granted and the screen is
    denied it shows an error, releases the camera and leaves the session
    not recording. *)
Theorem recorder_start_survives_screen_denial
  (e : Recorder.start_env) (s : Recorder.state) (sim id : Z) :
  Recorder.simulationId e = Some sim ->
  Recorder.confirm_answer e = true ->
  Recorder.getUserMedia e = Some tt ->
  Recorder.post_start e = Some id ->
  Recorder.video_play e = Some tt ->
  Recorder.newVideoRecorder e = Some tt ->
  Recorder.getDisplayMedia e = None \/ Recorder.newScreenRecorder e = None ->
  Recorder.screenRecorderRef s = None ->
  let r := Recorder.startInterview e s in
  result_of r = Returned tt
  /\ Recorder.recording (state_of r) = true
  /\ Recorder.mediaRecorderRef (state_of r) = Some rs_recording
  /\ Recorder.screenRecorderRef (state_of r) = None
  /\ In (ConsoleWarn "Screen sharing not available or denied:") (trace_of r)
  /\ In (RecorderStart video 2000) (trace_of r)
  /\ ~ In (RecorderStart screen 2000) (trace_of r)
  /\ (forall (speech : bool) (evs : list Recorder.event),
       let r2 := Recorder.handleAll speech evs (state_of r) in
       count_calls (is_upload_of screen) (trace_of r2) = 0%nat
       /\ forall (size : Z) (settles : option unit), 0 < size ->
            exists rest,
              trace_of (Recorder.handle speech
                          (Recorder.DataAvailable video size settles) (state_of r2))
              = PostUploadChunk (Some id) video (Blob size) :: rest)
  /\ (forall (e' : Room.start_env) (s' : Room.state),
        Room.getUserMedia e' = Some tt -> Room.getDisplayMedia e' = None ->
        let r' := Room.startInterview e' s' in
        result_of r' = Returned tt
        /\ Room.isRecording (state_of r') = false
        /\ In (Room.ToastError
                 (Room.Plain "Screen recording is required for this interview"))
              (trace_of r')
        /\ In Room.StopCameraTracks (trace_of r')).
Proof.
  intros Hsim Hconf Hcam Hpost Hplay Hrec Hscreen Hnone r.
  assert (Hstart :
    result_of r = Returned tt
    /\ Recorder.recording (state_of r) = true
    /\ Recorder.attemptId (state_of r) = Some id
    /\ Recorder.mediaRecorderRef (state_of r) = Some rs_recording
    /\ Recorder.screenRecorderRef (state_of r) = None
    /\ In (ConsoleWarn "Screen sharing not available or denied:") (trace_of r)
    /\ In (RecorderStart video 2000) (trace_of r)
    /\ ~ In (RecorderStart screen 2000) (trace_of r)).
  { subst r. destruct e as [osim title sp conf cam post play vrec disp srec].
    destruct s. cbn in Hsim, Hconf, Hcam, Hpost, Hplay, Hrec, Hscreen, Hnone.
    subst osim conf cam post play vrec.
    unfold Recorder.startInterview, Recorder.startFaceDetection.
    destruct disp as [[]|]; [ destruct srec as [[]|]; [ destruct Hscreen; discriminate | ] | ];
      eff_simpl; subst;
      (repeat (split; [ solve [ reflexivity | cbn; tauto ] | ]));
      cbn; intuition discriminate. }
  destruct Hstart as (H1 & H2 & H3 & H4 & H5 & H6 & H7 & H8).
  repeat (split; [ assumption | ]).
  split; [ | intros e' s'; apply room_requires_screen ].
  intros speech evs r2.
  destruct (handleAll_keeps_refs speech evs (state_of r)) as [Hrefs Hup].
  fold r2 in Hrefs, Hup. unfold session_refs in Hrefs.
  rewrite H3, H4, H5 in Hrefs. injection Hrefs as Ha Hm Hs.
  split.
  - unfold count_calls. now rewrite Hup.
  - intros size settles Hsize. eexists.
    apply (video_segment_uploaded speech size settles (state_of r2) id rs_recording);
      assumption.
Qed.

(** A fresh component, a granted camera and a denied screen share. *)
Lemma recorder_screen_denied_witness :
  let e := Recorder.mkStartEnv (Some 3) None true true (Some tt) (Some 41)
             (Some tt) (Some tt) None (Some tt) in
  let r := Recorder.startInterview e (Recorder.init ["Q1"; "Q2"]) in
  Recorder.recording (state_of r) = true
  /\ Recorder.screenRecorderRef (state_of r) = None
  /\ count_calls (is_upload_of screen)
       (trace_of (Recorder.handleAll true
                    [Recorder.DataAvailable video 10 (Some tt);
                     Recorder.DataAvailable screen 10 (Some tt)]
                    (state_of r))) = 0%nat.
Proof.
  cbv zeta.
  destruct (recorder_start_survives_screen_denial
              (Recorder.mkStartEnv (Some 3) None true true (Some tt) (Some 41)
                 (Some tt) (Some tt) None (Some tt))
              (Recorder.init ["Q1"; "Q2"]) 3 41)
    as (_ & Hrec & _ & Hscr & _ & _ & _ & Hev & _); try reflexivity.
  - left; reflexivity.
  - split; [ exact Hrec | split; [ exact Hscr | ] ].
    apply (Hev true [Recorder.DataAvailable video 10 (Some tt);
                     Recorder.DataAvailable screen 10 (Some tt)]).
Defined.

(** The room, with the camera granted and the screen share denied: an error
    toast, the camera released, and the session not recording. *)
Lemma room_start_aborts_without_screen :
  let e := Room.mkStartEnv (Some tt) None (Some tt) in
  let r := Room.startInterview e (Room.init true) in
  result_of r = Returned tt
  /\ Room.isRecording (state_of r) = false
  /\ trace_of r
     = [Room.GetUserMedia; Room.GetDisplayMedia;
        Room.ConsoleWarn "Screen recording denied:";
        Room.ToastError (Room.Plain "Screen recording is required for this interview");
        Room.StopCameraTracks].
Proof. cbv zeta. repeat split; reflexivity. Qed.

(** C6. When the confirmation shown before any device access is declined,
    [startInterview] of [InterviewRecorder.jsx] returns after an alert: the
    component's state is untouched, so [recording] stays as it was, and the
    trace holds the prompt and the alert only, no device call. *)
Theorem declined_prompt_touches_no_device
  (e : Recorder.start_env) (s : Recorder.state) (sim : Z) :
  Recorder.simulationId e = Some sim ->
  Recorder.confirm_answer e = false ->
  let r := Recorder.startInterview e s in
  result_of r = Returned tt
  /\ state_of r = s
  /\ Recorder.recording (state_of r) = Recorder.recording s
  /\ trace_of r
     = [Confirm Recorder.confirm_text;
        Alert "Camera and microphone access is required to start the interview."]
  /\ count_calls is_device_call (trace_of r) = 0%nat.
Proof.
  intros Hsim Hconf r. subst r.
  destruct e as [osim title sp conf cam post play vrec disp srec].
  cbn in Hsim, Hconf. subst osim conf.
  unfold Recorder.startInterview. eff_simpl.
  repeat split; reflexivity.
Qed.

(** A declined prompt on a fresh component, with every device ready. *)
Lemma declined_prompt_witness :
  let e := Recorder.mkStartEnv (Some 3) None true false (Some tt) (Some 41)
             (Some tt) (Some tt) (Some tt) (Some tt) in
  let r := Recorder.startInterview e (Recorder.init ["Q1"]) in
  Recorder.recording (state_of r) = false
  /\ count_calls is_device_call (trace_of r) = 0%nat.
Proof.
  cbv zeta.
  destruct (declined_prompt_touches_no_device
              (Recorder.mkStartEnv (Some 3) None true false (Some tt) (Some 41)
                 (Some tt) (Some tt) (Some tt) (Some tt))
              (Recorder.init ["Q1"]) 3)
    as (_ & Hs & _ & _ & Hdev); try reflexivity.
  split; [ now rewrite Hs | exact Hdev ].
Defined.

(** ** Stopping a session *)

Section Stop.

Import Recorder.

Lemma stop_tears_down (s : state) :
  let r := stopInterview accepted s in
  result_of r = Returned tt
  /\ torn_down (state_of r) = true
  /\ recording (state_of r) = false
  /\ pasteListeners (state_of r) = pasteListeners s
  /\ count_calls (is_upload_of editor_events) (trace_of r) = 1%nat
  /\ count_calls is_finish (trace_of r) = 1%nat.
Proof.
  destruct s as [aid mr sr iv rec pc pst cq qs sp fc vs sw pl cams scrs].
  unfold stopInterview, stopRecorder, stopFaceDetection, torn_down, accepted.
  destruct mr as [[]|], sr as [[]|], iv; eff_simpl;
    repeat split; reflexivity.
Qed.

Lemma stop_again (s : state) :
  torn_down s = true -> recording s = false ->
  stopInterview accepted s = (Returned tt, s, submission s).
Proof.
  destruct s as [aid mr sr iv rec pc pst cq qs sp fc vs sw pl cams scrs].
  unfold stopInterview, stopRecorder, stopFaceDetection, torn_down, submission, accepted.
  cbn [mediaRecorderRef screenRecorderRef faceDetectIntervalRef recording].
  intros Ht ->.
  destruct mr as [[]|], sr as [[]|], iv; try discriminate Ht; reflexivity.
Qed.

End Stop.

(** C4 (amended). With the backend accepting every request, two calls of
    [stopInterview] in a row both return.  The second finds the recorders
    inactive and the interval cleared, stops nothing and leaves the state as
    the first left it; but it uploads the [editor_events] summary and calls
    [finish] once more, so the summary is submitted once per call.  When the
    summary upload is rejected, [stopInterview] throws. *)
Theorem second_stop_skips_teardown_but_submits_again (s : Recorder.state) :
  let r1 := Recorder.stopInterview accepted s in
  let r2 := Recorder.stopInterview accepted (state_of r1) in
  result_of r1 = Returned tt
  /\ result_of r2 = Returned tt
  /\ state_of r2 = state_of r1
  /\ count_calls is_teardown (trace_of r2) = 0%nat
  /\ trace_of r2 = submission (state_of r1)
  /\ count_calls (is_upload_of editor_events) (trace_of r1 ++ trace_of r2) = 2%nat
  /\ count_calls is_finish (trace_of r1 ++ trace_of r2) = 2%nat
  /\ (forall (e : Recorder.stop_env) (s' : Recorder.state),
        Recorder.upload_final e = None ->
        returns (Recorder.stopInterview e s') = false).
Proof.
  intros r1 r2.
  destruct (stop_tears_down s) as (Hret & Htd & Hrec & Hpl & Hup & Hfin).
  fold r1 in Hret, Htd, Hrec, Hpl, Hup, Hfin.
  pose proof (stop_again (state_of r1) Htd Hrec) as E2. fold r2 in E2.
  split; [ exact Hret | ].
  rewrite E2. unfold result_of, state_of, trace_of at 1 2 4 6. cbn [fst snd].
  split; [ reflexivity | ]. split; [ reflexivity | ].
  split; [ reflexivity | ]. split; [ reflexivity | ].
  unfold count_calls in *. rewrite !filter_app, !length_app, Hup, Hfin.
  split; [ reflexivity | ]. split; [ reflexivity | ].
  intros e s' Hfail.
  destruct e as [up fin]; cbn in Hfail; subst up.
  destruct s' as [aid mr sr iv rec pc pst cq qs sp fc vs sw pl cams scrs].
  unfold Recorder.stopInterview, Recorder.stopRecorder, Recorder.stopFaceDetection.
  destruct mr as [[]|], sr as [[]|], iv; reflexivity.
Qed.

(** A summary upload that the backend rejects, on a fresh component. *)
Lemma rejected_summary_witness :
  returns (Recorder.stopInterview (Recorder.mkStopEnv None (Some tt))
             (Recorder.init [])) = false.
Proof.
  destruct (second_stop_skips_teardown_but_submits_again (Recorder.init []))
    as (_ & _ & _ & _ & _ & _ & _ & Hthrow).
  apply Hthrow. reflexivity.
Defined.

(** A recording session with both recorders running is stopped twice: the
    summary goes out twice and [finish] is called twice. *)
Lemma double_stop_submits_twice :
  let s := Recorder.mkState (Some 41) (Some rs_recording) (Some rs_recording)
             true true proctoring0 0 0 ["Q1"] false 1 [] false 1 1 1 in
  let r1 := Recorder.stopInterview accepted s in
  let r2 := Recorder.stopInterview accepted (state_of r1) in
  returns r1 = true /\ returns r2 = true
  /\ count_calls (is_upload_of editor_events) (trace_of r1 ++ trace_of r2) = 2%nat
  /\ count_calls is_finish (trace_of r1 ++ trace_of r2) = 2%nat.
Proof. cbv zeta. repeat split; reflexivity. Qed.

(** ** The question sequencer *)

(** C8. [nextQuestion] with a cursor below the last index moves the cursor
    one up and speaks the question it now points at; at the last index, and
    on an empty list, it speaks the closing message and leaves the cursor
    alone, so any number of further calls keep it there. *)
Theorem next_question_advances_then_holds (speech : bool) (s : Recorder.state) :
  let cursor := Recorder.currentQuestion s in
  let N := List.length (Recorder.questions s) in
  let r := Recorder.nextQuestion speech s in
  let narrates text := if speech then [SpeechCancel; Speak text] else [] in
  result_of r = Returned tt
  /\ ((cursor < N - 1)%nat ->
      Recorder.currentQuestion (state_of r) = S cursor
      /\ exists q, nth_error (Recorder.questions s) (S cursor) = Some q
                   /\ trace_of r = narrates q)
  /\ ((N - 1 <= cursor)%nat ->
      Recorder.currentQuestion (state_of r) = cursor
      /\ trace_of r = narrates Recorder.closing_message
      /\ forall n,
           Recorder.currentQuestion
             (state_of (Recorder.handleAll speech (repeat Recorder.NextQuestion n) s))
           = cursor).
Proof.
  cbv zeta.
  assert (Hstep : forall s0 : Recorder.state,
            (List.length (Recorder.questions s0) - 1 <= Recorder.currentQuestion s0)%nat ->
            state_of (Recorder.nextQuestion speech s0) = s0
            /\ trace_of (Recorder.nextQuestion speech s0)
               = if speech then [SpeechCancel; Speak Recorder.closing_message] else []).
  { intros s0 Hlast. unfold Recorder.nextQuestion. rewrite bind_get.
    destruct (_ <? _) eqn:E; [ apply Z.ltb_lt in E; lia | ].
    unfold Recorder.speakQuestion. destruct speech; split; reflexivity. }
  split; [ | split ].
  - unfold Recorder.nextQuestion, Recorder.speakQuestion. rewrite bind_get.
    destruct (_ <? _); destruct speech; reflexivity.
  - intros Hlt. unfold Recorder.nextQuestion. rewrite bind_get.
    destruct (_ <? _) eqn:E; [ | apply Z.ltb_ge in E; lia ].
    destruct (nth_error (Recorder.questions s) (S (Recorder.currentQuestion s)))
      as [q|] eqn:Eq; [ | apply nth_error_None in Eq; lia ].
    rewrite Nat.add_1_r. rewrite (nth_error_nth _ _ _ Eq).
    unfold Recorder.speakQuestion.
    destruct s; destruct speech; (split; [ reflexivity | exists q; split; reflexivity ]).
  - intros Hlast. destruct (Hstep s Hlast) as [Hs Ht].
    split; [ now rewrite Hs | ]. split; [ exact Ht | ].
    induction n as [|n IH]; [ reflexivity | ].
    cbn [repeat Recorder.handleAll Recorder.handle].
    erewrite bind_state by apply (handle_returns speech Recorder.NextQuestion).
    rewrite Hs. exact IH.
Qed.

(** Five questions: four calls reach the last one, two more stay there and
    speak the closing message. *)
Lemma next_question_witness :
  let qs := ["Q1"; "Q2"; "Q3"; "Q4"; "Q5"] in
  let at_last := state_of (Recorder.handleAll true (repeat Recorder.NextQuestion 4)
                             (Recorder.init qs)) in
  Recorder.currentQuestion at_last = 4%nat
  /\ Recorder.currentQuestion
       (state_of (Recorder.handleAll true (repeat Recorder.NextQuestion 2) at_last))
     = 4%nat
  /\ trace_of (Recorder.nextQuestion true at_last)
     = [SpeechCancel; Speak Recorder.closing_message].
Proof.
  cbv zeta.
  set (at_last := state_of (Recorder.handleAll true (repeat Recorder.NextQuestion 4)
                              (Recorder.init ["Q1"; "Q2"; "Q3"; "Q4"; "Q5"]))).
  destruct (next_question_advances_then_holds true at_last) as (_ & _ & Hhold).
  destruct Hhold as (_ & Ht & Hn); [ cbn; lia | ].
  split; [ reflexivity | split; [ exact (Hn 2%nat) | exact Ht ] ].
Defined.

(** ** Streaming chunk uploads *)

(** C9. [uploadChunk] makes one request and returns, whether the request is
    accepted or rejected; a rejection is logged and nothing is sent again.
    The component's state is untouched, so a recorder that delivered the
    segment keeps recording, and its [ondataavailable] callback returns
    too. *)
Theorem upload_chunk_swallows_failure
  (attempt : option Z) (k : chunk_kind) (size : Z) (settles : option unit)
  (s : Recorder.state) :
  let r := Recorder.uploadChunk attempt k size settles s in
  result_of r = Returned tt
  /\ state_of r = s
  /\ trace_of r
     = PostUploadChunk attempt k (Blob size)
       :: match settles with
          | Some _ => []
          | None => [ConsoleWarn "Chunk upload failed:"]
          end
  /\ count_calls is_post (trace_of r) = 1%nat
  /\ (let r' := Recorder.ondataavailable k size settles s in
      result_of r' = Returned tt
      /\ state_of r' = s
      /\ (count_calls is_post (trace_of r') <= 1)%nat).
Proof.
  cbv zeta. unfold Recorder.ondataavailable. rewrite bind_get.
  unfold Recorder.uploadChunk.
  destruct (Recorder.recorderRef k s); destruct (0 <? size);
    destruct settles as [[]|]; eff_simpl;
    repeat split; solve [ reflexivity | cbn; lia ].
Qed.

(** ** Head pose *)

Section HeadPose.

Import Room.


Lemma skipn_app_exact (A : Type) (l1 l2 : list A) :
  skipn (List.length l1) (l1 ++ l2) = l2.
Proof. induction l1; cbn; auto. Qed.








End HeadPose.




(** ** Sample runs *)

(** The 5000 ms window is open at its far end: a report 4999 ms after a
    flag of its type is dropped, one exactly 5000 ms after is recorded. *)
Example report_inside_window_is_dropped :
  List.length
    (Room.proctoringFlags
       (state_of (Room.record_all 0 "HEAD_TURNED" (Room.Plain "turned")
                    [Room.mkClock 0 0; Room.mkClock 4999 4999] (Room.init true))))
  = 1%nat.
Proof. reflexivity. Qed.

Example report_at_window_end_is_recorded :
  List.length
    (Room.proctoringFlags
       (state_of (Room.record_all 0 "HEAD_TURNED" (Room.Plain "turned")
                    [Room.mkClock 0 0; Room.mkClock 5000 5000] (Room.init true))))
  = 2%nat.
Proof. reflexivity. Qed.

(** A face looking straight at the camera: both angles are 0 and the tick
    leaves the log empty. *)
Example frontal_face_raises_no_flag :
  let lm := Room.mkLandmarks
              (repeat (Room.mkPoint 130 130) 9)
              (repeat (Room.mkPoint 100 100) 6)
              (repeat (Room.mkPoint 160 100) 6)
              (repeat (Room.mkPoint 130 150) 20)
              (repeat (Room.mkPoint 130 200) 17) in
  Room.calculateHeadPose lm = Some (Room.mkHeadPose 0 0)
  /\ Room.proctoringFlags
       (state_of (Room.detectionTick
                    (Room.mkTick true (Some [lm]) true (Room.mkClock 0 0))
                    (Room.init true))) = [].
Proof. cbv zeta. split; reflexivity. Qed.

(** A mouth close to the jaw line: the pitch passes 25 and the tick logs
    HEAD_TILTED only. *)
Example lowered_face_raises_head_tilted :
  let lm := Room.mkLandmarks
              (repeat (Room.mkPoint 130 130) 9)
              (repeat (Room.mkPoint 100 100) 6)
              (repeat (Room.mkPoint 160 100) 6)
              (repeat (Room.mkPoint 130 195) 20)
              (repeat (Room.mkPoint 130 200) 17) in
  Room.calculateHeadPose lm = Some (Room.mkHeadPose 0 27)
  /\ map Room.type
       (Room.proctoringFlags
          (state_of (Room.detectionTick
                       (Room.mkTick true (Some [lm]) true (Room.mkClock 0 0))
                       (Room.init true)))) = ["HEAD_TILTED"].
Proof. cbv zeta. split; reflexivity. Qed.

(** Three faces on one tick of [InterviewRecorder.jsx]: one violation, one
    face-flag request carrying the count, and [multiple_faces] set. *)
Example three_faces_tick :
  let r := Recorder.detectionTick 41 (native_tick 3 640 480 (Some tt) 1000)
             (Recorder.init []) in
  List.length (Recorder.violations (state_of r)) = 1%nat
  /\ filter is_post (trace_of r) = [PostFaceFlag 41 (flag_multiple_faces 3 1000)]
  /\ multiple_faces (Recorder.proctoring_current (state_of r)) = true.
Proof. cbv zeta. repeat split; reflexivity. Qed.

(** * Further properties *)

(** ** Detection ticks of [InterviewRecorder.jsx] *)

(** X1. A detection tick of [InterviewRecorder.jsx] never throws.  When the
    frame, the detector or the pixel read fails it changes nothing and only
    logs a warning; when its face-flag request is rejected it leaves the
    same state as when the request is accepted. *)
Theorem recorder_tick_contains_every_failure
  (attempt : Z) (i : Recorder.tick_input) (s : Recorder.state) :
  let r := Recorder.detectionTick attempt i s in
  result_of r = Returned tt
  /\ (tick_fails i = true ->
      state_of r = s /\ trace_of r = [ConsoleWarn "Face detection error:"])
  /\ (tick_fails i = false ->
      ~ In (ConsoleWarn "Face detection error:") (trace_of r))
  /\ state_of (Recorder.detectionTick attempt (with_flag_settles None i) s)
     = state_of (Recorder.detectionTick attempt (with_flag_settles (Some tt) i) s).
Proof.
  destruct i as [fr hasfd det w h img fs t].
  unfold Recorder.detectionTick, Recorder.sendFaceFlag, Recorder.addViolation,
    tick_fails, with_flag_settles.
  cbn [Recorder.frame_ok Recorder.hasFaceDetector Recorder.detect
       Recorder.canvas_width Recorder.canvas_height Recorder.imageData
       Recorder.flag_settles Recorder.now].
  destruct fr; [ | eff_simpl; repeat split; auto; discriminate ].
  destruct hasfd.
  - destruct det as [n|]; [ | eff_simpl; repeat split; auto; discriminate ].
    eff_simpl.
    destruct (n =? 0)%nat; [ | destruct (1 <? n)%nat ];
      destruct fs as [[]|]; eff_simpl;
      (split; [ reflexivity | split; [ discriminate | split; [ | reflexivity ] ] ]);
      intros _ Hin; cbn in Hin; intuition discriminate.
  - destruct img as [data|]; [ | eff_simpl; repeat split; auto; discriminate ].
    eff_simpl.
    destruct (num (Recorder.skinPixels data) / num (w * h) <? 0.02)%float;
      eff_simpl;
      (split; [ reflexivity | split; [ discriminate | split; [ | reflexivity ] ] ]);
      intros _ Hin; cbn in Hin; intuition discriminate.
Qed.

(** A tick whose detector rejects, on a component that already recorded a
    violation. *)
Lemma recorder_tick_failure_witness :
  let s := state_of (Recorder.onBlur 5 (Recorder.init ["Q1"])) in
  let i := Recorder.mkTick true true None 640 480 None (Some tt) 2000 in
  state_of (Recorder.detectionTick 41 i s) = s
  /\ trace_of (Recorder.detectionTick 41 i s) = [ConsoleWarn "Face detection error:"].
Proof.
  cbv zeta.
  apply (recorder_tick_contains_every_failure 41
           (Recorder.mkTick true true None 640 480 None (Some tt) 2000)).
  reflexivity.
Defined.

(** X2. A tick on which the browser's detector counts [count] faces posts
    exactly one face flag, carrying that count and the tick's time, when
    [count] is not 1 (a no-face flag for 0, a multiple-faces flag above 1),
    and adds exactly one violation with it; on exactly one face it posts
    nothing and adds nothing. *)
Theorem native_tick_flags_every_count_but_one
  (attempt : Z) (count : nat) (w h : Z) (settles : option unit) (t : Z)
  (s : Recorder.state) :
  let r := Recorder.detectionTick attempt (native_tick count w h settles t) s in
  filter is_post (trace_of r)
  = (if (count =? 1)%nat then []
     else [PostFaceFlag attempt
             (if (count =? 0)%nat then flag_no_face 0 t
              else flag_multiple_faces (Z.of_nat count) t)])
  /\ Recorder.violations (state_of r)
     = Recorder.violations s
       ++ (if (count =? 1)%nat then []
           else [Recorder.mkViolation
                   (if (count =? 0)%nat then Recorder.msg_no_face
                    else Recorder.msg_multiple_faces count) t]).
Proof.
  unfold Recorder.detectionTick, Recorder.sendFaceFlag, Recorder.addViolation,
    native_tick.
  destruct s. eff_simpl.
  destruct count as [|[|n]].
  - destruct settles as [[]|]; split; reflexivity.
  - cbn. rewrite app_nil_r. split; reflexivity.
  - change (S (S n) =? 0)%nat with false. change (1 <? S (S n))%nat with true.
    change (S (S n) =? 1)%nat with false.
    destruct settles as [[]|]; split; reflexivity.
Qed.

(** ** Session start of [InterviewRecorder.jsx] *)

Ltac destruct_start_env e :=
  destruct e as [osim title sp conf cam post play vrec disp srec];
  destruct osim as [sim|], conf, cam as [[]|], post as [id|], play as [[]|],
           vrec as [[]|];
  try lazymatch goal with
      | |- context [Recorder.mkStartEnv (Some _) _ _ true (Some _) (Some _)
                      (Some _) (Some _) _ _] =>
          destruct disp as [[]|], srec as [[]|]
      end.

Lemma start_outcome
  (e : Recorder.start_env) (s : Recorder.state) :
  let r := Recorder.startInterview e s in
  result_of r = Returned tt
  /\ Recorder.recording (state_of r) = Recorder.recording s || mandatory e
  /\ (mandatory e = true ->
      Recorder.attemptId (state_of r) = Recorder.post_start e
      /\ Recorder.mediaRecorderRef (state_of r) = Some rs_recording
      /\ Recorder.faceDetectIntervalRef (state_of r) = true
      /\ Recorder.pasteListener (state_of r) = true
      /\ Recorder.screenRecorderRef (state_of r)
         = if screen_ok e then Some rs_recording else Recorder.screenRecorderRef s).
Proof.
  destruct s as [aid mr sr iv rec pc pst cq qs spk fc vs sw pl cams scrs].
  destruct_start_env e;
    unfold Recorder.startInterview, Recorder.startFaceDetection, mandatory, screen_ok;
    eff_simpl; rewrite ?orb_true_r, ?orb_false_r;
    (split; [ reflexivity | split; [ reflexivity | ] ]);
    intros Hm; try discriminate Hm; repeat split; reflexivity.
Qed.

(** X3. [startInterview] of [InterviewRecorder.jsx] never throws, and it
    sets [recording] exactly when the simulation id is there, the prompt is
    accepted, and camera, attempt creation, preview and camera recorder all
    succeed; the screen share has no say.  The session then holds the
    attempt id, a running camera recorder, the detection interval and the
    paste listener, and a screen recorder only if the screen share and its
    recorder succeeded. *)
Theorem start_records_iff_mandatory_steps_succeed
  (e : Recorder.start_env) (s : Recorder.state) :
  let r := Recorder.startInterview e s in
  result_of r = Returned tt
  /\ Recorder.recording (state_of r) = Recorder.recording s || mandatory e
  /\ (mandatory e = true ->
      Recorder.attemptId (state_of r) = Recorder.post_start e
      /\ Recorder.mediaRecorderRef (state_of r) = Some rs_recording
      /\ Recorder.faceDetectIntervalRef (state_of r) = true
      /\ Recorder.pasteListener (state_of r) = true
      /\ Recorder.screenRecorderRef (state_of r)
         = if screen_ok e then Some rs_recording else Recorder.screenRecorderRef s).
Proof.
  cbv zeta.
  destruct (start_outcome e s) as (Hret & Hrec & Hrefs).
  split; [ exact Hret | split; [ exact Hrec | exact Hrefs ] ].
Qed.

(** Everything granted but the screen share. *)
Lemma start_without_screen_witness :
  let e := Recorder.mkStartEnv (Some 3) None true true (Some tt) (Some 41)
             (Some tt) (Some tt) None (Some tt) in
  let r := Recorder.startInterview e (Recorder.init ["Q1"]) in
  Recorder.attemptId (state_of r) = Some 41
  /\ Recorder.screenRecorderRef (state_of r) = None.
Proof.
  cbv zeta.
  destruct (start_records_iff_mandatory_steps_succeed
              (Recorder.mkStartEnv (Some 3) None true true (Some tt) (Some 41)
                 (Some tt) (Some tt) None (Some tt))
              (Recorder.init ["Q1"])) as (_ & _ & Hm).
  destruct Hm as (Ha & _ & _ & _ & Hs); [ reflexivity | ].
  split; [ exact Ha | exact Hs ].
Defined.

(** What a start leaves in the browser: one more paste listener after a
    successful start, and one more live stream for each capture that was
    granted. *)
Lemma start_holdings (e : Recorder.start_env) (s : Recorder.state) :
  let r := Recorder.startInterview e s in
  Recorder.pasteListeners (state_of r)
  = (if mandatory e then S (Recorder.pasteListeners s) else Recorder.pasteListeners s)
  /\ Recorder.liveCameraStreams (state_of r)
     = (if camera_granted e then S (Recorder.liveCameraStreams s)
        else Recorder.liveCameraStreams s)
  /\ Recorder.liveScreenStreams (state_of r)
     = (if screen_granted e then S (Recorder.liveScreenStreams s)
        else Recorder.liveScreenStreams s)
  /\ Recorder.paste_count (state_of r) = Recorder.paste_count s
  /\ Recorder.proctoring_current (state_of r) = Recorder.proctoring_current s
  /\ Recorder.violations (state_of r) = Recorder.violations s.
Proof.
  destruct s as [aid mr sr iv rec pc pst cq qs spk fc vs sw pl cams scrs].
  destruct_start_env e;
    unfold Recorder.startInterview, Recorder.startFaceDetection, mandatory,
      camera_granted, screen_granted, mandatory;
    eff_simpl; repeat split; reflexivity.
Qed.

(** X4. When a mandatory step of [startInterview] fails, no recorder,
    interval or paste listener is left behind: [recording], both recorder
    refs, the detection interval and the paste listeners are as before, no
    recorder was started and no screen stream was obtained; only the
    attempt id may have been stored.  The camera, however, is not released:
    when the failure comes after the camera was granted, the stream that was
    obtained stays live.  Without a simulation id the handler just alerts;
    with the camera denied nothing changes and no request reaches the
    backend. *)
Theorem failed_start_keeps_the_camera_stream
  (e : Recorder.start_env) (s : Recorder.state) :
  mandatory e = false ->
  let r := Recorder.startInterview e s in
  Recorder.recording (state_of r) = Recorder.recording s
  /\ Recorder.mediaRecorderRef (state_of r) = Recorder.mediaRecorderRef s
  /\ Recorder.screenRecorderRef (state_of r) = Recorder.screenRecorderRef s
  /\ Recorder.faceDetectIntervalRef (state_of r) = Recorder.faceDetectIntervalRef s
  /\ Recorder.pasteListeners (state_of r) = Recorder.pasteListeners s
  /\ count_calls is_recorder_start (trace_of r) = 0%nat
  /\ (Recorder.attemptId (state_of r) = Recorder.attemptId s
      \/ Recorder.attemptId (state_of r) = Recorder.post_start e)
  /\ Recorder.liveScreenStreams (state_of r) = Recorder.liveScreenStreams s
  /\ Recorder.liveCameraStreams (state_of r)
     = (if camera_granted e then S (Recorder.liveCameraStreams s)
        else Recorder.liveCameraStreams s)
  /\ (Recorder.simulationId e = None ->
      state_of r = s
      /\ trace_of r = [Alert "Cannot start interview: No simulation available"])
  /\ (Recorder.getUserMedia e = None ->
      state_of r = s /\ count_calls is_post (trace_of r) = 0%nat).
Proof.
  destruct s as [aid mr sr iv rec pc pst cq qs spk fc vs sw pl cams scrs].
  destruct e as [osim title sp conf cam post play vrec disp srec].
  destruct osim as [sim|], conf, cam as [[]|], post as [id|], play as [[]|],
           vrec as [[]|];
    unfold Recorder.startInterview, Recorder.startFaceDetection, mandatory,
      camera_granted;
    cbn [is_some Recorder.simulationId Recorder.confirm_answer Recorder.getUserMedia
         Recorder.post_start Recorder.video_play Recorder.newVideoRecorder andb];
    intros Hm; try discriminate Hm; eff_simpl;
    (do 6 (split; [ reflexivity | ]));
    (split; [ solve [ left; reflexivity | right; reflexivity ] | ]);
    (do 2 (split; [ reflexivity | ]));
    (split; intros E; first [ discriminate E | split; reflexivity ]).
Qed.

(** The camera is granted and the backend refuses to create the attempt, on
    a fresh component: nothing records, and one camera stream is live. *)
Lemma failed_start_witness :
  let e := Recorder.mkStartEnv (Some 3) None true true (Some tt) None
             (Some tt) (Some tt) (Some tt) (Some tt) in
  let r := Recorder.startInterview e (Recorder.init ["Q1"]) in
  Recorder.recording (state_of r) = false
  /\ Recorder.mediaRecorderRef (state_of r) = None
  /\ Recorder.liveCameraStreams (state_of r) = 1%nat.
Proof.
  cbv zeta.
  destruct (failed_start_keeps_the_camera_stream
              (Recorder.mkStartEnv (Some 3) None true true (Some tt) None
                 (Some tt) (Some tt) (Some tt) (Some tt))
              (Recorder.init ["Q1"]))
    as (Hrec & Hmr & _ & _ & _ & _ & _ & _ & Hcam & _);
    [ reflexivity | ].
  split; [ exact Hrec | ]. split; [ exact Hmr | exact Hcam ].
Defined.

(** ** Events between start and stop *)

Lemma tick_keeps_outside (attempt : Z) (i : Recorder.tick_input) (s : Recorder.state) :
  let r := Recorder.detectionTick attempt i s in
  outside_detection (state_of r) = outside_detection s
  /\ exists new, Recorder.violations (state_of r) = Recorder.violations s ++ new.
Proof.
  destruct i as [fr hasfd det w h img fs t];
    destruct s as [aid mr sr iv rec [tb mf fc0] pst cq qs spk fc vs sw pl cams scrs].
  unfold Recorder.detectionTick, Recorder.sendFaceFlag, Recorder.addViolation.
  destruct fr; eff_simpl; [ | split; [ reflexivity | exists []; now rewrite app_nil_r ] ].
  destruct hasfd; eff_simpl.
  - destruct det as [n|]; eff_simpl;
      [ | split; [ reflexivity | exists []; now rewrite app_nil_r ] ].
    destruct (n =? 0)%nat; [ | destruct (1 <? n)%nat ];
      destruct fs as [[]|]; eff_simpl;
      (split; [ reflexivity | ]);
      first [ now eexists | exists []; now rewrite app_nil_r ].
  - destruct img as [data|]; eff_simpl;
      [ | split; [ reflexivity | exists []; now rewrite app_nil_r ] ].
    destruct (num (Recorder.skinPixels data) / num (w * h) <? 0.02)%float;
      eff_simpl; (split; [ reflexivity | ]);
      first [ now eexists | exists []; now rewrite app_nil_r ].
Qed.

(** A paste event on [n] listeners: each of them counts it and records a
    violation; nothing else changes. *)
Lemma pastes_step (n : nat) (t : Z) :
  forall s : Recorder.state,
  let s' := state_of (Recorder.each_listener n (Recorder.onPaste t) s) in
  Recorder.paste_count s' = Recorder.paste_count s + Z.of_nat n
  /\ Recorder.violations s'
     = Recorder.violations s ++ repeat (Recorder.mkViolation Recorder.msg_paste t) n
  /\ Recorder.proctoring_current s' = Recorder.proctoring_current s
  /\ Recorder.pasteListeners s' = Recorder.pasteListeners s
  /\ Recorder.questions s' = Recorder.questions s
  /\ Recorder.currentQuestion s' = Recorder.currentQuestion s
  /\ Recorder.recording s' = Recorder.recording s
  /\ Recorder.liveCameraStreams s' = Recorder.liveCameraStreams s
  /\ Recorder.liveScreenStreams s' = Recorder.liveScreenStreams s.
Proof.
  induction n as [|n IH]; intros s; cbn zeta.
  - cbn. rewrite app_nil_r. repeat split; lia.
  - cbn [Recorder.each_listener repeat].
    erewrite bind_state by reflexivity.
    destruct (IH (state_of (Recorder.onPaste t s)))
      as (Hp & Hv & Hpc & Hl & Hq & Hc & Hr & Hcs & Hss).
    cbn zeta in *. rewrite Hp, Hv, Hpc, Hl, Hq, Hc, Hr, Hcs, Hss.
    destruct s; cbn. rewrite <- app_assoc.
    repeat split; try reflexivity; lia.
Qed.

Lemma handle_counts (speech : bool) (ev : Recorder.event) (s : Recorder.state) :
  let s' := state_of (Recorder.handle speech ev s) in
  let pastes := if is_paste ev then Recorder.pasteListeners s else 0%nat in
  tab_blur_count (Recorder.proctoring_current s')
    = tab_blur_count (Recorder.proctoring_current s) + (if is_blur ev then 1 else 0)
  /\ Recorder.paste_count s' = Recorder.paste_count s + Z.of_nat pastes
  /\ Recorder.pasteListeners s' = Recorder.pasteListeners s
  /\ Recorder.questions s' = Recorder.questions s
  /\ Recorder.recording s' = Recorder.recording s
  /\ Recorder.liveCameraStreams s' = Recorder.liveCameraStreams s
  /\ Recorder.liveScreenStreams s' = Recorder.liveScreenStreams s
  /\ (exists new,
        Recorder.violations s' = Recorder.violations s ++ new
        /\ ((if is_blur ev then 1 else 0) + pastes <= List.length new)%nat).
Proof.
  destruct ev as [i | k size settles | t | t | | ];
    cbn [Recorder.handle is_blur is_paste andb orb]; cbv zeta.
  - rewrite bind_get.
    destruct (Recorder.faceDetectIntervalRef s);
      [ destruct (Recorder.attemptId s) as [id|] | ].
    + destruct (tick_keeps_outside id i s) as [Ho [new Hn]].
      cbn zeta in *. unfold outside_detection in Ho.
      injection Ho as H1 H2 H3 H4 H5 H6 H7 H8.
      rewrite H1, H2, H3, H4, H6, H7, H8, Hn.
      repeat (split; [ solve [ reflexivity | lia ] | ]).
      exists new. split; [ reflexivity | cbn; lia ].
    + cbn. repeat (split; [ solve [ reflexivity | lia ] | ]).
      exists []. rewrite app_nil_r. split; [ reflexivity | cbn; lia ].
    + cbn. repeat (split; [ solve [ reflexivity | lia ] | ]).
      exists []. rewrite app_nil_r. split; [ reflexivity | cbn; lia ].
  - unfold Recorder.ondataavailable, Recorder.uploadChunk. rewrite bind_get.
    destruct (Recorder.recorderRef k s); [ destruct (0 <? size) | ];
      [ destruct settles as [[]|] | | ]; eff_simpl;
      (repeat (split; [ solve [ reflexivity | lia ] | ]));
      exists []; rewrite app_nil_r; (split; [ reflexivity | cbn; lia ]).
  - destruct s as [aid mr sr iv rec [tb mf fc0] pst cq qs spk fc vs sw pl cams scrs].
    cbn. repeat (split; [ solve [ reflexivity | lia ] | ]).
    eexists. split; [ reflexivity | cbn; lia ].
  - rewrite bind_get.
    destruct (pastes_step (Recorder.pasteListeners s) t s)
      as (Hp & Hv & Hpc & Hl & Hq & _ & Hr & Hcs & Hss).
    cbn zeta in *. rewrite Hp, Hv, Hpc, Hl, Hq, Hr, Hcs, Hss.
    repeat (split; [ solve [ reflexivity | lia ] | ]).
    eexists. split; [ reflexivity | rewrite repeat_length; cbn; lia ].
  - unfold Recorder.nextQuestion, Recorder.speakQuestion. rewrite bind_get.
    destruct s as [aid mr sr iv rec [tb mf fc0] pst cq qs spk fc vs sw pl cams scrs].
    destruct (_ <? _); destruct speech; cbn;
      (repeat (split; [ solve [ reflexivity | lia ] | ]));
      exists []; rewrite app_nil_r; (split; [ reflexivity | cbn; lia ]).
  - destruct s as [aid mr sr iv rec [tb mf fc0] pst cq qs spk fc vs sw pl cams scrs].
    cbn. repeat (split; [ solve [ reflexivity | lia ] | ]).
    exists []. rewrite app_nil_r. split; [ reflexivity | cbn; lia ].
Qed.

Lemma handle_cursor (speech : bool) (ev : Recorder.event) (s : Recorder.state) :
  let s' := state_of (Recorder.handle speech ev s) in
  (Recorder.currentQuestion s <= Recorder.currentQuestion s')%nat
  /\ (Recorder.currentQuestion s'
      <= Recorder.currentQuestion s + (if is_next ev then 1 else 0))%nat
  /\ ((Recorder.currentQuestion s < List.length (Recorder.questions s))%nat ->
      (Recorder.currentQuestion s' < List.length (Recorder.questions s))%nat).
Proof.
  destruct (handle_counts speech ev s) as (_ & _ & _ & Hq & _).
  destruct ev as [i | k size settles | t | t | | ]; cbn [Recorder.handle is_next].
  - rewrite bind_get.
    destruct (Recorder.faceDetectIntervalRef s);
      [ destruct (Recorder.attemptId s) as [id|] | ]; try (cbn; lia).
    destruct (tick_keeps_outside id i s) as [Ho _].
    cbn zeta in Ho. unfold outside_detection in Ho.
    injection Ho as _ _ _ _ H5 _ _ _. rewrite H5. lia.
  - unfold Recorder.ondataavailable, Recorder.uploadChunk. rewrite bind_get.
    destruct (Recorder.recorderRef k s); [ destruct (0 <? size) | ];
      [ destruct settles as [[]|] | | ]; eff_simpl; lia.
  - destruct s; cbn; lia.
  - rewrite bind_get.
    destruct (pastes_step (Recorder.pasteListeners s) t s)
      as (_ & _ & _ & _ & _ & Hc & _).
    cbn zeta in Hc. rewrite Hc. lia.
  - unfold Recorder.nextQuestion, Recorder.speakQuestion. rewrite bind_get.
    destruct (_ <? _) eqn:E; destruct speech; destruct s; cbn in *;
      try apply Z.ltb_lt in E; lia.
  - destruct s; cbn; lia.
Qed.

Lemma handleAll_counts
  (speech : bool) (evs : list Recorder.event) (s : Recorder.state) :
  let s' := state_of (Recorder.handleAll speech evs s) in
  let pastes := (count_events is_paste evs * Recorder.pasteListeners s)%nat in
  tab_blur_count (Recorder.proctoring_current s')
    = tab_blur_count (Recorder.proctoring_current s)
      + Z.of_nat (count_events is_blur evs)
  /\ Recorder.paste_count s' = Recorder.paste_count s + Z.of_nat pastes
  /\ Recorder.pasteListeners s' = Recorder.pasteListeners s
  /\ Recorder.liveCameraStreams s' = Recorder.liveCameraStreams s
  /\ Recorder.liveScreenStreams s' = Recorder.liveScreenStreams s
  /\ exists new,
       Recorder.violations s' = Recorder.violations s ++ new
       /\ (count_events is_blur evs + pastes <= List.length new)%nat.
Proof.
  cbv zeta. revert s.
  induction evs as [|ev rest IH]; intros s.
  - cbn. repeat (split; [ solve [ reflexivity | lia ] | ]).
    exists []. rewrite app_nil_r. split; [ reflexivity | cbn; lia ].
  - cbn [Recorder.handleAll].
    erewrite bind_state by apply handle_returns.
    destruct (handle_counts speech ev s)
      as (Hb & Hp & Hl & _ & _ & Hcs & Hss & (n1 & Hv & Hn1)).
    destruct (IH (state_of (Recorder.handle speech ev s)))
      as (IHb & IHp & IHl & IHcs & IHss & (n2 & IHv & Hn2)).
    cbn zeta in *. rewrite Hl in IHp, Hn2, IHl.
    rewrite IHb, IHp, IHv, Hb, Hp, Hv, IHl, IHcs, IHss, Hcs, Hss.
    unfold count_events in *. cbn [filter].
    destruct (is_blur ev) eqn:Eb; destruct (is_paste ev) eqn:Ep;
      cbn [List.length] in *;
      (split; [ lia | split; [ lia | ] ]);
      (do 3 (split; [ reflexivity | ]));
      exists (n1 ++ n2); rewrite app_assoc, length_app; (split; [ reflexivity | lia ]).
Qed.

(** [stopInterview], however its requests settle, detaches no listener and
    stops no stream, and it does not touch the counters. *)
Lemma stop_keeps_holdings (e : Recorder.stop_env) (s : Recorder.state) :
  let s' := state_of (Recorder.stopInterview e s) in
  Recorder.pasteListeners s' = Recorder.pasteListeners s
  /\ Recorder.liveCameraStreams s' = Recorder.liveCameraStreams s
  /\ Recorder.liveScreenStreams s' = Recorder.liveScreenStreams s
  /\ Recorder.paste_count s' = Recorder.paste_count s.
Proof.
  destruct e as [up fin].
  destruct s as [aid mr sr iv rec pc pst cq qs spk fc vs sw pl cams scrs].
  unfold Recorder.stopInterview, Recorder.stopRecorder, Recorder.stopFaceDetection.
  destruct up as [[]|], fin as [[]|], mr as [[]|], sr as [[]|], iv;
    repeat split; reflexivity.
Qed.

(** X5. Whatever events arrive and in whatever order: the tab-blur count
    grows by one per blur, the paste count grows, for each paste, by the
    number of [onPaste] listeners attached to the window, and the
    violations list only grows, by at least one entry for each of these
    counts.  Events do not change the number of listeners, and neither
    does [stopInterview]; each successful start adds one.  So in a session
    started, stopped and started again every paste is counted twice more
    than the listeners attached before. *)
Theorem each_paste_counts_once_per_listener
  (speech : bool) (evs : list Recorder.event) (s : Recorder.state) :
  let s' := state_of (Recorder.handleAll speech evs s) in
  let pastes := (count_events is_paste evs * Recorder.pasteListeners s)%nat in
  tab_blur_count (Recorder.proctoring_current s')
    = tab_blur_count (Recorder.proctoring_current s)
      + Z.of_nat (count_events is_blur evs)
  /\ Recorder.paste_count s' = Recorder.paste_count s + Z.of_nat pastes
  /\ Recorder.pasteListeners s' = Recorder.pasteListeners s
  /\ (exists new,
        Recorder.violations s' = Recorder.violations s ++ new
        /\ (count_events is_blur evs + pastes <= List.length new)%nat)
  /\ (forall (e1 e2 : Recorder.start_env) (stop : Recorder.stop_env) (t : Z),
        mandatory e1 = true -> mandatory e2 = true ->
        let stopped :=
          state_of (Recorder.stopInterview stop
                      (state_of (Recorder.startInterview e1 s))) in
        let restarted := state_of (Recorder.startInterview e2 stopped) in
        Recorder.pasteListeners stopped = S (Recorder.pasteListeners s)
        /\ Recorder.pasteListeners restarted = S (S (Recorder.pasteListeners s))
        /\ Recorder.paste_count
             (state_of (Recorder.handle speech (Recorder.Paste t) restarted))
           = Recorder.paste_count restarted
             + Z.of_nat (S (S (Recorder.pasteListeners s)))).
Proof.
  cbv zeta.
  destruct (handleAll_counts speech evs s) as (Hblur & Hpaste & Hl & _ & _ & Hlog).
  split; [ exact Hblur | ]. split; [ exact Hpaste | ].
  split; [ exact Hl | ]. split; [ exact Hlog | ].
  intros e1 e2 stop t Hm1 Hm2.
  destruct (start_holdings e1 s) as (Hs1 & _).
  destruct (stop_keeps_holdings stop (state_of (Recorder.startInterview e1 s)))
    as (Hst & _).
  destruct (start_holdings e2
              (state_of (Recorder.stopInterview stop
                           (state_of (Recorder.startInterview e1 s)))))
    as (Hs2 & _).
  cbn zeta in *. rewrite Hm1 in Hs1. rewrite Hm2 in Hs2.
  rewrite Hst, Hs1 in Hs2. rewrite Hst, Hs1.
  split; [ reflexivity | ]. split; [ exact Hs2 | ].
  destruct (handle_counts speech (Recorder.Paste t)
              (state_of (Recorder.startInterview e2
                 (state_of (Recorder.stopInterview stop
                    (state_of (Recorder.startInterview e1 s)))))))
    as (_ & Hp & _).
  cbn zeta in Hp. cbn [is_paste] in Hp. rewrite Hs2 in Hp. exact Hp.
Qed.

(** A fresh component is started, stopped and started again with everything
    granted: two listeners are attached, and one paste raises the count
    by 2. *)
Lemma double_paste_witness :
  let e := Recorder.mkStartEnv (Some 3) None true true (Some tt) (Some 41)
             (Some tt) (Some tt) (Some tt) (Some tt) in
  let stopped :=
    state_of (Recorder.stopInterview accepted
                (state_of (Recorder.startInterview e (Recorder.init ["Q1"])))) in
  let restarted := state_of (Recorder.startInterview e stopped) in
  Recorder.pasteListeners restarted = 2%nat
  /\ Recorder.paste_count
       (state_of (Recorder.handle true (Recorder.Paste 7) restarted)) = 2.
Proof.
  cbv zeta.
  destruct (each_paste_counts_once_per_listener true [] (Recorder.init ["Q1"]))
    as (_ & _ & _ & _ & Hagain).
  destruct (Hagain
              (Recorder.mkStartEnv (Some 3) None true true (Some tt) (Some 41)
                 (Some tt) (Some tt) (Some tt) (Some tt))
              (Recorder.mkStartEnv (Some 3) None true true (Some tt) (Some 41)
                 (Some tt) (Some tt) (Some tt) (Some tt))
              accepted 7) as (_ & Hl & Hp); [ reflexivity | reflexivity | ].
  split; [ exact Hl | rewrite Hp; reflexivity ].
Defined.

Lemma handleAll_cursor
  (speech : bool) (evs : list Recorder.event) (s : Recorder.state) :
  let s' := state_of (Recorder.handleAll speech evs s) in
  Recorder.questions s' = Recorder.questions s
  /\ (Recorder.currentQuestion s <= Recorder.currentQuestion s')%nat
  /\ (Recorder.currentQuestion s'
      <= Recorder.currentQuestion s + count_events is_next evs)%nat
  /\ ((Recorder.currentQuestion s < List.length (Recorder.questions s))%nat ->
      (Recorder.currentQuestion s' < List.length (Recorder.questions s))%nat).
Proof.
  cbv zeta. revert s.
  induction evs as [|ev rest IH]; intros s.
  - cbn. repeat split; auto; lia.
  - cbn [Recorder.handleAll].
    erewrite bind_state by apply handle_returns.
    destruct (handle_counts speech ev s) as (_ & _ & _ & Hq & _).
    cbv zeta in Hq.
    destruct (handle_cursor speech ev s) as (H1 & H2 & H3).
    destruct (IH (state_of (Recorder.handle speech ev s))) as (IHq & IH1 & IH2 & IH3).
    cbn zeta in *. rewrite Hq in IHq, IH3.
    unfold count_events in *. cbn [filter].
    split; [ exact IHq | ]. split; [ lia | ].
    split; [ destruct (is_next ev); cbn [List.length]; lia | ].
    intros Hin. apply IH3, H3, Hin.
Qed.

(** X6. The question cursor never moves back and never leaves the list:
    over any events it does not decrease, it rises by at most the number of
    next-question requests, and from inside the list it stays inside. *)
Theorem cursor_is_monotone_and_bounded
  (speech : bool) (evs : list Recorder.event) (s : Recorder.state) :
  let s' := state_of (Recorder.handleAll speech evs s) in
  Recorder.questions s' = Recorder.questions s
  /\ (Recorder.currentQuestion s <= Recorder.currentQuestion s')%nat
  /\ (Recorder.currentQuestion s'
      <= Recorder.currentQuestion s + count_events is_next evs)%nat
  /\ ((Recorder.currentQuestion s < List.length (Recorder.questions s))%nat ->
      (Recorder.currentQuestion s' < List.length (Recorder.questions s))%nat).
Proof.
  cbv zeta.
  destruct (handleAll_cursor speech evs s) as (Hq & Hup & Hstep & Hin).
  split; [ exact Hq | split; [ exact Hup | split; [ exact Hstep | exact Hin ] ] ].
Qed.

(** Five questions, six next-question requests and a blur. *)
Lemma cursor_witness :
  let s := Recorder.init ["Q1"; "Q2"; "Q3"; "Q4"; "Q5"] in
  let evs := repeat Recorder.NextQuestion 6 ++ [Recorder.Blur 9] in
  (Recorder.currentQuestion (state_of (Recorder.handleAll true evs s)) < 5)%nat.
Proof.
  cbv zeta.
  apply (cursor_is_monotone_and_bounded true
           (repeat Recorder.NextQuestion 6 ++ [Recorder.Blur 9])
           (Recorder.init ["Q1"; "Q2"; "Q3"; "Q4"; "Q5"])).
  cbn. lia.
Defined.

(** ** A whole session, and a submission that fails *)

Lemma handleAll_refs_and_listener (speech : bool) (evs : list Recorder.event) :
  forall s : Recorder.state,
  let s' := state_of (Recorder.handleAll speech evs s) in
  session_refs s' = session_refs s
  /\ Recorder.pasteListeners s' = Recorder.pasteListeners s
  /\ Recorder.recording s' = Recorder.recording s.
Proof.
  induction evs as [|ev rest IH]; intros s; cbn zeta; [ repeat split | ].
  cbn [Recorder.handleAll].
  erewrite bind_state by apply handle_returns.
  destruct (handle_keeps_refs speech ev s) as [Hr _].
  destruct (handle_counts speech ev s) as (_ & _ & Hl & _ & Hrec & _).
  destruct (IH (state_of (Recorder.handle speech ev s))) as (IHr & IHl & IHrec).
  cbn zeta in *. repeat split; congruence.
Qed.

Lemma stop_accepted_posts (s : Recorder.state) :
  let r := Recorder.stopInterview accepted s in
  filter is_post (trace_of r)
  = [PostUploadChunk (Recorder.attemptId s) editor_events
       (Summary (Recorder.paste_count s) (Recorder.proctoring_current s));
     PostFinish (Recorder.attemptId s)].
Proof.
  destruct s as [aid mr sr iv rec pc pst cq qs sp fc vs sw pl cams scrs].
  unfold Recorder.stopInterview, Recorder.stopRecorder, Recorder.stopFaceDetection,
    accepted.
  destruct mr as [[]|], sr as [[]|], iv; reflexivity.
Qed.

(** X7. A session that starts on a fresh component, lives through any
    events and is stopped with the backend accepting both requests makes
    exactly two requests at stop, in this order: one [editor_events] chunk
    for the attempt, whose summary holds the number of pastes and the
    accumulator with the number of blurs, then one [finish] for the same
    attempt.  Afterwards the recorders are inactive, the detection interval
    is cleared and [recording] is false.  The session is not released in
    full, though: the paste listener of the start is still attached, so a
    later paste still raises the paste count, and the camera stream, and
    the screen stream if one was granted, stay live. *)
Theorem stopped_session_keeps_listener_and_streams
  (e : Recorder.start_env) (speech : bool) (evs : list Recorder.event)
  (qs : list string) :
  mandatory e = true ->
  let s1 := state_of (Recorder.startInterview e (Recorder.init qs)) in
  let s2 := state_of (Recorder.handleAll speech evs s1) in
  let r := Recorder.stopInterview accepted s2 in
  result_of r = Returned tt
  /\ filter is_post (trace_of r)
     = [PostUploadChunk (Recorder.post_start e) editor_events
          (Summary (Z.of_nat (count_events is_paste evs))
                   (Recorder.proctoring_current s2));
        PostFinish (Recorder.post_start e)]
  /\ tab_blur_count (Recorder.proctoring_current s2)
     = Z.of_nat (count_events is_blur evs)
  /\ Recorder.recording (state_of r) = false
  /\ torn_down (state_of r) = true
  /\ Recorder.pasteListeners (state_of r) = 1%nat
  /\ (forall t : Z,
        Recorder.paste_count
          (state_of (Recorder.handle speech (Recorder.Paste t) (state_of r)))
        = Recorder.paste_count (state_of r) + 1)
  /\ Recorder.liveCameraStreams (state_of r) = 1%nat
  /\ Recorder.liveScreenStreams (state_of r)
     = (if is_some _ (Recorder.getDisplayMedia e) then 1 else 0)%nat.
Proof.
  intros Hm s1 s2 r.
  destruct (start_outcome e (Recorder.init qs)) as (_ & _ & Hrefs).
  destruct (Hrefs Hm) as (Hid & _). fold s1 in Hid.
  destruct (start_holdings e (Recorder.init qs))
    as (Hpl & Hcam & Hscr & Hpc & Hpr & _).
  fold s1 in Hpl, Hcam, Hscr, Hpc, Hpr.
  assert (Hcg : camera_granted e = true).
  { clear -Hm. unfold mandatory in Hm. unfold camera_granted.
    destruct (is_some _ (Recorder.simulationId e)), (Recorder.confirm_answer e),
      (is_some _ (Recorder.getUserMedia e)); try reflexivity; discriminate Hm. }
  unfold screen_granted in Hscr. rewrite Hm in Hpl, Hscr. rewrite Hcg in Hcam.
  cbn [andb Recorder.init Recorder.pasteListeners Recorder.liveCameraStreams
       Recorder.liveScreenStreams Recorder.paste_count
       Recorder.proctoring_current] in Hpl, Hcam, Hscr, Hpc, Hpr.
  destruct (handleAll_counts speech evs s1)
    as (Hblur & Hpaste & Hl2 & Hc2 & Hs2 & _).
  destruct (handleAll_refs_and_listener speech evs s1) as (Href & _ & _).
  fold s2 in Hblur, Hpaste, Hl2, Hc2, Hs2, Href.
  rewrite Hpl, Hpc, Nat.mul_1_r in Hpaste. rewrite Hpr in Hblur.
  unfold session_refs in Href. injection Href as Ha _ _. rewrite Hid in Ha.
  destruct (stop_tears_down s2) as (Hret & Htd & Hrec & _).
  destruct (stop_keeps_holdings accepted s2) as (Hl3 & Hc3 & Hs3 & _).
  fold r in Hret, Htd, Hrec, Hl3, Hc3, Hs3.
  split; [ exact Hret | ].
  split; [ subst r; rewrite stop_accepted_posts, Ha, Hpaste; reflexivity | ].
  split; [ rewrite Hblur; reflexivity | ].
  split; [ exact Hrec | ]. split; [ exact Htd | ].
  split; [ congruence | ].
  split.
  - intros t.
    destruct (handle_counts speech (Recorder.Paste t) (state_of r)) as (_ & Hp & _).
    cbn zeta in Hp. cbn [is_paste] in Hp. rewrite Hp.
    replace (Recorder.pasteListeners (state_of r)) with 1%nat by congruence.
    reflexivity.
  - split; [ congruence | ].
    rewrite Hs3, Hs2, Hscr.
    destruct (is_some _ (Recorder.getDisplayMedia e)); reflexivity.
Qed.

(** Two pastes and a blur in a session without screen share, and one more
    paste after the stop. *)
Lemma session_witness :
  let e := Recorder.mkStartEnv (Some 3) None true true (Some tt) (Some 41)
             (Some tt) (Some tt) None (Some tt) in
  let evs := [Recorder.Paste 10; Recorder.Blur 20; Recorder.Paste 30] in
  let s2 := state_of (Recorder.handleAll true evs
                        (state_of (Recorder.startInterview e (Recorder.init ["Q1"])))) in
  let r := Recorder.stopInterview accepted s2 in
  filter is_post (trace_of r)
  = [PostUploadChunk (Some 41) editor_events
       (Summary 2 (mkProctoring 1 false 0));
     PostFinish (Some 41)]
  /\ Recorder.paste_count
       (state_of (Recorder.handle true (Recorder.Paste 40) (state_of r))) = 3
  /\ Recorder.liveCameraStreams (state_of r) = 1%nat.
Proof.
  cbv zeta.
  destruct (stopped_session_keeps_listener_and_streams
              (Recorder.mkStartEnv (Some 3) None true true (Some tt) (Some 41)
                 (Some tt) (Some tt) None (Some tt))
              true [Recorder.Paste 10; Recorder.Blur 20; Recorder.Paste 30] ["Q1"])
    as (_ & Hposts & _ & _ & _ & _ & Hlater & Hcam & _); [ reflexivity | ].
  split; [ exact Hposts | ].
  split; [ rewrite Hlater; reflexivity | exact Hcam ].
Defined.

(** X8. When the summary upload or the [finish] request is rejected,
    [stopInterview] throws after the teardown: the recorders are inactive
    and the interval is cleared, but [recording] keeps its value, no success
    alert is shown, the summary was sent once, and [finish] is not called
    at all if it was the upload that failed. *)
Theorem rejected_submission_keeps_session_open
  (e : Recorder.stop_env) (s : Recorder.state) :
  Recorder.upload_final e = None \/ Recorder.post_finish e = None ->
  let r := Recorder.stopInterview e s in
  returns r = false
  /\ Recorder.recording (state_of r) = Recorder.recording s
  /\ torn_down (state_of r) = true
  /\ ~ In (Alert "Interview submitted successfully!") (trace_of r)
  /\ count_calls (is_upload_of editor_events) (trace_of r) = 1%nat
  /\ (Recorder.upload_final e = None -> count_calls is_finish (trace_of r) = 0%nat).
Proof.
  destruct e as [up fin]; cbn [Recorder.upload_final Recorder.post_finish].
  destruct s as [aid mr sr iv rec pc pst cq qs sp fc vs sw pl cams scrs].
  unfold Recorder.stopInterview, Recorder.stopRecorder, Recorder.stopFaceDetection,
    torn_down.
  intros Hfail.
  destruct up as [[]|], fin as [[]|];
    try (destruct Hfail; discriminate);
    destruct mr as [[]|], sr as [[]|], iv; eff_simpl;
    (do 3 (split; [ reflexivity | ]));
    (split; [ intros Hin; cbn in Hin; intuition discriminate | ]);
    (split; [ reflexivity | ]);
    intros E; first [ discriminate E | reflexivity ].
Qed.

(** A rejected [finish] on a recording session. *)
Lemma rejected_finish_witness :
  let s := Recorder.mkState (Some 41) (Some rs_recording) None
             true true proctoring0 0 0 ["Q1"] false 1 [] false 1 1 0 in
  let r := Recorder.stopInterview (Recorder.mkStopEnv (Some tt) None) s in
  returns r = false /\ Recorder.recording (state_of r) = true.
Proof.
  cbv zeta.
  destruct (rejected_submission_keeps_session_open
              (Recorder.mkStopEnv (Some tt) None)
              (Recorder.mkState (Some 41) (Some rs_recording) None
                 true true proctoring0 0 0 ["Q1"] false 1 [] false 1 1 0))
    as (Hthrow & Hrec & _); [ right; reflexivity | ].
  split; [ exact Hthrow | exact Hrec ].
Defined.

(** ** Recorder segments *)

(** X9. A recorder's [ondataavailable] callback uploads a segment exactly
    when the recorder exists and the segment is not empty: one request with
    the session's attempt id, the recorder's kind and the segment, followed
    by a warning if it is rejected.  An empty segment, or one for a recorder
    that was never made, causes no call at all. *)
Theorem segment_uploaded_iff_recorder_and_data
  (k : chunk_kind) (size : Z) (settles : option unit) (s : Recorder.state) :
  trace_of (Recorder.ondataavailable k size settles s)
  = if is_some _ (Recorder.recorderRef k s) && (0 <? size)
    then PostUploadChunk (Recorder.attemptId s) k (Blob size)
         :: match settles with
            | Some _ => []
            | None => [ConsoleWarn "Chunk upload failed:"]
            end
    else [].
Proof.
  unfold Recorder.ondataavailable, Recorder.uploadChunk.
  rewrite bind_get.
  destruct (Recorder.recorderRef k s); cbn [is_some andb];
    [ destruct (0 <? size); [ destruct settles as [[]|] | ] | ];
    reflexivity.
Qed.

(** ** The derived question list *)

Lemma firstn_5_length (A : Type) (l : list A) :
  (3 < List.length l)%nat ->
  List.length (firstn 5 l) = 4%nat \/ List.length (firstn 5 l) = 5%nat.
Proof.
  intros H. rewrite length_firstn.
  destruct (Nat.le_gt_cases 5 (List.length l)); lia.
Qed.

Lemma in_firstn (A : Type) (n : nat) (l : list A) (a : A) :
  In a (firstn n l) -> In a l.
Proof.
  intros H. rewrite <- (firstn_skipn n l). apply in_or_app. now left.
Qed.

(** X10. The questions the recorder derives from a prompt are always four
    or five: the first non-blank lines of the prompt when it has at least
    four of them, and otherwise the whole prompt followed by the four stock
    questions.  No derived line is blank. *)
Theorem derived_questions_are_four_or_five
  (blank : string -> bool) (prompt : string) :
  let qs := Questions.extractedQuestions blank prompt in
  let lines := filter (fun l => negb (blank l)) (Questions.split_lines prompt) in
  (List.length qs = 4%nat \/ List.length qs = 5%nat)
  /\ ((3 < List.length lines)%nat ->
      qs = firstn 5 lines /\ Forall (fun q => blank q = false) qs)
  /\ ((List.length lines <= 3)%nat ->
      qs = prompt :: Questions.fallback_questions).
Proof.
  cbv zeta. unfold Questions.extractedQuestions.
  set (lines := filter (fun l => negb (blank l)) (Questions.split_lines prompt)).
  destruct (3 <? List.length lines)%nat eqn:E.
  - apply Nat.ltb_lt in E. split; [ now apply firstn_5_length | ].
    split; [ | lia ]. intros _. split; [ reflexivity | ].
    apply Forall_forall. intros q Hq.
    apply in_firstn in Hq. subst lines. apply filter_In in Hq as [_ Hb].
    now apply negb_true_iff in Hb.
  - apply Nat.ltb_ge in E. split; [ right; reflexivity | ].
    split; [ lia | reflexivity ].
Qed.

(** A prompt of six lines, two of them blank, with a blank test that knows
    the empty line only. *)
Lemma derived_questions_witness :
  let blank l := String.eqb l "" in
  let prompt := "Design a cache
Which eviction policy?

How do you test it?
What about concurrency?
" in
  Questions.extractedQuestions blank prompt
  = ["Design a cache"; "Which eviction policy?"; "How do you test it?";
     "What about concurrency?"].
Proof.
  cbv zeta.
  destruct (derived_questions_are_four_or_five
              (fun l => String.eqb l "")
              "Design a cache
Which eviction policy?

How do you test it?
What about concurrency?
") as (_ & Hmany & _).
  destruct Hmany as [Hqs _]; [ cbn; lia | ].
  rewrite Hqs. reflexivity.
Defined.

(** X11. With questions derived from a non-empty prompt on a fresh
    component, the cursor stays on one of them whatever events arrive: it
    never passes index 4. *)
Theorem cursor_stays_on_a_derived_question
  (blank : string -> bool) (c : Ascii.ascii) (rest : string)
  (speech : bool) (evs : list Recorder.event) :
  let s := Questions.onSimulation blank (Some (String c rest)) (Recorder.init []) in
  let s' := state_of (Recorder.handleAll speech evs s) in
  Recorder.questions s' = Questions.extractedQuestions blank (String c rest)
  /\ (Recorder.currentQuestion s' < List.length (Recorder.questions s'))%nat
  /\ (Recorder.currentQuestion s' <= 4)%nat.
Proof.
  cbv zeta.
  set (s := Questions.onSimulation blank (Some (String c rest)) (Recorder.init [])).
  assert (Hqs : Recorder.questions s
                = Questions.extractedQuestions blank (String c rest)) by reflexivity.
  assert (Hlen : List.length (Recorder.questions s) = 4%nat
                 \/ List.length (Recorder.questions s) = 5%nat).
  { rewrite Hqs. unfold Questions.extractedQuestions.
    destruct (3 <? _)%nat eqn:E; [ | right; reflexivity ].
    apply Nat.ltb_lt in E. now apply firstn_5_length. }
  destruct (handleAll_cursor speech evs s) as (Hq & _ & _ & Hin).
  cbn zeta in *.
  assert (Hcur : (Recorder.currentQuestion
                    (state_of (Recorder.handleAll speech evs s))
                  < List.length (Recorder.questions s))%nat).
  { apply Hin. change (Recorder.currentQuestion s) with 0%nat. lia. }
  rewrite Hq. split; [ exact Hqs | ]. split; [ exact Hcur | lia ].
Qed.

(** ** The skin-pixel count of the fallback *)

Lemma skinPixels_step (r g b a : Z) (rest : list Z) :
  Recorder.skinPixels (r :: g :: b :: a :: rest)
  = (if Recorder.isSkin r g b then 1 else 0) + Recorder.skinPixels rest.
Proof. reflexivity. Qed.

Lemma dull_pixel_is_not_skin (p : Z * Z * Z * Z) :
  dull_pixel p = true -> skin_pixel p = false.
Proof.
  destruct p as [[[r g] b] a]. unfold dull_pixel, skin_pixel, Recorder.isSkin.
  intros H. apply orb_true_iff in H as [H | H]; apply Z.leb_le in H.
  - destruct (95 <? r) eqn:E; [ apply Z.ltb_lt in E; lia | reflexivity ].
  - destruct (g <? r) eqn:E; [ apply Z.ltb_lt in E; lia | ].
    now rewrite !andb_false_r.
Qed.

(** X12. On the RGBA data of a frame the fallback's loop counts exactly the
    pixels that pass the skin test, whatever their alpha: the count is
    between 0 and the number of pixels, and it is 0 for a frame in which
    every pixel has red at most 95 or red no greater than green, such as a
    covered lens or a greyscale image. *)
Theorem skin_count_is_per_pixel (pixels : list (Z * Z * Z * Z)) :
  Recorder.skinPixels (rgba pixels)
  = Z.of_nat (List.length (filter skin_pixel pixels))
  /\ 0 <= Recorder.skinPixels (rgba pixels) <= Z.of_nat (List.length pixels)
  /\ (Forall (fun p => dull_pixel p = true) pixels ->
      Recorder.skinPixels (rgba pixels) = 0).
Proof.
  assert (Hcount : Recorder.skinPixels (rgba pixels)
                   = Z.of_nat (List.length (filter skin_pixel pixels))).
  { induction pixels as [|[[[r g] b] a] rest IH]; [ reflexivity | ].
    cbn [rgba flat_map app]. fold (rgba rest).
    rewrite skinPixels_step, IH. cbn [filter skin_pixel].
    destruct (Recorder.isSkin r g b); cbn [List.length]; lia. }
  split; [ exact Hcount | ]. split.
  - rewrite Hcount. pose proof (filter_length_le skin_pixel pixels). lia.
  - intros Hdull. rewrite Hcount. clear Hcount.
    induction Hdull as [|p rest Hp _ IH]; [ reflexivity | ].
    cbn [filter]. rewrite (dull_pixel_is_not_skin p Hp). exact IH.
Qed.

(** A covered lens next to a grey wall. *)
Lemma dull_frame_witness :
  Recorder.skinPixels [12; 10; 9; 255; 180; 180; 180; 255] = 0.
Proof.
  apply (skin_count_is_per_pixel [(12, 10, 9, 255); (180, 180, 180, 255)]).
  repeat constructor.
Defined.

(** ** The earlier recorder *)

(** X13. A detection tick of the earlier recorder never throws.  It posts a
    face flag exactly when the detector counted more than one face, with
    that count and the tick's time; a tick without a face posts nothing,
    and a tick that could not count leaves the state as it was. *)
Theorem earlier_tick_flags_only_multiple_faces
  (attempt : Z) (i : RecorderV0.tick_input) (s : RecorderV0.state) :
  let r := RecorderV0.detectionTick attempt i s in
  result_of r = Returned tt
  /\ filter is_post (trace_of r)
     = match v0_count i with
       | Some n =>
           if (1 <? n)%nat
           then [PostFaceFlag attempt
                   (flag_multiple_faces (Z.of_nat n) (RecorderV0.now i))]
           else []
       | None => []
       end
  /\ (v0_count i = None -> state_of r = s).
Proof.
  destruct i as [fr det fs t]; destruct s as [iv [tb mf fc]].
  unfold RecorderV0.detectionTick, RecorderV0.sendFaceFlag, v0_count.
  cbn [RecorderV0.frame_ok RecorderV0.detect RecorderV0.now].
  destruct fr; [ destruct det as [n|] | ]; eff_simpl;
    [ destruct (1 <? n)%nat; [ destruct fs as [[]|] | ] | | ]; eff_simpl;
    (split; [ reflexivity | split; [ reflexivity | ] ]);
    intros E; first [ discriminate E | reflexivity ].
Qed.

(** The detector rejects on a component that has seen two faces. *)
Lemma earlier_tick_witness :
  let s := RecorderV0.mkState true (mkProctoring 0 true 2) in
  state_of (RecorderV0.detectionTick 41 (RecorderV0.mkTick true None (Some tt) 3000) s)
  = s.
Proof.
  cbv zeta.
  apply (earlier_tick_flags_only_multiple_faces 41
           (RecorderV0.mkTick true None (Some tt) 3000)).
  reflexivity.
Defined.

(** X14. In the earlier recorder a denied screen share, or a screen recorder
    that cannot be made, makes [startInterview] report a failed start:
    [recording] is left as it was, no detection interval and no paste
    listener are set up.  Yet the camera recorder, started just before, is
    left running: it is stored as recording and is never stopped. *)
Theorem earlier_start_fails_without_screen_but_keeps_camera_recorder
  (e : EarlierSession.start_env) (s : EarlierSession.state) (sim id : Z) :
  EarlierSession.simulationId e = Some sim ->
  EarlierSession.confirm_answer e = true ->
  EarlierSession.getUserMedia e = Some tt ->
  EarlierSession.post_start e = Some id ->
  EarlierSession.video_play e = Some tt ->
  EarlierSession.newVideoRecorder e = Some tt ->
  EarlierSession.getDisplayMedia e = None
    \/ EarlierSession.newScreenRecorder e = None ->
  let r := EarlierSession.startInterview e s in
  result_of r = Returned tt
  /\ EarlierSession.recording (state_of r) = EarlierSession.recording s
  /\ EarlierSession.pasteListener (state_of r) = EarlierSession.pasteListener s
  /\ EarlierSession.detection (state_of r) = EarlierSession.detection s
  /\ EarlierSession.mediaRecorderRef (state_of r) = Some rs_recording
  /\ In (RecorderStart video 2000) (trace_of r)
  /\ count_calls is_teardown (trace_of r) = 0%nat
  /\ exists reason,
       last (trace_of r) (Alert "") = Alert ("Failed to start interview: " ++ reason).
Proof.
  intros Hsim Hconf Hcam Hpost Hplay Hrec Hscreen r. subst r.
  destruct e as [osim conf cam post play vrec disp srec fd].
  destruct s as [aid mr sr rec pl det].
  cbn in Hsim, Hconf, Hcam, Hpost, Hplay, Hrec, Hscreen.
  subst osim conf cam post play vrec.
  unfold EarlierSession.startInterview.
  destruct disp as [[]|];
    [ destruct srec as [[]|]; [ destruct Hscreen; discriminate | ] | ];
    eff_simpl;
    (do 5 (split; [ reflexivity | ]));
    (split; [ cbn; tauto | ]);
    (split; [ reflexivity | ]);
    eexists; reflexivity.
Qed.

(** A denied screen share on a fresh component. *)
Lemma earlier_start_witness :
  let e := EarlierSession.mkStartEnv (Some 3) true (Some tt) (Some 41) (Some tt)
             (Some tt) None (Some tt) true in
  let r := EarlierSession.startInterview e EarlierSession.init in
  EarlierSession.recording (state_of r) = false
  /\ EarlierSession.mediaRecorderRef (state_of r) = Some rs_recording.
Proof.
  cbv zeta.
  destruct (earlier_start_fails_without_screen_but_keeps_camera_recorder
              (EarlierSession.mkStartEnv (Some 3) true (Some tt) (Some 41) (Some tt)
                 (Some tt) None (Some tt) true)
              EarlierSession.init 3 41)
    as (_ & Hrec & _ & _ & Hcam & _); try reflexivity.
  - left; reflexivity.
  - split; [ exact Hrec | exact Hcam ].
Defined.

(** ** Detection ticks and the flag log of the room *)

Lemma ForallOrdPairs_snoc (A : Type) (R : A -> A -> Prop) (l : list A) (x : A) :
  ForallOrdPairs R l -> Forall (fun a => R a x) l -> ForallOrdPairs R (l ++ [x]).
Proof.
  induction 1 as [|a l Ha _ IH]; intros Hx; cbn.
  - repeat constructor.
  - inversion Hx; subst. constructor; [ | now apply IH ].
    apply Forall_app. split; [ exact Ha | now constructor ].
Qed.

Lemma recentFlag_none_inv (ty : string) (now : Z) (log : list Room.flag) :
  Room.recentFlag ty now log = None ->
  Forall (fun f => Room.type f = ty -> Room.timestamp f + 5000 <= now) log.
Proof.
  intros E. apply Forall_forall. intros f Hin Hty.
  unfold Room.recentFlag in E. apply (find_none _ _ E) in Hin. cbn in Hin.
  rewrite Hty, String.eqb_refl in Hin. cbn in Hin.
  apply Z.ltb_ge in Hin. lia.
Qed.

(** One [addProctoringFlag]: the state outside the log, the log's growth
    and its spacing. *)
Lemma addProctoringFlag_step (q : nat) (ty : string) (d : Room.description)
  (c : Room.clock) (s : Room.state) :
  let r := Room.addProctoringFlag q ty d c s in
  result_of r = Returned tt
  /\ outside_log (state_of r) = outside_log s
  /\ Room.faceDetected (state_of r) = Room.faceDetected s
  /\ (exists new,
        Room.proctoringFlags (state_of r) = Room.proctoringFlags s ++ new
        /\ (List.length new <= 1)%nat
        /\ Forall (fun f => Room.type f = ty
                            /\ Room.timestamp f = Room.called_at c
                            /\ Room.questionIndex f = q) new)
  /\ (synchronous c -> well_spaced (Room.proctoringFlags s) ->
      well_spaced (Room.proctoringFlags (state_of r))).
Proof.
  cbv zeta.
  destruct (Room.recentFlag ty (Room.applied_at c) (Room.proctoringFlags s))
    as [g|] eqn:E.
  - rewrite (addProctoringFlag_suppressed q ty d c s g E).
    unfold result_of, state_of. cbn [fst snd].
    repeat (split; [ reflexivity | ]).
    split; [ | auto ].
    exists []. rewrite app_nil_r. repeat split; auto.
  - pose proof (addProctoringFlag_recorded q ty d c s E) as Hrec. cbn zeta in Hrec.
    rewrite Hrec. unfold result_of, state_of. cbn [fst snd].
    split; [ reflexivity | ].
    split; [ destruct s; reflexivity | ].
    split; [ destruct s; reflexivity | ].
    split.
    + eexists. split; [ destruct s; reflexivity | ].
      split; [ cbn; lia | ]. repeat constructor.
    + intros Hsync Hsp. destruct s; cbn [Room.proctoringFlags Room.set_proctoringFlags] in *.
      apply ForallOrdPairs_snoc; [ exact Hsp | ].
      apply recentFlag_none_inv in E. unfold synchronous in Hsync.
      eapply Forall_impl; [ | exact E ].
      intros f Hf Hty. cbn in *. rewrite <- Hsync. now apply Hf.
Qed.

Lemma grows_by_refl (n : nat) (c : Room.clock) (s : Room.state) : grows_by n c s s.
Proof.
  split; [ reflexivity | ]. split; [ | auto ].
  exists []. rewrite app_nil_r. repeat split; auto. cbn; lia.
Qed.

Lemma grows_by_faceDetected (n : nat) (c : Room.clock) (b : bool) (s s' : Room.state) :
  grows_by n c (Room.set_faceDetected b s) s' -> grows_by n c s s'.
Proof. destruct s. exact (fun H => H). Qed.

Lemma grows_by_flag (q : nat) (ty : string) (d : Room.description)
  (c : Room.clock) (s : Room.state) :
  q = Room.intervalQuestionIndex s ->
  grows_by 1 c s (state_of (Room.addProctoringFlag q ty d c s)).
Proof.
  intros Hq.
  destruct (addProctoringFlag_step q ty d c s) as (_ & Ho & _ & (new & Hl & Hn & Hf) & Hsp).
  split; [ exact Ho | ]. split; [ | exact Hsp ].
  exists new. repeat split; auto.
  eapply Forall_impl; [ | exact Hf ]. cbn. intros f (_ & Ht & Hi).
  split; [ exact Ht | congruence ].
Qed.

Lemma grows_by_trans (n m : nat) (c : Room.clock) (s1 s2 s3 : Room.state) :
  grows_by n c s1 s2 -> grows_by m c s2 s3 -> grows_by (n + m) c s1 s3.
Proof.
  intros (Ho1 & (n1 & Hl1 & Hn1 & Hf1) & Hs1) (Ho2 & (n2 & Hl2 & Hn2 & Hf2) & Hs2).
  split; [ congruence | ]. split; [ | auto ].
  exists (n1 ++ n2). rewrite Hl2, Hl1, app_assoc, length_app.
  split; [ reflexivity | ]. split; [ lia | ].
  apply Forall_app. split; [ exact Hf1 | ].
  eapply Forall_impl; [ | exact Hf2 ]. cbn.
  unfold outside_log in Ho1. injection Ho1 as _ _ _ _ _ _ _ _ Hq.
  intros f [Ht Hi]. split; congruence.
Qed.

Lemma grows_by_le (n m : nat) (c : Room.clock) (s s' : Room.state) :
  (n <= m)%nat -> grows_by n c s s' -> grows_by m c s s'.
Proof.
  intros Hle (Ho & (new & Hl & Hn & Hf) & Hs).
  split; [ exact Ho | ]. split; [ | exact Hs ].
  exists new. repeat split; auto. lia.
Qed.

Lemma bind_ret (St Ev A B : Type) (a : A) (k : A -> Eff St Ev B) (s : St) :
  bind (ret a) k s = k a s.
Proof. unfold bind, ret. destruct (k a s) as [[r s2] t2]. reflexivity. Qed.

Lemma headPoseChecks_grows (q : nat) (hp : Room.headPose) (c : Room.clock)
  (s : Room.state) :
  q = Room.intervalQuestionIndex s ->
  result_of (Room.headPoseChecks q hp c s) = Returned tt
  /\ grows_by 2 c s (state_of (Room.headPoseChecks q hp c s)).
Proof.
  intros Hq. unfold Room.headPoseChecks.
  destruct (30 <? abs (Room.yaw hp))%float; destruct (25 <? abs (Room.pitch hp))%float;
    unfold when.
  - erewrite bind_result, bind_state by apply addProctoringFlag_returns.
    split; [ apply addProctoringFlag_returns | ].
    eapply (grows_by_trans 1 1 c); [ apply grows_by_flag, Hq | ].
    apply grows_by_flag.
    destruct (addProctoringFlag_step q "HEAD_TURNED"
                (Room.HeadTurnedBy (Room.yaw hp)) c s) as (_ & Ho & _).
    cbn zeta in Ho. unfold outside_log in Ho.
    injection Ho as _ _ _ _ _ _ _ _ Hi. congruence.
  - erewrite bind_result, bind_state by apply addProctoringFlag_returns.
    split; [ reflexivity | ].
    apply (grows_by_le 1 2); [ lia | apply grows_by_flag, Hq ].
  - rewrite bind_ret. split; [ apply addProctoringFlag_returns | ].
    apply (grows_by_le 1 2); [ lia | apply grows_by_flag, Hq ].
  - split; [ reflexivity | apply grows_by_refl ].
Qed.

Lemma bind_throw (St Ev A B : Type) (e : string) (k : A -> Eff St Ev B) (s : St) :
  bind (throw e) k s = (Thrown B e, s, []).
Proof. reflexivity. Qed.

Lemma bind_modify (St Ev B : Type) (f : St -> St) (k : unit -> Eff St Ev B) (s : St) :
  bind (modify f) k s = k tt (f s).
Proof. unfold bind, modify. destruct (k tt (f s)) as [[r s2] t2]. reflexivity. Qed.

Lemma try_catch_returned (St Ev A : Type) (body : Eff St Ev A)
  (handler : string -> Eff St Ev A) (s : St) (a : A) :
  result_of (body s) = Returned a -> try_catch body handler s = body s.
Proof.
  unfold try_catch, result_of. destruct (body s) as [[r s1] t1]. cbn.
  intros ->. reflexivity.
Qed.

Lemma room_tick_grows (i : Room.tick_input) (s : Room.state) :
  let r := Room.detectionTick i s in
  result_of r = Returned tt
  /\ grows_by 2 (Room.at_time i) s (state_of r).
Proof.
  cbv zeta. unfold Room.detectionTick. rewrite bind_get. cbv zeta.
  assert (Hq : forall b, Room.intervalQuestionIndex s
                         = Room.intervalQuestionIndex (Room.set_faceDetected b s))
    by (intros b; destruct s; reflexivity).
  destruct (Room.ready i && Room.modelsLoaded s);
    [ | split; [ reflexivity | apply grows_by_refl ] ].
  unfold when.
  destruct (Room.detections i) as [ds|];
    [ | split; [ reflexivity | apply grows_by_refl ] ].
  destruct ((0 <? List.length ds)%nat && negb (Room.draw_ok i)) eqn:Edraw.
  { unfold try_catch. rewrite bind_ret, Edraw, bind_throw.
    split; [ reflexivity | apply grows_by_refl ]. }
  destruct ds as [|lm [|lm2 rest]].
  - erewrite try_catch_returned;
      rewrite bind_ret, Edraw, bind_ret, bind_modify;
      [ | apply addProctoringFlag_returns ].
    split; [ apply addProctoringFlag_returns | ].
    apply (grows_by_faceDetected 2 _ false), (grows_by_le 1 2);
      [ lia | apply grows_by_flag, Hq ].
  - destruct (Room.calculateHeadPose lm) as [hp|] eqn:Epose.
    + erewrite try_catch_returned;
        rewrite bind_ret, Edraw, bind_ret, bind_modify, Epose;
        [ | apply headPoseChecks_grows, Hq ].
      split; [ apply headPoseChecks_grows, Hq | ].
      apply (grows_by_faceDetected 2 _ true), headPoseChecks_grows, Hq.
    + unfold try_catch. rewrite bind_ret, Edraw, bind_ret, bind_modify, Epose.
      split; [ reflexivity | ].
      apply (grows_by_faceDetected 2 _ true). apply grows_by_refl.
  - erewrite try_catch_returned;
      rewrite bind_ret, Edraw, bind_ret, bind_modify;
      [ | apply addProctoringFlag_returns ].
    split; [ apply addProctoringFlag_returns | ].
    apply (grows_by_faceDetected 2 _ true), (grows_by_le 1 2);
      [ lia | apply grows_by_flag, Hq ].
Qed.

(** X15. The room's detection tick never throws.  While the page or the
    models are not ready it does nothing at all; when detection rejects, or
    when the single detected face lacks the nose-tip or jaw-bottom landmark,
    it logs the error and adds no flag. *)
Theorem room_tick_contains_every_failure (i : Room.tick_input) (s : Room.state) :
  let r := Room.detectionTick i s in
  result_of r = Returned tt
  /\ (Room.ready i && Room.modelsLoaded s = false ->
      state_of r = s /\ trace_of r = [])
  /\ (Room.ready i && Room.modelsLoaded s = true -> Room.detections i = None ->
      state_of r = s
      /\ trace_of r = [Room.ConsoleError "Face detection error:"])
  /\ (forall lm,
        Room.ready i && Room.modelsLoaded s = true ->
        Room.detections i = Some [lm] -> Room.draw_ok i = true ->
        Room.calculateHeadPose lm = None ->
        Room.proctoringFlags (state_of r) = Room.proctoringFlags s
        /\ trace_of r = [Room.ConsoleError "Face detection error:"]).
Proof.
  cbv zeta. split; [ apply room_tick_grows | ].
  unfold Room.detectionTick. rewrite bind_get.
  split; [ intros ->; split; reflexivity | ].
  split.
  - intros -> ->. split; reflexivity.
  - intros lm -> -> Hdraw Hpose. unfold when, try_catch.
    rewrite bind_ret, Hdraw. cbn [List.length Nat.ltb Nat.leb negb andb].
    rewrite bind_ret, bind_modify, Hpose.
    destruct s; split; reflexivity.
Qed.

(** A face without landmarks on a ready room. *)
Lemma room_tick_failure_witness :
  let lm := Room.mkLandmarks [] [] [] [] [] in
  let r := Room.detectionTick
             (Room.mkTick true (Some [lm]) true (Room.mkClock 0 0)) (Room.init true) in
  Room.proctoringFlags (state_of r) = []
  /\ trace_of r = [Room.ConsoleError "Face detection error:"].
Proof.
  cbv zeta.
  destruct (room_tick_contains_every_failure
              (Room.mkTick true (Some [Room.mkLandmarks [] [] [] [] []]) true
                 (Room.mkClock 0 0))
              (Room.init true)) as (_ & _ & _ & Hpose).
  apply (Hpose (Room.mkLandmarks [] [] [] [] [])); reflexivity.
Defined.

Lemma roomTicks_grow (inputs : list Room.tick_input) :
  forall s : Room.state,
  let s' := state_of (roomTicks inputs s) in
  outside_log s' = outside_log s
  /\ (exists new,
        Room.proctoringFlags s' = Room.proctoringFlags s ++ new
        /\ (List.length new <= 2 * List.length inputs)%nat)
  /\ (Forall (fun i => synchronous (Room.at_time i)) inputs ->
      well_spaced (Room.proctoringFlags s) ->
      well_spaced (Room.proctoringFlags s')).
Proof.
  induction inputs as [|i rest IH]; intros s; cbn zeta.
  - split; [ reflexivity | ]. split; [ | auto ].
    exists []. rewrite app_nil_r. split; [ reflexivity | cbn; lia ].
  - cbn [roomTicks].
    destruct (room_tick_grows i s) as (Hret & Ho & (n1 & Hl1 & Hn1 & _) & Hs1).
    erewrite bind_state by exact Hret.
    destruct (IH (state_of (Room.detectionTick i s))) as (IHo & (n2 & Hl2 & Hn2) & IHs).
    cbn zeta in *.
    split; [ congruence | ]. split.
    + exists (n1 ++ n2). rewrite Hl2, Hl1, app_assoc, length_app.
      split; [ reflexivity | cbn [List.length]; lia ].
    + intros Hsync Hsp. inversion Hsync; subst. auto.
Qed.

(** X16. Over any run of detection ticks the room's flag log only grows, by
    at most two flags per tick, and nothing else of the state but the
    face-detected indicator changes.  When every updater runs in the
    millisecond of its report, a log in which same-type flags are at least
    5000 ms apart stays so. *)
Theorem room_log_only_grows_and_stays_spaced
  (inputs : list Room.tick_input) (s : Room.state) :
  let s' := state_of (roomTicks inputs s) in
  outside_log s' = outside_log s
  /\ (exists new,
        Room.proctoringFlags s' = Room.proctoringFlags s ++ new
        /\ (List.length new <= 2 * List.length inputs)%nat)
  /\ (Forall (fun i => synchronous (Room.at_time i)) inputs ->
      well_spaced (Room.proctoringFlags s) ->
      well_spaced (Room.proctoringFlags s')).
Proof.
  cbv zeta.
  destruct (roomTicks_grow inputs s) as (Hout & Hgrow & Hspaced).
  split; [ exact Hout | split; [ exact Hgrow | exact Hspaced ] ].
Qed.

(** Three ticks without a face, 2 s apart, on an empty log. *)
Lemma room_log_witness :
  let tick t := Room.mkTick true (Some []) true (Room.mkClock t t) in
  well_spaced
    (Room.proctoringFlags
       (state_of (roomTicks [tick 0; tick 2000; tick 6000] (Room.init true)))).
Proof.
  cbv zeta.
  apply (room_log_only_grows_and_stays_spaced
           [Room.mkTick true (Some []) true (Room.mkClock 0 0);
            Room.mkTick true (Some []) true (Room.mkClock 2000 2000);
            Room.mkTick true (Some []) true (Room.mkClock 6000 6000)]
           (Room.init true)).
  - repeat constructor.
  - constructor.
Defined.

(** ** Start and cleanup of the room *)

Lemma room_cleanup_returns (s : Room.state) :
  exists s' t, Room.cleanup s = (Returned tt, s', t).
Proof.
  destruct s as [cq rec act log fd ml vs ss sr iv].
  unfold Room.cleanup.
  destruct iv, vs, ss, sr as [[]|]; eff_simpl; eauto.
Qed.

(** X18. [cleanup] of the room never throws and always ends with the
    session not recording, proctoring off and the screen recorder, if any,
    inactive; it stops the recorder only if it found it active.  Run again,
    it leaves the state as it is and stops no recorder. *)
Theorem room_cleanup_is_idempotent (s : Room.state) :
  let r1 := Room.cleanup s in
  let r2 := Room.cleanup (state_of r1) in
  result_of r1 = Returned tt
  /\ Room.isRecording (state_of r1) = false
  /\ Room.isProctoringActive (state_of r1) = false
  /\ room_recorder_idle (state_of r1) = true
  /\ List.length (filter is_room_recorder_stop (trace_of r1))
     = (if room_recorder_idle s then 0 else 1)%nat
  /\ state_of r2 = state_of r1
  /\ filter is_room_recorder_stop (trace_of r2) = [].
Proof.
  destruct s as [cq rec act log fd ml vs ss sr iv].
  unfold Room.cleanup, room_recorder_idle.
  destruct iv, vs, ss, sr as [[]|]; eff_simpl; repeat split; reflexivity.
Qed.

Lemma room_start_outcome (e : Room.start_env) (s : Room.state) :
  let r := Room.startInterview e s in
  result_of r = Returned tt
  /\ Room.isRecording (state_of r)
     = (if is_some _ (Room.getUserMedia e) then room_granted e
        else Room.isRecording s)
  /\ Room.detectionIntervalRef (state_of r)
     = Room.detectionIntervalRef s || (room_granted e && Room.modelsLoaded s)
  /\ List.length (filter is_room_interval (trace_of r))
     = (if room_granted e && Room.modelsLoaded s then 1 else 0)%nat
  /\ (Room.getUserMedia e = None ->
      state_of r = s
      /\ trace_of r
         = [Room.GetUserMedia; Room.ConsoleError "Error starting interview:";
            Room.ToastError (Room.Plain "Camera access is required for this interview")]).
Proof.
  destruct e as [cam disp srec].
  destruct s as [cq rec act log fd ml vs ss sr iv].
  unfold Room.startInterview, Room.cleanup, room_granted.
  assert (Hor : forall b : bool, b || false = b) by (intros []; reflexivity).
  destruct cam as [[]|], disp as [[]|], srec as [[]|], ml;
    eff_simpl; rewrite ?Hor, ?orb_true_r;
    first
      [ solve [ (do 4 (split; [ reflexivity | ]));
                intros E; first [ discriminate E | split; reflexivity ] ]
      | destruct iv, vs, ss, sr as [[]|]; eff_simpl;
        (do 4 (split; [ reflexivity | ]));
        intros E; first [ discriminate E | split; reflexivity ] ].
Qed.

(** X19. [startInterview] of the room never throws.  Once the camera is
    granted the session records exactly when the screen share and its
    recorder are granted too; when the camera is denied nothing changes and
    the screen share is not even requested.  The detection interval is set
    up only on a successful start with the models loaded, so a room whose
    models failed to load records without any detection. *)
Theorem room_start_needs_camera_and_screen (e : Room.start_env) (s : Room.state) :
  let r := Room.startInterview e s in
  result_of r = Returned tt
  /\ Room.isRecording (state_of r)
     = (if is_some _ (Room.getUserMedia e) then room_granted e
        else Room.isRecording s)
  /\ Room.detectionIntervalRef (state_of r)
     = Room.detectionIntervalRef s || (room_granted e && Room.modelsLoaded s)
  /\ List.length (filter is_room_interval (trace_of r))
     = (if room_granted e && Room.modelsLoaded s then 1 else 0)%nat
  /\ (Room.getUserMedia e = None ->
      state_of r = s
      /\ trace_of r
         = [Room.GetUserMedia; Room.ConsoleError "Error starting interview:";
            Room.ToastError (Room.Plain "Camera access is required for this interview")]).
Proof.
  cbv zeta.
  destruct (room_start_outcome e s) as (Hret & Hrec & Hiv & Hcount & Hcam).
  split; [ exact Hret | split; [ exact Hrec | split; [ exact Hiv | ] ] ].
  split; [ exact Hcount | exact Hcam ].
Qed.

(** The camera is denied. *)
Lemma room_start_witness :
  let r := Room.startInterview (Room.mkStartEnv None (Some tt) (Some tt))
             (Room.init true) in
  state_of r = Room.init true.
Proof.
  cbv zeta.
  apply (room_start_needs_camera_and_screen
           (Room.mkStartEnv None (Some tt) (Some tt)) (Room.init true)).
  reflexivity.
Defined.

(** ** Answers and submission in the room *)

Lemma with_answer_same (k : Z) (v : string) (m : RoomForm.answers_map) :
  RoomForm.with_answer k v m k = Some v.
Proof. unfold RoomForm.with_answer. now rewrite Z.eqb_refl. Qed.

Lemma with_answer_other (k k' : Z) (v : string) (m : RoomForm.answers_map) :
  k' <> k -> RoomForm.with_answer k v m k' = m k'.
Proof.
  intros H. unfold RoomForm.with_answer.
  destruct (k' =? k) eqn:E; [ apply Z.eqb_eq in E; contradiction | reflexivity ].
Qed.

Lemma room_cleanup_facts (rs : Room.state) :
  Room.isRecording (state_of (Room.cleanup rs)) = false
  /\ Room.currentQuestionIndex (state_of (Room.cleanup rs))
     = Room.currentQuestionIndex rs
  /\ filter is_oncomplete (map RoomForm.InRoom (trace_of (Room.cleanup rs))) = [].
Proof.
  destruct rs as [cq rec act log fd ml vs ss sr iv].
  unfold Room.cleanup.
  destruct iv, vs, ss, sr as [[]|]; eff_simpl; repeat split; reflexivity.
Qed.

Section FormFacts.

Variable blank : string -> bool.
Variable questions : list RoomForm.question.

(** What [handleNextQuestion] does before the last question. *)
Lemma next_advances (completes : option unit) (s : RoomForm.state)
  (q : RoomForm.question) :
  blank (RoomForm.currentAnswer s) = false ->
  nth_error questions (form_index s) = Some q ->
  (form_index s + 1 < List.length questions)%nat ->
  RoomForm.handleNextQuestion blank questions completes s
  = (Returned tt,
     RoomForm.set_currentAnswer ""
       (RoomForm.set_room
          (RoomForm.set_currentQuestionIndex (form_index s + 1) (RoomForm.room s))
          (RoomForm.set_answers
             (RoomForm.with_answer (RoomForm.question_id q)
                (RoomForm.currentAnswer s) (RoomForm.answers s)) s)),
     [RoomForm.InRoom (Room.ToastSuccess "Answer saved")]).
Proof.
  unfold form_index. intros Hb Hq Hlt.
  unfold RoomForm.handleNextQuestion. rewrite bind_get, Hb.
  unfold RoomForm.question_id_at. rewrite Hq, bind_ret, bind_modify.
  destruct (_ <? _) eqn:E; [ | apply Z.ltb_ge in E; lia ].
  destruct s as [[cq rec act log fd ml vs ss sr iv] ans cur fl il].
  reflexivity.
Qed.

(** What [handleSubmitInterview] does on a question that exists. *)
Lemma submit_outcome (completes : option unit) (rendered s : RoomForm.state)
  (q : RoomForm.question) :
  nth_error questions (form_index rendered) = Some q ->
  let final := RoomForm.with_answer (RoomForm.question_id q)
                 (RoomForm.currentAnswer rendered) (RoomForm.answers rendered) in
  let r := RoomForm.handleSubmitInterview questions rendered completes s in
  result_of r = Returned tt
  /\ state_of r = RoomForm.set_room (state_of (Room.cleanup (RoomForm.room s))) s
  /\ trace_of r
     = map RoomForm.InRoom (trace_of (Room.cleanup (RoomForm.room s)))
       ++ [RoomForm.ToastLoading "Submitting interview..."; RoomForm.OnComplete final]
       ++ match completes with
          | Some _ =>
              [RoomForm.ToastDismiss;
               RoomForm.InRoom (Room.ToastSuccess "Interview submitted successfully!")]
          | None =>
              [RoomForm.InRoom
                 (Room.ToastError (Room.Plain "Failed to submit interview"));
               RoomForm.InRoom (Room.ConsoleError "onComplete failed")]
          end.
Proof.
  unfold form_index. intros Hq. cbv zeta.
  unfold RoomForm.handleSubmitInterview, RoomForm.question_id_at, RoomForm.inRoom.
  rewrite Hq.
  destruct (room_cleanup_returns (RoomForm.room s)) as [rs [t E]].
  unfold try_catch, bind, ret, await, emit, throw, RoomForm.toast_success,
    RoomForm.toast_error, state_of, trace_of, result_of.
  rewrite E. destruct completes as [[]|]; cbn; rewrite ?app_nil_r;
    repeat split; try reflexivity;
    rewrite <- ?app_assoc; reflexivity.
Qed.

(** At the last question [handleNextQuestion] hands over to
    [handleSubmitInterview]. *)
Lemma next_submits (completes : option unit) (s : RoomForm.state)
  (q : RoomForm.question) :
  blank (RoomForm.currentAnswer s) = false ->
  nth_error questions (form_index s) = Some q ->
  (List.length questions <= form_index s + 1)%nat ->
  RoomForm.handleNextQuestion blank questions completes s
  = RoomForm.handleSubmitInterview questions s completes
      (RoomForm.set_answers
         (RoomForm.with_answer (RoomForm.question_id q)
            (RoomForm.currentAnswer s) (RoomForm.answers s)) s).
Proof.
  unfold form_index. intros Hb Hq Hlast.
  unfold RoomForm.handleNextQuestion. rewrite bind_get, Hb.
  unfold RoomForm.question_id_at. rewrite Hq, bind_ret, bind_modify.
  destruct (_ <? _) eqn:E; [ apply Z.ltb_lt in E; lia | reflexivity ].
Qed.

(** What [handlePreviousQuestion] does past the first question. *)
Lemma previous_outcome (s : RoomForm.state) (q : RoomForm.question) :
  (0 < form_index s)%nat ->
  nth_error questions (form_index s - 1) = Some q ->
  RoomForm.handlePreviousQuestion questions s
  = (Returned tt,
     RoomForm.set_currentAnswer
       (RoomForm.answer_or_empty (RoomForm.answers s) (RoomForm.question_id q))
       (RoomForm.set_room
          (RoomForm.set_currentQuestionIndex (form_index s - 1) (RoomForm.room s))
          s),
     []).
Proof.
  unfold form_index. intros Hpos Hq.
  unfold RoomForm.handlePreviousQuestion. rewrite bind_get.
  apply Nat.ltb_lt in Hpos. rewrite Hpos, bind_modify.
  unfold RoomForm.question_id_at. rewrite Hq, bind_ret.
  destruct s as [[cq rec act log fd ml vs ss sr iv] ans cur fl il].
  reflexivity.
Qed.

End FormFacts.

(** X20. [handleNextQuestion] refuses a blank answer: it shows an error
    and changes nothing, so neither the cursor moves nor is anything
    saved or submitted. *)
Theorem blank_answer_is_refused
  (blank : string -> bool) (questions : list RoomForm.question)
  (completes : option unit) (s : RoomForm.state) :
  blank (RoomForm.currentAnswer s) = true ->
  RoomForm.handleNextQuestion blank questions completes s
  = (Returned tt, s,
     [RoomForm.InRoom
        (Room.ToastError (Room.Plain "Please provide an answer before continuing"))]).
Proof.
  intros Hb. unfold RoomForm.handleNextQuestion. rewrite bind_get, Hb.
  reflexivity.
Qed.

(** The empty answer of a fresh room. *)
Lemma blank_answer_witness :
  state_of (RoomForm.handleNextQuestion (fun a => String.eqb a "")
              [RoomForm.mkQuestion 7 "Q" "c"] (Some tt) RoomForm.init)
  = RoomForm.init.
Proof.
  cbv zeta.
  rewrite (blank_answer_is_refused (fun a => String.eqb a "")
             [RoomForm.mkQuestion 7 "Q" "c"] (Some tt) RoomForm.init);
    reflexivity.
Defined.

(** X21. Saving an answer and going back restores it.  Before the last
    question, typing a non-blank answer and asking for the next question
    stores the answer under the question's id, moves the cursor up and
    clears the text box, without submitting; [handlePreviousQuestion] then
    moves the cursor back and puts the stored answer into the text box,
    leaving the stored answers as they are. *)
Theorem next_then_previous_restores_answer
  (blank : string -> bool) (questions : list RoomForm.question)
  (completes : option unit) (s : RoomForm.state) (q : RoomForm.question)
  (a : string) :
  blank a = false ->
  nth_error questions (form_index s) = Some q ->
  (form_index s + 1 < List.length questions)%nat ->
  let s1 := state_of (RoomForm.handleAnswerChange a s) in
  let r2 := RoomForm.handleNextQuestion blank questions completes s1 in
  let r3 := RoomForm.handlePreviousQuestion questions (state_of r2) in
  form_index (state_of r2) = (form_index s + 1)%nat
  /\ RoomForm.currentAnswer (state_of r2) = ""
  /\ RoomForm.answers (state_of r2) (RoomForm.question_id q) = Some a
  /\ (forall k, k <> RoomForm.question_id q ->
        RoomForm.answers (state_of r2) k = RoomForm.answers s k)
  /\ filter is_oncomplete (trace_of r2) = []
  /\ result_of r3 = Returned tt
  /\ form_index (state_of r3) = form_index s
  /\ RoomForm.currentAnswer (state_of r3) = a
  /\ RoomForm.answers (state_of r3) = RoomForm.answers (state_of r2).
Proof.
  intros Hb Hq Hlt s1 r2 r3.
  assert (E2 : r2 = RoomForm.handleNextQuestion blank questions completes s1)
    by reflexivity.
  rewrite (next_advances blank questions completes s1 q) in E2;
    [ | destruct s; exact Hb | destruct s; exact Hq | destruct s; exact Hlt ].
  assert (E3 : r3 = RoomForm.handlePreviousQuestion questions (state_of r2))
    by reflexivity.
  clearbody r3. clearbody r2. subst r2.
  unfold state_of at 1 in E3. cbn [fst snd] in E3.
  rewrite (previous_outcome questions _ q) in E3.
  - subst r3. unfold state_of, trace_of, result_of, form_index. cbn [fst snd].
    destruct s as [[cq rec act log fd ml vs ss sr iv] ans cur fl il].
    cbn. unfold RoomForm.answer_or_empty. rewrite with_answer_same.
    replace (cq + 1 - 1)%nat with cq by lia.
    repeat split; try reflexivity.
    intros k Hk. now apply with_answer_other.
  - destruct s as [[cq rec act log fd ml vs ss sr iv] ans cur fl il].
    unfold form_index. cbn. lia.
  - destruct s as [[cq rec act log fd ml vs ss sr iv] ans cur fl il].
    unfold form_index in *. cbn in *.
    replace (cq + 1 - 1)%nat with cq by lia. exact Hq.
Qed.

(** The first of two questions, answered and revisited. *)
Lemma next_then_previous_witness :
  let qs := [RoomForm.mkQuestion 7 "Q1" "c"; RoomForm.mkQuestion 9 "Q2" "c"] in
  let blank a := String.eqb a "" in
  let s1 := state_of (RoomForm.handleAnswerChange "forty-two" RoomForm.init) in
  let s2 := state_of (RoomForm.handleNextQuestion blank qs (Some tt) s1) in
  RoomForm.currentAnswer (state_of (RoomForm.handlePreviousQuestion qs s2))
  = "forty-two".
Proof.
  cbv zeta.
  apply (next_then_previous_restores_answer (fun a => String.eqb a "")
           [RoomForm.mkQuestion 7 "Q1" "c"; RoomForm.mkQuestion 9 "Q2" "c"]
           (Some tt) RoomForm.init (RoomForm.mkQuestion 7 "Q1" "c") "forty-two");
    [ reflexivity | reflexivity | cbn; lia ].
Defined.

(** X22. On the last question a non-blank answer is submitted: the room is
    cleaned up first, so it is no longer recording, and [onComplete] is
    called exactly once, with the stored answers plus the answer on screen
    under the last question's id.  The handler returns either way; when
    [onComplete] rejects it shows an error instead of the success message,
    and the room stays stopped. *)
Theorem last_answer_is_submitted_once
  (blank : string -> bool) (questions : list RoomForm.question)
  (completes : option unit) (s : RoomForm.state) (q : RoomForm.question) :
  blank (RoomForm.currentAnswer s) = false ->
  nth_error questions (form_index s) = Some q ->
  (List.length questions <= form_index s + 1)%nat ->
  let final := RoomForm.with_answer (RoomForm.question_id q)
                 (RoomForm.currentAnswer s) (RoomForm.answers s) in
  let r := RoomForm.handleNextQuestion blank questions completes s in
  result_of r = Returned tt
  /\ filter is_oncomplete (trace_of r) = [RoomForm.OnComplete final]
  /\ final (RoomForm.question_id q) = Some (RoomForm.currentAnswer s)
  /\ (forall k, k <> RoomForm.question_id q -> final k = RoomForm.answers s k)
  /\ Room.isRecording (RoomForm.room (state_of r)) = false
  /\ form_index (state_of r) = form_index s
  /\ last (trace_of r) RoomForm.ToastDismiss
     = match completes with
       | Some _ => RoomForm.InRoom (Room.ToastSuccess "Interview submitted successfully!")
       | None => RoomForm.InRoom (Room.ConsoleError "onComplete failed")
       end
  /\ (completes = None ->
      In (RoomForm.InRoom (Room.ToastError (Room.Plain "Failed to submit interview")))
         (trace_of r)).
Proof.
  intros Hb Hq Hlast final r.
  assert (Er : r = RoomForm.handleSubmitInterview questions
                     s completes
                     (RoomForm.set_answers final s))
    by (apply next_submits; assumption).
  destruct (submit_outcome questions completes s (RoomForm.set_answers final s) q Hq)
    as (Hres & Hst & Htr).
  rewrite <- Er in Hres, Hst, Htr. fold final in Htr.
  destruct (room_cleanup_facts (RoomForm.room (RoomForm.set_answers final s)))
    as (Hrec & Hidx & Hnoc).
  split; [ exact Hres | ].
  split.
  { rewrite Htr, !filter_app, Hnoc. destruct completes as [[]|]; reflexivity. }
  split; [ apply with_answer_same | ].
  split; [ intros k Hk; now apply with_answer_other | ].
  split; [ rewrite Hst; exact Hrec | ].
  split; [ unfold form_index; rewrite Hst; cbn [RoomForm.room RoomForm.set_room];
           rewrite Hidx; destruct s; reflexivity | ].
  split.
  { rewrite Htr, !app_assoc. destruct completes as [[]|].
    - change [RoomForm.ToastDismiss;
              RoomForm.InRoom (Room.ToastSuccess "Interview submitted successfully!")]
        with ([RoomForm.ToastDismiss]
              ++ [RoomForm.InRoom (Room.ToastSuccess "Interview submitted successfully!")]).
      rewrite app_assoc. apply last_last.
    - change [RoomForm.InRoom (Room.ToastError (Room.Plain "Failed to submit interview"));
              RoomForm.InRoom (Room.ConsoleError "onComplete failed")]
        with ([RoomForm.InRoom (Room.ToastError (Room.Plain "Failed to submit interview"))]
              ++ [RoomForm.InRoom (Room.ConsoleError "onComplete failed")]).
      rewrite app_assoc. apply last_last. }
  intros ->. rewrite Htr. apply in_or_app. right. apply in_or_app. right. cbn. auto.
Qed.

(** The only question of a recording room, answered. *)
Lemma last_answer_witness :
  let qs := [RoomForm.mkQuestion 7 "Q1" "c"] in
  let s := RoomForm.set_currentAnswer "done"
             (RoomForm.set_room (Room.set_recording true (Room.init true))
                RoomForm.init) in
  let r := RoomForm.handleNextQuestion (fun a => String.eqb a "") qs None s in
  result_of r = Returned tt
  /\ Room.isRecording (RoomForm.room (state_of r)) = false.
Proof.
  cbv zeta.
  destruct (last_answer_is_submitted_once (fun a => String.eqb a "")
              [RoomForm.mkQuestion 7 "Q1" "c"] None
              (RoomForm.set_currentAnswer "done"
                 (RoomForm.set_room (Room.set_recording true (Room.init true))
                    RoomForm.init))
              (RoomForm.mkQuestion 7 "Q1" "c"))
    as (Hret & _ & _ & _ & Hrec & _);
    [ reflexivity | reflexivity | cbn; lia | ].
  split; [ exact Hret | exact Hrec ].
Defined.

Section AnswerAll.

Variable blank : string -> bool.
Variable questions : list RoomForm.question.
Variable completes : option unit.
Hypothesis distinct_ids : NoDup (map RoomForm.question_id questions).

Lemma ids_differ (i j : nat) (p q : RoomForm.question) :
  nth_error questions i = Some p -> nth_error questions j = Some q ->
  i <> j -> RoomForm.question_id p <> RoomForm.question_id q.
Proof.
  intros Hp Hq Hij Heq. apply Hij.
  apply (proj1 (NoDup_nth_error _) distinct_ids).
  - rewrite length_map. apply nth_error_Some. congruence.
  - rewrite !nth_error_map, Hp, Hq. cbn. now rewrite Heq.
Qed.

Lemma next_returns (s : RoomForm.state) (q : RoomForm.question) :
  blank (RoomForm.currentAnswer s) = false ->
  nth_error questions (form_index s) = Some q ->
  result_of (RoomForm.handleNextQuestion blank questions completes s) = Returned tt.
Proof.
  intros Hb Hq.
  destruct (Nat.lt_ge_cases (form_index s + 1) (List.length questions)) as [Hlt | Hge].
  - now rewrite (next_advances blank questions completes s q).
  - rewrite (next_submits blank questions completes s q) by assumption.
    now apply (submit_outcome questions completes s _ q).
Qed.

Lemma answerAll_from (texts : list string) :
  forall s : RoomForm.state,
  texts <> [] ->
  (form_index s + List.length texts = List.length questions)%nat ->
  Forall (fun a => blank a = false) texts ->
  exists m,
    filter is_oncomplete (trace_of (answerAll blank questions completes texts s))
    = [RoomForm.OnComplete m]
    /\ (forall j q a,
          nth_error questions (form_index s + j) = Some q ->
          nth_error texts j = Some a ->
          m (RoomForm.question_id q) = Some a)
    /\ (forall k,
          (forall j q, (j < List.length texts)%nat ->
                       nth_error questions (form_index s + j) = Some q ->
                       RoomForm.question_id q <> k) ->
          m k = RoomForm.answers s k).
Proof.
  induction texts as [|a rest IH]; intros s Hne Hlen Hnb; [ congruence | ].
  inversion Hnb as [|? ? Ha Hrest]; subst.
  cbn [List.length] in Hlen.
  destruct (nth_error questions (form_index s)) as [q0|] eqn:Hq0;
    [ | apply nth_error_None in Hq0; lia ].
  set (s1 := RoomForm.set_currentAnswer a s).
  assert (Hidx1 : form_index s1 = form_index s) by (destruct s; reflexivity).
  assert (Hans1 : RoomForm.answers s1 = RoomForm.answers s) by (destruct s; reflexivity).
  assert (Hcur1 : RoomForm.currentAnswer s1 = a) by (destruct s; reflexivity).
  assert (Hq1 : nth_error questions (form_index s1) = Some q0) by now rewrite Hidx1.
  assert (Hb1 : blank (RoomForm.currentAnswer s1) = false) by now rewrite Hcur1.
  cbn [answerAll]. unfold RoomForm.handleAnswerChange. rewrite bind_modify. fold s1.
  erewrite bind_trace by (apply (next_returns s1 q0); assumption).
  destruct rest as [|b rest'].
  - (* the last question *)
    cbn [List.length] in Hlen.
    rewrite (next_submits blank questions completes s1 q0) by (try assumption; lia).
    destruct (submit_outcome questions completes s1
                (RoomForm.set_answers
                   (RoomForm.with_answer (RoomForm.question_id q0)
                      (RoomForm.currentAnswer s1) (RoomForm.answers s1)) s1)
                q0 Hq1) as (_ & _ & Htr).
    destruct (room_cleanup_facts
                (RoomForm.room
                   (RoomForm.set_answers
                      (RoomForm.with_answer (RoomForm.question_id q0)
                         (RoomForm.currentAnswer s1) (RoomForm.answers s1)) s1)))
      as (_ & _ & Hnoc).
    rewrite Htr. rewrite Hcur1, Hans1 in *.
    eexists. split; [ | split ].
    + cbn [answerAll ret trace_of snd]. rewrite app_nil_r, !filter_app, Hnoc.
      destruct completes as [[]|]; reflexivity.
    + intros j q a' Hq Ha'. destruct j as [|j]; [ | destruct j; discriminate Ha' ].
      injection Ha' as <-. rewrite Nat.add_0_r, Hq0 in Hq. injection Hq as <-.
      apply with_answer_same.
    + intros k Hk. apply with_answer_other. intros ->.
      apply (Hk 0%nat q0); [ cbn; lia | now rewrite Nat.add_0_r | reflexivity ].
  - (* a question before the last *)
    cbn [List.length] in Hlen.
    rewrite (next_advances blank questions completes s1 q0) by (try assumption; lia).
    unfold state_of at 1, trace_of at 1. cbn [fst snd].
    set (s2 := RoomForm.set_currentAnswer "" _).
    assert (Hidx2 : form_index s2 = (form_index s + 1)%nat).
    { subst s2. rewrite Hidx1. destruct s as [[]]; reflexivity. }
    assert (Hans2 : RoomForm.answers s2
                    = RoomForm.with_answer (RoomForm.question_id q0) a
                        (RoomForm.answers s)).
    { subst s2. rewrite Hcur1, Hans1. destruct s as [[]]; reflexivity. }
    destruct (IH s2) as (m & Hm & Hget & Hkeep);
      [ discriminate | rewrite Hidx2; cbn [List.length]; lia | exact Hrest | ].
    exists m. split; [ | split ].
    + cbn [app filter is_oncomplete]. exact Hm.
    + intros j q a' Hq Ha'. destruct j as [|j].
      * injection Ha' as <-. rewrite Nat.add_0_r, Hq0 in Hq. injection Hq as <-.
        rewrite Hkeep, Hans2; [ apply with_answer_same | ].
        intros j q Hj Hq. rewrite Hidx2 in Hq.
        apply (ids_differ (form_index s + 1 + j) (form_index s)); auto; lia.
      * apply (Hget j q a'); [ | exact Ha' ].
        rewrite Hidx2. now replace (form_index s + 1 + j)%nat
                          with (form_index s + S j)%nat by lia.
    + intros k Hk. rewrite Hkeep, Hans2.
      * apply with_answer_other. intros ->.
        apply (Hk 0%nat q0); [ cbn; lia | now rewrite Nat.add_0_r | reflexivity ].
      * intros j q Hj Hq. rewrite Hidx2 in Hq.
        apply (Hk (S j) q); [ cbn [List.length] in *; lia | ].
        now replace (form_index s + S j)%nat with (form_index s + 1 + j)%nat by lia.
Qed.

End AnswerAll.

(** X23. Answering every question in turn submits every answer.  With
    pairwise distinct question ids and one non-blank answer per question,
    typing each answer and asking for the next question, from the first
    question on, ends in exactly one call of [onComplete], and the answers
    it receives hold, for each question, the answer given to it. *)
Theorem answering_all_questions_submits_all_answers
  (blank : string -> bool) (questions : list RoomForm.question)
  (completes : option unit) (texts : list string) (s : RoomForm.state) :
  NoDup (map RoomForm.question_id questions) ->
  questions <> [] ->
  List.length texts = List.length questions ->
  Forall (fun a => blank a = false) texts ->
  form_index s = 0%nat ->
  exists m,
    filter is_oncomplete (trace_of (answerAll blank questions completes texts s))
    = [RoomForm.OnComplete m]
    /\ forall i q a,
         nth_error questions i = Some q -> nth_error texts i = Some a ->
         m (RoomForm.question_id q) = Some a.
Proof.
  intros Hnd Hne Hlen Hnb Hidx.
  destruct (answerAll_from blank questions completes Hnd texts s) as (m & Hm & Hget & _).
  - intros ->. destruct questions; [ congruence | discriminate Hlen ].
  - rewrite Hidx. exact Hlen.
  - exact Hnb.
  - exists m. split; [ exact Hm | ].
    intros i q a Hq Ha. apply (Hget i q a); [ now rewrite Hidx | exact Ha ].
Qed.

(** Three questions and three answers, with a submission that fails. *)
Lemma answering_all_witness :
  let qs := [RoomForm.mkQuestion 7 "Q1" "c"; RoomForm.mkQuestion 9 "Q2" "c";
             RoomForm.mkQuestion 4 "Q3" "c"] in
  exists m,
    filter is_oncomplete
      (trace_of (answerAll (fun a => String.eqb a "") qs None ["a"; "b"; "c"]
                   RoomForm.init))
    = [RoomForm.OnComplete m]
    /\ m 9 = Some "b".
Proof.
  cbv zeta.
  destruct (answering_all_questions_submits_all_answers
              (fun a => String.eqb a "")
              [RoomForm.mkQuestion 7 "Q1" "c"; RoomForm.mkQuestion 9 "Q2" "c";
               RoomForm.mkQuestion 4 "Q3" "c"]
              None ["a"; "b"; "c"] RoomForm.init) as (m & Hm & Hget).
  - cbn. repeat constructor; cbn; intuition discriminate.
  - discriminate.
  - reflexivity.
  - repeat constructor.
  - reflexivity.
  - exists m. split; [ exact Hm | ].
    apply (Hget 1%nat (RoomForm.mkQuestion 9 "Q2" "c") "b"); reflexivity.
Defined.

(** ** The question index a flag carries *)

Lemma room_start_captures_index (e : Room.start_env) (s : Room.state) :
  room_granted e = true -> Room.modelsLoaded s = true ->
  Room.intervalQuestionIndex (state_of (Room.startInterview e s))
  = Room.currentQuestionIndex s.
Proof.
  destruct e as [[[]|] [[]|] [[]|]]; intros Hg; try discriminate Hg.
  destruct s as [cq rec act log fd ml vs ss sr iv iq].
  cbn [Room.modelsLoaded]. intros ->. reflexivity.
Qed.

(** X17. A ready tick that finds no face clears the face-detected indicator
    and reports NO_FACE; one that finds two or more sets the indicator and
    reports MULTIPLE_FACES with the number of faces in its text.  Unless a
    flag of that type is less than 5000 ms old, the report is appended to
    the log and sent to the server, and for MULTIPLE_FACES always shown as
    a toast; no other flag is added.  The flag carries the question index
    held by the interval's callback, which is the index that was current
    when the interview was started: saving an answer moves the current
    index on, but not the one the flags carry. *)
Theorem room_flags_carry_the_question_of_start
  (s : Room.state) (ds : list Room.landmarks) (c : Room.clock) :
  Room.modelsLoaded s = true ->
  List.length ds <> 1%nat ->
  let ty := match ds with [] => "NO_FACE" | _ => "MULTIPLE_FACES" end in
  let d := match ds with
           | [] => Room.Plain "No face detected in frame"
           | _ => Room.Plain (show_nat (List.length ds) ++ " faces detected")
           end in
  let f := Room.mkFlag ty d (Room.called_at c) (Room.intervalQuestionIndex s) in
  Room.recentFlag ty (Room.applied_at c) (Room.proctoringFlags s) = None ->
  let r := Room.detectionTick (Room.mkTick true (Some ds) true c) s in
  Room.faceDetected (state_of r) = negb (List.length ds =? 0)%nat
  /\ added s r = [f]
  /\ In (Room.PostProctor f) (trace_of r)
  /\ (ds <> [] -> trace_of r = [Room.PostProctor f; Room.ToastError d])
  /\ (forall (e : Room.start_env) (s0 : Room.state),
        room_granted e = true -> Room.modelsLoaded s0 = true ->
        Room.intervalQuestionIndex (state_of (Room.startInterview e s0))
        = Room.currentQuestionIndex s0)
  /\ (forall (blank : string -> bool) (questions : list RoomForm.question)
             (completes : option unit) (fs : RoomForm.state)
             (q : RoomForm.question),
        blank (RoomForm.currentAnswer fs) = false ->
        nth_error questions (form_index fs) = Some q ->
        (form_index fs + 1 < List.length questions)%nat ->
        let fs' := state_of (RoomForm.handleNextQuestion blank questions completes fs) in
        form_index fs' = (form_index fs + 1)%nat
        /\ Room.intervalQuestionIndex (RoomForm.room fs')
           = Room.intervalQuestionIndex (RoomForm.room fs)).
Proof.
  intros Hloaded Hlen.
  assert (Hreport : forall (ty : string) (d : Room.description) (b : bool),
            Room.recentFlag ty (Room.applied_at c) (Room.proctoringFlags s) = None ->
            let f := Room.mkFlag ty d (Room.called_at c) (Room.intervalQuestionIndex s) in
            Room.addProctoringFlag (Room.intervalQuestionIndex s) ty d c
              (Room.set_faceDetected b s)
            = (Returned tt,
               Room.set_proctoringFlags (Room.proctoringFlags s ++ [f])
                 (Room.set_faceDetected b s),
               calls_for f (Room.proctoringFlags s))).
  { intros ty d b Hfresh. cbv zeta.
    rewrite addProctoringFlag_recorded by (destruct s; exact Hfresh).
    destruct s; reflexivity. }
  assert (Hform : forall (blank : string -> bool) (questions : list RoomForm.question)
             (completes : option unit) (fs : RoomForm.state)
             (q : RoomForm.question),
        blank (RoomForm.currentAnswer fs) = false ->
        nth_error questions (form_index fs) = Some q ->
        (form_index fs + 1 < List.length questions)%nat ->
        let fs' := state_of (RoomForm.handleNextQuestion blank questions completes fs) in
        form_index fs' = (form_index fs + 1)%nat
        /\ Room.intervalQuestionIndex (RoomForm.room fs')
           = Room.intervalQuestionIndex (RoomForm.room fs)).
  { intros blank questions completes fs q Hb Hq Hlt. cbv zeta.
    rewrite (next_advances blank questions completes fs q Hb Hq Hlt).
    destruct fs as [[cq rec act log fd ml vs ss sr iv iq] ans cur fl il].
    split; reflexivity. }
  unfold Room.detectionTick. rewrite bind_get. cbv zeta.
  cbn [Room.ready Room.detections Room.draw_ok Room.at_time andb].
  rewrite Hloaded. unfold when.
  destruct ds as [|lm [|lm2 rest]]; [ | cbn in Hlen; congruence | ];
    cbv beta iota zeta; intros Hfresh;
    (erewrite try_catch_returned;
     rewrite bind_ret; cbn [List.length Nat.ltb Nat.leb negb andb];
     rewrite bind_ret, bind_modify, (Hreport _ _ _ Hfresh); [ | reflexivity ]);
    unfold added, state_of, trace_of; cbn [fst snd];
    (split; [ destruct s; reflexivity | ]);
    (split; [ destruct s; cbn; rewrite skipn_app_exact; reflexivity | ]);
    (split; [ cbn; auto | ]);
    (split; [ intros Hne; try congruence; reflexivity | ]);
    (split; [ exact room_start_captures_index | exact Hform ]).
Qed.

(** The interview is started on the first of two questions, the first
    answer is saved, and then a tick finds no face: the current question is
    the second, but the flag says the first. *)
Lemma stale_question_index_witness :
  let qs := [RoomForm.mkQuestion 7 "Q1" "c"; RoomForm.mkQuestion 9 "Q2" "c"] in
  let started :=
    RoomForm.set_room
      (state_of (Room.startInterview (Room.mkStartEnv (Some tt) (Some tt) (Some tt))
                   (Room.init true)))
      RoomForm.init in
  let answered :=
    state_of (RoomForm.handleNextQuestion (fun a => String.eqb a "") qs (Some tt)
                (state_of (RoomForm.handleAnswerChange "forty-two" started))) in
  let s := RoomForm.room answered in
  let r := Room.detectionTick
             (Room.mkTick true (Some []) true (Room.mkClock 7000 7000)) s in
  Room.currentQuestionIndex s = 1%nat
  /\ added s r
     = [Room.mkFlag "NO_FACE" (Room.Plain "No face detected in frame") 7000 0].
Proof.
  cbv zeta.
  split; [ reflexivity | ].
  destruct (room_flags_carry_the_question_of_start
              (RoomForm.room
                 (state_of
                    (RoomForm.handleNextQuestion (fun a => String.eqb a "")
                       [RoomForm.mkQuestion 7 "Q1" "c"; RoomForm.mkQuestion 9 "Q2" "c"]
                       (Some tt)
                       (state_of
                          (RoomForm.handleAnswerChange "forty-two"
                             (RoomForm.set_room
                                (state_of
                                   (Room.startInterview
                                      (Room.mkStartEnv (Some tt) (Some tt) (Some tt))
                                      (Room.init true)))
                                RoomForm.init))))))
              [] (Room.mkClock 7000 7000))
    as (_ & Hadded & _);
    [ reflexivity | cbn; lia | reflexivity | exact Hadded ].
Defined.

(** ** Loading the detection models *)

(** X24. [loadFaceApi] never throws and always ends the loading state, so
    the start button appears whether or not detection is available.  The
    models count as loaded afterwards exactly when they were before or the
    script and all three models loaded now.  If they are not loaded, a
    start of the interview that succeeds sets up no detection interval:
    the room records without proctoring. *)
Theorem model_loading_always_finishes
  (e : RoomForm.load_env) (s : RoomForm.state) :
  let r := RoomForm.loadFaceApi e s in
  result_of r = Returned tt
  /\ RoomForm.isLoading (state_of r) = false
  /\ Room.modelsLoaded (RoomForm.room (state_of r))
     = Room.modelsLoaded (RoomForm.room s) || models_available e
  /\ RoomForm.answers (state_of r) = RoomForm.answers s
  /\ (forall (env : Room.start_env),
        Room.modelsLoaded (RoomForm.room (state_of r)) = false ->
        room_granted env = true ->
        let started := RoomForm.inRoom (Room.startInterview env) (state_of r) in
        Room.isRecording (RoomForm.room (state_of started)) = true
        /\ Room.detectionIntervalRef (RoomForm.room (state_of started))
           = Room.detectionIntervalRef (RoomForm.room s)
        /\ filter is_form_interval (trace_of started) = []).
Proof.
  cbv zeta.
  assert (Hload :
    result_of (RoomForm.loadFaceApi e s) = Returned tt
    /\ RoomForm.isLoading (state_of (RoomForm.loadFaceApi e s)) = false
    /\ Room.modelsLoaded (RoomForm.room (state_of (RoomForm.loadFaceApi e s)))
       = Room.modelsLoaded (RoomForm.room s) || models_available e
    /\ RoomForm.answers (state_of (RoomForm.loadFaceApi e s)) = RoomForm.answers s
    /\ Room.detectionIntervalRef (RoomForm.room (state_of (RoomForm.loadFaceApi e s)))
       = Room.detectionIntervalRef (RoomForm.room s)).
  { destruct e as [has script n1 n2 n3].
    destruct s as [[cq rec act log fd ml vs ss sr iv] ans cur fl il].
    unfold RoomForm.loadFaceApi, RoomForm.loadModels, RoomForm.all_nets,
      RoomForm.toast_error, RoomForm.toast_success, models_available.
    destruct has, script, n1 as [[]|], n2 as [[]|], n3 as [[]|]; eff_simpl;
      rewrite ?orb_true_r, ?orb_false_r; repeat split; reflexivity. }
  destruct Hload as (Hret & Hl & Hm & Ha & Hiv).
  split; [ exact Hret | ]. split; [ exact Hl | ]. split; [ exact Hm | ].
  split; [ exact Ha | ].
  intros env Hnot Hgranted.
  destruct (room_start_outcome env (RoomForm.room (state_of (RoomForm.loadFaceApi e s))))
    as (_ & Hrec & Hint & Hcount & _).
  rewrite Hnot, andb_false_r, orb_false_r in Hint.
  rewrite Hnot, andb_false_r in Hcount.
  unfold RoomForm.inRoom, state_of, trace_of in *.
  destruct (Room.startInterview env _) as [[res rs] t]. cbn [fst snd] in *.
  cbn [RoomForm.room RoomForm.set_room].
  split.
  - rewrite Hrec.
    destruct (is_some _ (Room.getUserMedia env)) eqn:Ec; [ exact Hgranted | ].
    unfold room_granted in Hgranted. rewrite Ec in Hgranted. discriminate Hgranted.
  - split; [ now rewrite Hint | ].
    clear -Hcount. induction t as [|c t IH]; [ reflexivity | ].
    cbn [map filter] in *. destruct c; cbn in *; try apply IH; try exact Hcount.
    discriminate Hcount.
Qed.

(** The script fails to load; the interview is then started with
    everything granted. *)
Lemma model_loading_witness :
  let e := RoomForm.mkLoadEnv false false (Some tt) (Some tt) (Some tt) in
  let s := state_of (RoomForm.loadFaceApi e RoomForm.init) in
  let env := Room.mkStartEnv (Some tt) (Some tt) (Some tt) in
  RoomForm.isLoading s = false
  /\ Room.isRecording
       (RoomForm.room (state_of (RoomForm.inRoom (Room.startInterview env) s))) = true
  /\ filter is_form_interval (trace_of (RoomForm.inRoom (Room.startInterview env) s)) = [].
Proof.
  cbv zeta.
  destruct (model_loading_always_finishes
              (RoomForm.mkLoadEnv false false (Some tt) (Some tt) (Some tt))
              RoomForm.init) as (_ & Hl & _ & _ & Hstart).
  destruct (Hstart (Room.mkStartEnv (Some tt) (Some tt) (Some tt)))
    as (Hrec & _ & Hint); [ reflexivity | reflexivity | ].
  split; [ exact Hl | split; [ exact Hrec | exact Hint ] ].
Defined.

(** ** The interview page *)

(** X25. [fetchMatchDetails] never throws.  When the invitation is among
    the candidate's matches, the page stops loading and keeps the first
    simulation of the job, if the request for them succeeds and lists one;
    a failed or empty simulation request is tolerated.  When the invitation
    is missing the page navigates away and stays in its loading state; when
    the matches request fails it stops loading with an error.  A page left
    without a simulation hands the recorder no simulation id, and the
    recorder then refuses to start: one alert, no prompt, no device, no
    request. *)
Theorem page_loads_first_simulation_or_none
  (e : Page.fetch_env) (s : Page.state) :
  let r := Page.fetchMatchDetails e s in
  result_of r = Returned tt
  /\ (forall m, requested_match e = Some m ->
        Page.loading (state_of r) = false
        /\ Page.found (state_of r) = Some m
        /\ Page.loaded (state_of r)
           = match first_simulation e with
             | Some sim => Some sim
             | None => Page.loaded s
             end
        /\ In (Page.GetSimulations (Page.job_id m)) (trace_of r))
  /\ (Page.matches e <> None -> requested_match e = None ->
      state_of r = s
      /\ In (Page.Navigate "/candidate-dashboard") (trace_of r))
  /\ (Page.matches e = None ->
      Page.loading (state_of r) = false
      /\ Page.loaded (state_of r) = Page.loaded s
      /\ In (Page.ToastError "Failed to load interview") (trace_of r))
  /\ (forall (env : Recorder.start_env) (rs : Recorder.state),
        Page.simulationId_prop (state_of r) = None ->
        Recorder.startInterview (start_from_page (state_of r) env) rs
        = (Returned tt, rs,
           [Alert "Cannot start interview: No simulation available"])).
Proof.
  cbv zeta.
  destruct e as [mid ms sims]. destruct s as [fnd ld lg st].
  unfold Page.fetchMatchDetails, requested_match, first_simulation.
  cbn [Page.matches Page.matchId Page.simulations].
  split; [ | split; [ | split; [ | split ] ] ].
  - destruct ms as [ms|]; [ | reflexivity ]. eff_simpl.
    destruct (find _ ms); [ | reflexivity ].
    destruct sims as [[[|sim rest]|]|]; reflexivity.
  - intros m Hm. destruct ms as [ms|]; [ | discriminate Hm ]. eff_simpl.
    rewrite Hm.
    destruct sims as [[[|sim rest]|]|]; cbn; repeat split; auto 10.
  - intros Hms Hnone. destruct ms as [ms|]; [ | congruence ]. eff_simpl.
    rewrite Hnone. cbn. split; auto.
  - intros ->. eff_simpl. repeat split; auto.
  - intros env rs Hnone. unfold start_from_page. rewrite Hnone. reflexivity.
Qed.

(** A job without simulations: the page finishes loading, and the recorder
    it hosts refuses to start. *)
Lemma page_witness :
  let e := Page.mkFetchEnv (Some 5) (Some [Page.mkMatch 4 40; Page.mkMatch 5 50])
             (Some (Some [])) in
  let p := state_of (Page.fetchMatchDetails e Page.init) in
  let env := Recorder.mkStartEnv (Some 1) None true true (Some tt) (Some 41)
               (Some tt) (Some tt) (Some tt) (Some tt) in
  Page.loading p = false
  /\ trace_of (Recorder.startInterview (start_from_page p env) (Recorder.init []))
     = [Alert "Cannot start interview: No simulation available"].
Proof.
  cbv zeta.
  destruct (page_loads_first_simulation_or_none
              (Page.mkFetchEnv (Some 5) (Some [Page.mkMatch 4 40; Page.mkMatch 5 50])
                 (Some (Some [])))
              Page.init) as (_ & Hfound & _ & _ & Hstart).
  destruct (Hfound (Page.mkMatch 5 50)) as (Hl & _); [ reflexivity | ].
  split; [ exact Hl | ].
  rewrite Hstart; reflexivity.
Defined.

(** ** Landmark groups without points *)

Lemma add_nan_l (y : float) : (nan + y)%float = nan.
Proof.
  apply Prim2SF_inj. rewrite FloatAxioms.add_spec.
  change (Prim2SF nan) with S754_nan.
  destruct (Prim2SF y); reflexivity.
Qed.

Lemma add_nan_r (x : float) : (x + nan)%float = nan.
Proof.
  apply Prim2SF_inj. rewrite FloatAxioms.add_spec.
  change (Prim2SF nan) with S754_nan.
  destruct (Prim2SF x); reflexivity.
Qed.

Lemma sub_nan_l (y : float) : (nan - y)%float = nan.
Proof.
  apply Prim2SF_inj. rewrite FloatAxioms.sub_spec.
  change (Prim2SF nan) with S754_nan.
  destruct (Prim2SF y); reflexivity.
Qed.

Lemma sub_nan_r (x : float) : (x - nan)%float = nan.
Proof.
  apply Prim2SF_inj. rewrite FloatAxioms.sub_spec.
  change (Prim2SF nan) with S754_nan.
  destruct (Prim2SF x); reflexivity.
Qed.

Lemma getCenter_nil : Room.getCenter [] = Room.mkPoint nan nan.
Proof. reflexivity. Qed.

Lemma pose_without_an_eye (lm : Room.landmarks) (noseTip jawBottom : Room.point) :
  nth_error (Room.getNose lm) 3 = Some noseTip ->
  nth_error (Room.getJawOutline lm) 8 = Some jawBottom ->
  Room.getLeftEye lm = [] \/ Room.getRightEye lm = [] ->
  Room.calculateHeadPose lm = Some (Room.mkHeadPose nan nan).
Proof.
  intros Hnose Hjaw Heye. unfold Room.calculateHeadPose. rewrite Hnose, Hjaw.
  destruct Heye as [-> | ->]; rewrite getCenter_nil; cbn [Room.x Room.y];
    rewrite ?add_nan_l, ?add_nan_r;
    change (nan / 2)%float with nan;
    rewrite ?sub_nan_r, ?sub_nan_l;
    change (abs nan) with nan;
    change (nan / nan * 90)%float with nan;
    change (nan * 0.5)%float with nan;
    rewrite ?sub_nan_r;
    reflexivity.
Qed.

(** X26. [getCenter] of a group without points is not a number in both
    coordinates, and that propagates: when the single detected face has no
    points for one of its eyes, yaw and pitch are both NaN, neither
    threshold test passes, and the tick marks the face as detected without
    adding any flag or making any call. *)
Theorem face_without_an_eye_raises_no_flag
  (s : Room.state) (lm : Room.landmarks) (noseTip jawBottom : Room.point)
  (c : Room.clock) :
  nth_error (Room.getNose lm) 3 = Some noseTip ->
  nth_error (Room.getJawOutline lm) 8 = Some jawBottom ->
  Room.getLeftEye lm = [] \/ Room.getRightEye lm = [] ->
  Room.modelsLoaded s = true ->
  let r := Room.detectionTick (Room.mkTick true (Some [lm]) true c) s in
  Room.getCenter [] = Room.mkPoint nan nan
  /\ Room.calculateHeadPose lm = Some (Room.mkHeadPose nan nan)
  /\ result_of r = Returned tt
  /\ state_of r = Room.set_faceDetected true s
  /\ trace_of r = [].
Proof.
  intros Hnose Hjaw Heye Hloaded r.
  pose proof (pose_without_an_eye lm noseTip jawBottom Hnose Hjaw Heye) as Hpose.
  split; [ reflexivity | ]. split; [ exact Hpose | ].
  subst r. unfold Room.detectionTick. rewrite bind_get.
  cbn [Room.ready Room.detections Room.draw_ok Room.at_time andb].
  rewrite Hloaded. unfold when, try_catch.
  rewrite bind_ret. cbn [List.length Nat.ltb Nat.leb negb andb].
  rewrite bind_ret, bind_modify, Hpose.
  repeat split; reflexivity.
Qed.

(** A face whose left eye has no points. *)
Lemma face_without_an_eye_witness :
  let lm := Room.mkLandmarks
              (repeat (Room.mkPoint 160 130) 9) []
              (repeat (Room.mkPoint 160 100) 6)
              (repeat (Room.mkPoint 130 150) 20)
              (repeat (Room.mkPoint 130 200) 17) in
  Room.proctoringFlags
    (state_of (Room.detectionTick
                 (Room.mkTick true (Some [lm]) true (Room.mkClock 0 0))
                 (Room.init true))) = [].
Proof.
  cbv zeta.
  destruct (face_without_an_eye_raises_no_flag (Room.init true)
              (Room.mkLandmarks
                 (repeat (Room.mkPoint 160 130) 9) []
                 (repeat (Room.mkPoint 160 100) 6)
                 (repeat (Room.mkPoint 130 150) 20)
                 (repeat (Room.mkPoint 130 200) 17))
              (Room.mkPoint 160 130) (Room.mkPoint 130 200) (Room.mkClock 0 0))
    as (_ & _ & _ & Hst & _);
    [ reflexivity | reflexivity | left; reflexivity | reflexivity | ].
  rewrite Hst. reflexivity.
Defined.
